(** * Statistical inference engine of the data-analysis dashboard

    A shallow embedding of the two analyzers of the repository,
    [DataAnalyzer] (the exploratory dashboard) and
    [ComprehensiveDataAnalyzer] (script.js), together with the properties
    their specification states about them.

    JavaScript numbers are IEEE-754 binary64 values; they are modelled by
    Rocq's primitive floats, whose operations are the same correctly rounded
    ones.  Objects used as records become records, arrays become lists, and
    a row (an object read in [Object.keys] order) becomes an association
    list.  The built-ins of the host that read or print text
    ([parseFloat], [Number], [Date.parse], ...) are gathered in the class
    [Engine]; every general theorem holds for any engine. *)

From Stdlib Require Import Floats ZArith List String Ascii Bool Arith Lia.
From Stdlib Require Import Permutation DecimalString Sorted.
From Stdlib Require QArith.

Set Warnings "-inexact-float".
Import ListNotations.

Set Implicit Arguments.

(* ================================================================= *)
(** ** JavaScript numbers *)

Module Js.

Local Open Scope float_scope.

Definition number := float.

(** [isNaN x] for a number [x]. *)
Definition isNaN (x : number) : bool := negb (x =? x).

(** [Number.isFinite]: neither NaN nor an infinity. *)
Definition isFiniteNum (x : number) : bool := PrimFloat.is_finite x.

(** [a > b], [a >= b] and [a === b] on numbers. *)
Definition gt (a b : number) : bool := b <? a.
Definition ge (a b : number) : bool := b <=? a.
Definition lt (a b : number) : bool := a <? b.
Definition strictEq (a b : number) : bool := a =? b.

Definition Math_abs (x : number) : number := PrimFloat.abs x.
Definition Math_sqrt (x : number) : number := PrimFloat.sqrt x.

(** [Math.pow(x, 2)] and [Math.pow(x, 3)].  ECMA-262 leaves the precision of
    [Math.pow] to the implementation; the model takes the correctly rounded
    products, which agree with every implementation on the exact cases
    (among them [Math.pow(0, n) = 0]). *)
Definition Math_pow2 (x : number) : number := x * x.
Definition Math_pow3 (x : number) : number := x * x * x.

(** An array length or an index as a number (exact below 2^53). *)
Definition ofNat (n : nat) : number := PrimFloat.of_uint63 (Uint63.of_Z (Z.of_nat n)).

(** [Math.min(...xs)] and [Math.max(...xs)]: NaN is absorbing, and the
    results on the empty list are [Infinity] and [-Infinity].  The spread
    passes every element as an argument of the call; an engine bounds the
    number of arguments a call takes and throws a [RangeError] beyond it,
    so the folds are the results of the calls within that bound. *)
Definition min2 (a b : number) : number :=
  if isNaN a then a else if isNaN b then b
  else if a <? b then a else if b <? a then b
  else if PrimFloat.get_sign a then a else b.
Definition max2 (a b : number) : number :=
  if isNaN a then a else if isNaN b then b
  else if a <? b then b else if b <? a then a
  else if PrimFloat.get_sign a then b else a.
Definition Math_min (xs : list number) : number := fold_left min2 xs PrimFloat.infinity.
Definition Math_max (xs : list number) : number := fold_left max2 xs PrimFloat.neg_infinity.

(** [xs.reduce((a, b) => a + b, 0)]. *)
Definition sum (xs : list number) : number := fold_left PrimFloat.add xs 0.

(** The mathematical integer part of a number, truncated toward zero
    ([ToIntegerOrInfinity] on a finite number). *)
Definition truncZ (x : number) : Z :=
  match Prim2SF x with
  | S754_finite s m e =>
      let a := if (0 <=? e)%Z then (Zpos m * 2 ^ e)%Z else (Zpos m / 2 ^ (- e))%Z in
      if s then (- a)%Z else a
  | _ => 0%Z
  end.

(** The number nearest to an integer (exact below 2^53). *)
Definition ofZ (z : Z) : number := SF2Prim (binary_normalize prec emax z 0 false).

(** The number nearest to [m * 10^e10], for [m >= 0], with sign [neg]:
    the value of a decimal literal.  The quotient is rounded once, by the
    division of the specification of binary64. *)
Definition ofDecimal (neg : bool) (m : Z) (e10 : Z) : number :=
  match m with
  | Zpos p =>
      if (0 <=? e10)%Z
      then SF2Prim (binary_normalize prec emax
                      (if neg then - (m * 10 ^ e10) else m * 10 ^ e10)%Z 0 false)
      else match (10 ^ (- e10))%Z with
           | Zpos q => SF2Prim (SFdiv prec emax (S754_finite neg p 0) (S754_finite false q 0))
           | _ => PrimFloat.nan
           end
  | _ => if neg then PrimFloat.neg_zero else PrimFloat.zero
  end.

(** [Array.prototype.sort(comparefn)] as the stable insertion sort: each
    element moves left past the elements that [comparefn] orders after it
    ([comparefn(tmp, element) > 0]); a NaN or zero result leaves the pair in
    place.  The sorted prefix is kept reversed while the array is scanned. *)
Section Sort.
Variable A : Type.
Variable comparefn : A -> A -> number.

Fixpoint insertBack (element : A) (revPrefix : list A) : list A :=
  match revPrefix with
  | [] => [element]
  | tmp :: rest =>
      if gt (comparefn tmp element) 0
      then tmp :: insertBack element rest
      else element :: tmp :: rest
  end.

Definition sort (xs : list A) : list A :=
  rev (fold_left (fun acc x => insertBack x acc) xs []).
End Sort.

End Js.

(* ================================================================= *)
(** ** Strings *)

Module Str.

Local Open Scope string_scope.

Definition lowerAscii (c : ascii) : ascii :=
  let n := nat_of_ascii c in
  if (65 <=? n)%nat && (n <=? 90)%nat then ascii_of_nat (n + 32) else c.

(** [s.toLowerCase()], on the ASCII letters. *)
Fixpoint toLowerCase (s : string) : string :=
  match s with
  | EmptyString => EmptyString
  | String c r => String (lowerAscii c) (toLowerCase r)
  end.

(** [s.includes(sub)]. *)
Fixpoint includes (s sub : string) : bool :=
  String.prefix sub s ||
  match s with
  | EmptyString => false
  | String _ r => includes r sub
  end.

Definition isSpace (c : ascii) : bool :=
  let n := nat_of_ascii c in
  (n =? 32)%nat || ((9 <=? n)%nat && (n <=? 13)%nat).

Fixpoint trimStart (s : string) : string :=
  match s with
  | String c r => if isSpace c then trimStart r else s
  | EmptyString => s
  end.

Definition digitOf (c : ascii) : option Z :=
  let n := nat_of_ascii c in
  if (48 <=? n)%nat && (n <=? 57)%nat then Some (Z.of_nat (n - 48)) else None.

(** The longest run of decimal digits at the head of [s]: its value
    accumulated on [acc], its length, and the rest of the string. *)
Fixpoint digits (s : string) (acc : Z) (len : nat) : Z * nat * string :=
  match s with
  | String c r =>
      match digitOf c with
      | Some d => digits r (10 * acc + d)%Z (S len)
      | None => (acc, len, s)
      end
  | EmptyString => (acc, len, s)
  end.

Definition upperAscii (c : ascii) : ascii :=
  let n := nat_of_ascii c in
  if (97 <=? n)%nat && (n <=? 122)%nat then ascii_of_nat (n - 32) else c.

(** The class [\w] of regular expressions. *)
Definition isWordChar (c : ascii) : bool :=
  let n := nat_of_ascii c in
  ((48 <=? n)%nat && (n <=? 57)%nat) || ((65 <=? n)%nat && (n <=? 90)%nat)
  || ((97 <=? n)%nat && (n <=? 122)%nat) || (n =? 95)%nat.

(** [s.replace(/_/g, ' ')] *)
Fixpoint underscoresToSpaces (s : string) : string :=
  match s with
  | EmptyString => EmptyString
  | String c r => String (if Ascii.eqb c "_" then " "%char else c) (underscoresToSpaces r)
  end.

(** [s.replace(/\b\w/g, l => l.toUpperCase())]; [inWord] tells whether the
    previous character is a word character. *)
Fixpoint capitalizeWords (inWord : bool) (s : string) : string :=
  match s with
  | EmptyString => EmptyString
  | String c r =>
      String (if isWordChar c && negb inWord then upperAscii c else c)
             (capitalizeWords (isWordChar c) r)
  end.

(** The decimal digits of a natural number. *)
Definition digitString (z : Z) : string :=
  DecimalString.NilZero.string_of_uint (N.to_uint (Z.to_N z)).

Fixpoint zeros (n : nat) : string :=
  match n with O => EmptyString | S k => String "0" (zeros k) end.

(** The white space and line terminators [trim] strips, among the code
    units below 256: tab, line feed, vertical tab, form feed, carriage
    return, space and no-break space. *)
Definition isWhiteSpace (c : ascii) : bool :=
  let n := nat_of_ascii c in
  (n =? 32)%nat || ((9 <=? n)%nat && (n <=? 13)%nat) || (n =? 160)%nat.

Fixpoint trimLeft (s : string) : string :=
  match s with
  | String c r => if isWhiteSpace c then trimLeft r else s
  | EmptyString => s
  end.

Fixpoint trimRight (s : string) : string :=
  match s with
  | EmptyString => EmptyString
  | String c r =>
      match trimRight r with
      | EmptyString => if isWhiteSpace c then EmptyString else String c EmptyString
      | r' => String c r'
      end
  end.

(** [s.trim()] *)
Definition trim (s : string) : string := trimRight (trimLeft s).

(** [s.split(sep)] for a separator of one character. *)
Fixpoint split (sep : ascii) (s : string) : list string :=
  match s with
  | EmptyString => [EmptyString]
  | String c r =>
      if Ascii.eqb c sep then EmptyString :: split sep r
      else match split sep r with
           | piece :: pieces => String c piece :: pieces
           | [] => [String c EmptyString]
           end
  end.

End Str.

(* ================================================================= *)
(** ** Tables *)

(** A raw cell: a string (every cell of a CSV file), a number, [null]
    (both from JSON), or [undefined] (the row has no such key). *)
Inductive cell :=
| CUndefined
| CNull
| CNum (x : Js.number)
| CStr (s : string).

(** A row is an object; the list holds its own properties in the order
    [Object.keys] enumerates them. *)
Definition row := list (string * cell).
Definition table := list row.

(** [row[col]]. *)
Fixpoint getProp (r : row) (col : string) : cell :=
  match r with
  | [] => CUndefined
  | (k, v) :: r' => if String.eqb k col then v else getProp r' col
  end.

Definition Object_keys (r : row) : list string := map fst r.

(** [val != null && val !== ''], the filter of every sample. *)
Definition nonEmpty (val : cell) : bool :=
  match val with
  | CUndefined | CNull => false
  | CStr s => negb (String.eqb s "")
  | CNum _ => true
  end.

(** The built-ins of the host that convert between text and numbers.
    ECMA-262 fixes [parseFloat] and [Number]; [Date.parse] is
    implementation-defined outside the ISO format, [getFullYear] depends on
    the local time zone. *)
Class Engine := {
  (** [parseFloat(s)] *)
  parseFloatS : string -> Js.number;
  (** [Number(s)], the conversion [isFinite(s)] applies *)
  NumberS : string -> Js.number;
  (** [Date.parse(s)]: a time value or NaN *)
  DateParseS : string -> Js.number;
  (** the local-time year of a time value *)
  yearFromTime : Js.number -> Js.number;
  (** [String(x)] for a number [x] *)
  NumberToString : Js.number -> string;
  (** [x.toLocaleString()] in the locale of the host *)
  toLocaleString : Js.number -> string
}.

Section HostValues.
Context {E : Engine}.
Local Open Scope float_scope.

(** [parseFloat(val)]: the argument is first converted to a string, which
    loses the sign of [-0]. *)
Definition parseFloat (val : cell) : Js.number :=
  match val with
  | CUndefined | CNull => PrimFloat.nan
  | CNum x => if x =? 0 then 0 else x
  | CStr s => parseFloatS s
  end.

(** [Number(val)]. *)
Definition ToNumber (val : cell) : Js.number :=
  match val with
  | CUndefined => PrimFloat.nan
  | CNull => 0
  | CNum x => x
  | CStr s => NumberS s
  end.

(** The global [isFinite(val)]. *)
Definition isFinite (val : cell) : bool := Js.isFiniteNum (ToNumber val).

(** [TimeClip]. *)
Definition TimeClip (t : Js.number) : Js.number :=
  if negb (Js.isFiniteNum t) then PrimFloat.nan
  else if Js.gt (Js.Math_abs t) 8.64e15 then PrimFloat.nan
  else Js.ofZ (Js.truncZ t).

(** [new Date(val).getTime()]. *)
Definition dateTime (val : cell) : Js.number :=
  match val with
  | CStr s => TimeClip (DateParseS s)
  | _ => TimeClip (ToNumber val)
  end.

(** [new Date(val).getFullYear()]. *)
Definition dateFullYear (val : cell) : Js.number :=
  let t := dateTime val in
  if Js.isNaN t then PrimFloat.nan else yearFromTime t.

(** [String(val)], the property key a cell is used as. *)
Definition ToString (val : cell) : string :=
  match val with
  | CUndefined => "undefined"
  | CNull => "null"
  | CNum x => NumberToString x
  | CStr s => s
  end.

(** [x.toFixed(d)]: the decimal with [d] fraction digits nearest to [x],
    the larger one on a tie; [String(x)] from 1e21 on. *)
Definition toFixed (x : Js.number) (d : nat) : string :=
  match Prim2SF x with
  | S754_nan => "NaN"
  | S754_zero _ => "0" ++ match d with O => "" | _ => "." ++ Str.zeros d end
  | S754_infinity _ => NumberToString x
  | S754_finite s m e =>
      if Js.ge (Js.Math_abs x) 1e21 then NumberToString x
      else
        let '(num, den) :=
          if (0 <=? e)%Z then (Zpos m * 2 ^ e, 1)%Z else (Zpos m, 2 ^ (- e))%Z in
        let n := ((2 * num * 10 ^ Z.of_nat d + den) / (2 * den))%Z in
        let ds := Str.digitString n in
        let ds := Str.zeros (S d - String.length ds) ++ ds in
        let k := (String.length ds - d)%nat in
        (if s then "-" else "") ++ String.substring 0 k ds ++
        match d with O => "" | _ => "." ++ String.substring k d ds end
  end%string.

(** [SameValueZero], the equality of [Set]. *)
Definition sameValueZero (a b : cell) : bool :=
  match a, b with
  | CUndefined, CUndefined | CNull, CNull => true
  | CNum x, CNum y => (x =? y) || (Js.isNaN x && Js.isNaN y)
  | CStr s, CStr t => String.eqb s t
  | _, _ => false
  end.
End HostValues.

(* ================================================================= *)
(** ** A reference engine

    An executable host for decimal data: [parseFloat] and [Number] on
    decimal literals (radix prefixes are not read), [Date.parse] on the ISO
    calendar forms [YYYY], [YYYY-MM] and [YYYY-MM-DD], years in UTC, and the
    shortest decimal that reads back for [String]. *)

Module RefEngine.

Local Open Scope string_scope.
Local Open Scope Z_scope.

(** An optional sign. *)
Definition sign (s : string) : bool * string :=
  match s with
  | String "-" r => (true, r)
  | String "+" r => (false, r)
  | _ => (false, s)
  end.

(** The exponent part [e[+-]ddd] of a literal, if any, and what follows. *)
Definition exponentPart (s : string) : Z * string :=
  match s with
  | String c r =>
      if Ascii.eqb c "e" || Ascii.eqb c "E" then
        let '(neg, r1) := sign r in
        let '(v, len, r2) := Str.digits r1 0 0 in
        match len with
        | O => (0, s)
        | _ => (if neg then - v else v, r2)
        end
      else (0, s)
  | EmptyString => (0, s)
  end.

(** The longest prefix of [s] that is a [StrDecimalLiteral]: its value and
    the rest of [s]. *)
Definition decimalLiteral (s : string) : option (Js.number * string) :=
  let '(neg, s1) := sign s in
  if String.prefix "Infinity" s1
  then Some (if neg then PrimFloat.neg_infinity else PrimFloat.infinity,
             String.substring 8 (String.length s1 - 8) s1)
  else
    let '(ip, ilen, r1) := Str.digits s1 0 0 in
    let '(m, flen, r2) :=
      match r1 with
      | String "." r => Str.digits r ip 0
      | _ => (ip, O, r1)
      end in
    match (ilen + flen)%nat with
    | O => None
    | _ => let '(e, r3) := exponentPart r2 in
           Some (Js.ofDecimal neg m (e - Z.of_nat flen), r3)
    end.

Definition parseFloatS (s : string) : Js.number :=
  match decimalLiteral (Str.trimStart s) with
  | Some (x, _) => x
  | None => PrimFloat.nan
  end.

Definition NumberS (s : string) : Js.number :=
  match Str.trimStart s with
  | EmptyString => PrimFloat.zero
  | t => match decimalLiteral t with
         | Some (x, rest) =>
             match Str.trimStart rest with
             | EmptyString => x
             | _ => PrimFloat.nan
             end
         | None => PrimFloat.nan
         end
  end.

(** Days from 1970-01-01 to the civil date [y]-[m]-[d] (proleptic
    Gregorian calendar), and the year of a day number. *)
Definition daysFromCivil (y m d : Z) : Z :=
  let y' := if m <=? 2 then y - 1 else y in
  let era := y' / 400 in
  let yoe := y' - era * 400 in
  let doy := (153 * (if 2 <? m then m - 3 else m + 9) + 2) / 5 + d - 1 in
  let doe := yoe * 365 + yoe / 4 - yoe / 100 + doy in
  era * 146097 + doe - 719468.

Definition yearFromDays (days : Z) : Z :=
  let z := days + 719468 in
  let era := z / 146097 in
  let doe := z - era * 146097 in
  let yoe := (doe - doe / 1460 + doe / 36524 - doe / 146096) / 365 in
  let doy := doe - (365 * yoe + yoe / 4 - yoe / 100) in
  let mp := (5 * doy + 2) / 153 in
  let m := if mp <? 10 then mp + 3 else mp - 9 in
  yoe + era * 400 + (if m <=? 2 then 1 else 0).

Definition msPerDay : Z := 86400000.

(** A field of exactly [n] digits. *)
Definition field (n : nat) (s : string) : option (Z * string) :=
  let '(v, len, r) := Str.digits (String.substring 0 n s) 0 0 in
  if (len =? n)%nat && (String.length r =? 0)%nat
  then Some (v, String.substring n (String.length s - n) s) else None.

Definition dashField (s : string) (dflt : Z) : option (Z * string) :=
  match s with
  | EmptyString => Some (dflt, s)
  | String "-" r => field 2 r
  | _ => None
  end.

Definition DateParseS (s : string) : Js.number :=
  match field 4 s with
  | Some (y, r1) =>
      match dashField r1 1 with
      | Some (m, r2) =>
          match dashField r2 1 with
          | Some (d, EmptyString) =>
              if (1 <=? m) && (m <=? 12) && (1 <=? d) && (d <=? 31)
              then Js.ofZ (daysFromCivil y m d * msPerDay)
              else PrimFloat.nan
          | _ => PrimFloat.nan
          end
      | None => PrimFloat.nan
      end
  | None => PrimFloat.nan
  end.

Definition yearFromTime (t : Js.number) : Js.number :=
  if Js.isNaN t then PrimFloat.nan
  else Js.ofZ (yearFromDays (Js.truncZ t / msPerDay)).

(** *** [Number::toString] *)

(** [num / den < 10^k]. *)
Definition below10 (num den k : Z) : bool :=
  if 0 <=? k then num <? den * 10 ^ k else num * 10 ^ (- k) <? den.

(** The least [k >= k0] with [num / den < 10^k]. *)
Fixpoint decimalExponent (fuel : nat) (num den k0 : Z) : Z :=
  match fuel with
  | O => k0
  | S f => if below10 num den k0 then k0 else decimalExponent f num den (k0 + 1)
  end.

(** The integer nearest to [num / den / 10^k]. *)
Definition scaled (num den k : Z) : Z :=
  let '(a, b) := if 0 <=? k then (num, den * 10 ^ k) else (num * 10 ^ (- k), den) in
  (2 * a + b) / (2 * b).

(** The fewest digits [p], at least [p0], whose decimal reads back as [x]:
    the digits, their number, and the decimal exponent (one more than [n]
    when the digits round up to a power of ten). *)
Fixpoint shortest (fuel : nat) (x : Js.number) (num den n : Z) (p0 : Z) : Z * Z * Z :=
  let s := scaled num den (n - p0) in
  let found := if s =? 10 ^ p0 then (1, 1, n + 1) else (s, p0, n) in
  match fuel with
  | O => found
  | S f => if PrimFloat.eqb (Js.ofDecimal false s (n - p0)) x then found
           else shortest f x num den n (p0 + 1)
  end.

Definition positiveToString (m : positive) (e : Z) (x : Js.number) : string :=
  let '(num, den) := if 0 <=? e then (Zpos m * 2 ^ e, 1) else (Zpos m, 2 ^ (- e)) in
  let '(s, p, n) := shortest 17 x num den (decimalExponent 700 num den (-330)) 1 in
  let ds := Str.digitString s in
  if (p <=? n) && (n <=? 21) then ds ++ Str.zeros (Z.to_nat (n - p))
  else if (0 <? n) && (n <=? 21)
  then String.substring 0 (Z.to_nat n) ds ++ "." ++
       String.substring (Z.to_nat n) (Z.to_nat (p - n)) ds
  else if (-6 <? n) && (n <=? 0) then "0." ++ Str.zeros (Z.to_nat (- n)) ++ ds
  else
    let ex := (if 0 <=? n - 1 then "e+" else "e-") ++ Str.digitString (Z.abs (n - 1)) in
    if p =? 1 then ds ++ ex
    else String.substring 0 1 ds ++ "." ++ String.substring 1 (Z.to_nat (p - 1)) ds ++ ex.

Definition NumberToString (x : Js.number) : string :=
  match Prim2SF x with
  | S754_nan => "NaN"
  | S754_zero _ => "0"
  | S754_infinity s => if s then "-Infinity" else "Infinity"
  | S754_finite s m e =>
      (if s then "-" else "") ++ positiveToString m e (PrimFloat.abs x)
  end.

(** *** [toLocaleString] in the en-US locale: groups of three digits and
    at most three fraction digits, rounded half to even. *)

Fixpoint group3 (n : nat) (ds : string) : string :=
  match ds with
  | EmptyString => ds
  | String c r =>
      String c (if (0 <? n)%nat && (n mod 3 =? 0)%nat then String "," (group3 (n - 1) r)
                else group3 (n - 1) r)
  end.

Fixpoint dropTrailingZeros (fuel : nat) (frac : Z) (len : nat) : string :=
  match fuel with
  | O => EmptyString
  | S f =>
      if frac =? 0 then EmptyString
      else if frac mod 10 =? 0 then dropTrailingZeros f (frac / 10) (len - 1)
      else let ds := Str.digitString frac in
           "." ++ Str.zeros (len - String.length ds) ++ ds
  end.

Definition toLocaleString (x : Js.number) : string :=
  match Prim2SF x with
  | S754_nan => "NaN"
  | S754_zero s => if s then "-0" else "0"
  | S754_infinity s => if s then "-∞" else "∞"
  | S754_finite s m e =>
      let '(num, den) := if 0 <=? e then (Zpos m * 2 ^ e, 1) else (Zpos m, 2 ^ (- e)) in
      let a := 1000 * num in
      let q := a / den in
      let r := a mod den in
      let n := if (den <? 2 * r) || ((2 * r =? den) && Z.odd q) then q + 1 else q in
      let ip := Str.digitString (n / 1000) in
      (if s then "-" else "") ++ group3 (String.length ip - 1) ip ++
      dropTrailingZeros 3 (n mod 1000) 3
  end.

End RefEngine.

#[export] Instance refEngine : Engine := {|
  parseFloatS := RefEngine.parseFloatS;
  NumberS := RefEngine.NumberS;
  DateParseS := RefEngine.DateParseS;
  yearFromTime := RefEngine.yearFromTime;
  NumberToString := RefEngine.NumberToString;
  toLocaleString := RefEngine.toLocaleString
|}.

(* ================================================================= *)
(** ** Exceptions *)

Inductive exn :=
| Error (message : string)       (** [throw new Error(message)] *)
| TypeError (message : string).  (** a property read on [null] *)

Inductive result (A : Type) :=
| Ok (a : A)
| Throw (e : exn).
Arguments Ok {A} a.
Arguments Throw {A} e.

Definition bind {A B} (m : result A) (k : A -> result B) : result B :=
  match m with
  | Ok a => k a
  | Throw e => Throw e
  end.

Declare Scope js_scope.
Delimit Scope js_scope with js.
Notation "x <- m ;; k" := (bind m (fun x => k))
  (at level 61, m at next level, right associativity) : js_scope.

(** A loop over an array whose body may throw. *)
Fixpoint forEachM {A S} (body : S -> A -> result S) (xs : list A) (s : S) : result S :=
  match xs with
  | [] => Ok s
  | x :: xs' => bind (body s x) (forEachM body xs')
  end.

(** [xs.map(f)] for an [f] that may throw. *)
Fixpoint mapM {A B} (f : A -> result B) (xs : list A) : result (list B) :=
  match xs with
  | [] => Ok []
  | x :: xs' => bind (f x) (fun b => bind (mapM f xs') (fun bs => Ok (b :: bs)))
  end.

(** [xs.map((x, index) => f(x, index))]. *)
Fixpoint mapiFrom {A B} (i : nat) (f : A -> nat -> B) (xs : list A) : list B :=
  match xs with
  | [] => []
  | x :: xs' => f x i :: mapiFrom (S i) f xs'
  end.
Definition mapi {A B} (f : A -> nat -> B) (xs : list A) : list B := mapiFrom 0 f xs.

(** The pairs [(cols[i], cols[j])], [i < j], in the order of the nested
    loops [for i ... for j = i + 1 ...]. *)
Fixpoint columnPairs (cols : list string) : list (string * string) :=
  match cols with
  | [] => []
  | c :: rest => map (pair c) rest ++ columnPairs rest
  end.

(** A point [{x, y}] of a regression or of a correlation. *)
Record point := { x : Js.number; y : Js.number }.

(* ================================================================= *)
(** ** Objects used as maps

    An object built by assignments [o[k] = v], read back by [Object.keys],
    [Object.values] and [Object.entries]: integer-like keys come first, in
    ascending order, then the other keys in the order of their first
    assignment.  Assigning [__proto__] creates no own property. *)

Module Obj.

Local Open Scope string_scope.

Definition t (V : Type) := list (string * V).

(** The array index a key denotes, if it is a canonical one. *)
Definition arrayIndex (k : string) : option Z :=
  let '(v, len, rest) := Str.digits k 0 0 in
  if (0 <? len)%nat && String.eqb rest ""
     && (String.eqb k "0" || negb (String.prefix "0" k))
     && (v <=? 4294967294)%Z
  then Some v else None.

Definition precedes (k k' : string) : bool :=
  match arrayIndex k, arrayIndex k' with
  | Some i, Some j => (i <? j)%Z
  | Some _, None => true
  | None, _ => false
  end.

Fixpoint mem {V} (o : t V) (k : string) : bool :=
  match o with
  | [] => false
  | (k', _) :: o' => String.eqb k' k || mem o' k
  end.

Fixpoint get {V} (o : t V) (k : string) : option V :=
  match o with
  | [] => None
  | (k', v) :: o' => if String.eqb k' k then Some v else get o' k
  end.

Fixpoint replace {V} (o : t V) (k : string) (v : V) : t V :=
  match o with
  | [] => []
  | (k', v') :: o' =>
      if String.eqb k' k then (k', v) :: o' else (k', v') :: replace o' k v
  end.

Fixpoint insert {V} (o : t V) (k : string) (v : V) : t V :=
  match o with
  | [] => [(k, v)]
  | (k', v') :: o' =>
      if precedes k k' then (k, v) :: o else (k', v') :: insert o' k v
  end.

(** [o[k] = v]. *)
Definition set {V} (o : t V) (k : string) (v : V) : t V :=
  if String.eqb k "__proto__" then o
  else if mem o k then replace o k v
  else insert o k v.

Definition keys {V} (o : t V) : list string := map fst o.
Definition values {V} (o : t V) : list V := map snd o.

(** The names every object inherits from [Object.prototype]: [o[k]] is
    truthy for them on an object that has no own [k]. *)
Definition inherited : list string :=
  ["constructor"; "hasOwnProperty"; "isPrototypeOf"; "propertyIsEnumerable";
   "toLocaleString"; "toString"; "valueOf"; "__proto__";
   "__defineGetter__"; "__defineSetter__"; "__lookupGetter__"; "__lookupSetter__"].

End Obj.

(* ================================================================= *)
(** ** Reading a CSV file

    [parseCSVLine] and [parseCSV] are the same in both analyzers, but for
    the message of the last error. *)

Section Csv.
Local Open Scope string_scope.

(** The double quote. *)
Definition quote : ascii := "034"%char.

(** The loop of [parseCSVLine] from the character [line[i]] on; [line] is
    what is left of the line there.  A quote inside quotes that another
    quote follows is one quote of the field, and the loop skips the
    second. *)
Fixpoint parseCSVLineFrom (line : string) (result : list string)
    (current : string) (inQuotes : bool) : list string :=
  match line with
  | EmptyString => (result ++ [Str.trim current])%list
  | String char rest =>
      match rest with
      | String nextChar rest' =>
          if Ascii.eqb char quote && inQuotes && Ascii.eqb nextChar quote
          then parseCSVLineFrom rest' result (current ++ String quote "") inQuotes
          else if Ascii.eqb char quote
          then parseCSVLineFrom rest result current (negb inQuotes)
          else if Ascii.eqb char "," && negb inQuotes
          then parseCSVLineFrom rest (result ++ [Str.trim current])%list "" inQuotes
          else parseCSVLineFrom rest result (current ++ String char "") inQuotes
      | EmptyString =>
          if Ascii.eqb char quote
          then parseCSVLineFrom rest result current (negb inQuotes)
          else if Ascii.eqb char "," && negb inQuotes
          then parseCSVLineFrom rest (result ++ [Str.trim current])%list "" inQuotes
          else parseCSVLineFrom rest result (current ++ String char "") inQuotes
      end
  end.

Definition parseCSVLine (line : string) : list string :=
  parseCSVLineFrom line [] "" false.

(** The object [row] of one line: [row[header] = values[index] || ''] for
    each header in turn. *)
Definition csvRow (headers values : list string) : row :=
  fst (fold_left (fun '(row, index) header =>
                    (Obj.set row header (CStr (nth index values "")), S index))
                 headers ([], O)).

(** [parseCSV], with the message of its last error.  Nothing in the [try]
    block throws, so the [catch] is never entered. *)
Definition parseCSVWith (noRows : string) (text : string) : result table :=
  let lines := filter (fun line => negb (String.eqb (Str.trim line) ""))
                 (Str.split "010"%char (Str.trim text)) in
  match lines with
  | [] => Throw (Error "Empty CSV file")
  | first :: rest =>
      let headers := parseCSVLine first in
      let data :=
        fold_left (fun data line =>
                     let values := parseCSVLine line in
                     if negb (List.length values =? List.length headers)%nat
                     then data
                     else (data ++ [csvRow headers values])%list)
                  rest [] in
      match data with
      | [] => Throw (Error noRows)
      | _ => Ok data
      end
  end.

End Csv.

(* ================================================================= *)
(** ** The tests both analyzers apply to the cells of a column *)

Section Sampling.
Context {E : Engine}.
Local Open Scope float_scope.

(** [!isNaN(parseFloat(val)) && isFinite(val)] *)
Definition isNumericValue (val : cell) : bool :=
  negb (Js.isNaN (parseFloat val)) && isFinite val.

(** [!isNaN(date.getTime()) && date.getFullYear() > 1900] for
    [date = new Date(val)] *)
Definition isDateValue (val : cell) : bool :=
  negb (Js.isNaN (dateTime val)) && Js.gt (dateFullYear val) 1900.

(** The non-empty cells of a column in the first [n] rows. *)
Definition sampleOf (rows : table) (n : nat) (col : string) : list cell :=
  filter nonEmpty (map (fun row => getProp row col) (firstn n rows)).

(** [rows.map(row => parseFloat(row[column])).filter(v => !isNaN(v))] *)
Definition columnValues (rows : table) (column : string) : list Js.number :=
  filter (fun v => negb (Js.isNaN v))
    (map (fun row => parseFloat (getProp row column)) rows).

(** The rows paired on two columns, where both values parse. *)
Definition correlationPairs (rows : table) (col1 col2 : string) : list point :=
  filter (fun pair => negb (Js.isNaN (x pair)) && negb (Js.isNaN (y pair)))
    (map (fun row => {| x := parseFloat (getProp row col1);
                        y := parseFloat (getProp row col2) |}) rows).

Definition pearsonNumerator (pairs : list point) : Js.number :=
  let n := Js.ofNat (List.length pairs) in
  let sumX := fold_left (fun sum pair => sum + x pair) pairs 0 in
  let sumY := fold_left (fun sum pair => sum + y pair) pairs 0 in
  let sumXY := fold_left (fun sum pair => sum + x pair * y pair) pairs 0 in
  n * sumXY - sumX * sumY.

Definition pearsonDenominator (pairs : list point) : Js.number :=
  let n := Js.ofNat (List.length pairs) in
  let sumX := fold_left (fun sum pair => sum + x pair) pairs 0 in
  let sumY := fold_left (fun sum pair => sum + y pair) pairs 0 in
  let sumXX := fold_left (fun sum pair => sum + x pair * x pair) pairs 0 in
  let sumYY := fold_left (fun sum pair => sum + y pair * y pair) pairs 0 in
  Js.Math_sqrt ((n * sumXX - sumX * sumX) * (n * sumYY - sumY * sumY)).

(** The median of a sorted array; an index past the end reads
    [undefined], which the arithmetic turns into NaN. *)
Definition median_of (sortedValues : list Js.number) : Js.number :=
  let n := List.length sortedValues in
  if (n mod 2 =? 0)%nat
  then (nth (n / 2 - 1) sortedValues PrimFloat.nan
        + nth (n / 2) sortedValues PrimFloat.nan) / 2
  else nth (n / 2) sortedValues PrimFloat.nan.

Definition getCorrelationStrength (correlation : Js.number) : string :=
  let abs := Js.Math_abs correlation in
  if Js.ge abs 0.8 then "Very Strong"
  else if Js.ge abs 0.6 then "Strong"
  else if Js.ge abs 0.4 then "Moderate"
  else if Js.ge abs 0.2 then "Weak"
  else "Very Weak".
End Sampling.

(* ================================================================= *)
(** ** DataAnalyzer: the exploratory analyzer *)

Module DataAnalyzer.

Record trend := { direction : string; slope : Js.number }.

Record stats := {
  mean : Js.number; median : Js.number; std : Js.number;
  skewness : Js.number; min : Js.number; max : Js.number }.

Inductive themeMetrics :=
| NoMetrics
| Volatility (avgVolatility : Js.number)
| TrendMetrics (t : trend)
| StatsMetrics (s : stats).

Record theme := {
  name : string; description : string; confidence : Js.number;
  indicators : list string; type : string; metrics : themeMetrics }.

Record correlationRecord := {
  column1 : string; column2 : string; correlation : Js.number;
  strength : string; corrDescription : string }.

(** The fields of the analyzer object; [data] is [null] until a file is
    loaded. *)
Record analyzer := {
  data : option table;
  columns : list string;
  numericColumns : list string;
  dateColumns : list string;
  themes : list theme;
  correlations : list correlationRecord }.

Definition constructor : analyzer :=
  {| data := None; columns := []; numericColumns := []; dateColumns := [];
     themes := []; correlations := [] |}.

(** [this.data = rows], the assignment of [handleFile]. *)
Definition load (this : analyzer) (rows : table) : analyzer :=
  {| data := Some rows; columns := columns this;
     numericColumns := numericColumns this; dateColumns := dateColumns this;
     themes := themes this; correlations := correlations this |}.

Definition parseCSV (text : string) : result table :=
  parseCSVWith "No valid data rows found in CSV" text.

Section Methods.
Context {E : Engine}.
Local Open Scope string_scope.
Local Open Scope list_scope.
Local Open Scope float_scope.
Local Open Scope js_scope.

(** [this.data], whose members are read next. *)
Definition getData (this : analyzer) : result table :=
  match data this with
  | Some rows => Ok rows
  | None => Throw (TypeError "Cannot read properties of null")
  end.

Definition identifyColumn (rows : table) (lists : list string * list string)
    (col : string) : list string * list string :=
  let '(numeric, date) := lists in
  let sample := sampleOf rows 10 col in
  let numericCount := List.length (filter isNumericValue sample) in
  let numeric :=
    if Js.gt (Js.ofNat numericCount / Js.ofNat (List.length sample)) 0.8
    then numeric ++ [col] else numeric in
  let dateCount := List.length (filter isDateValue sample) in
  let date :=
    if Js.gt (Js.ofNat dateCount / Js.ofNat (List.length sample)) 0.8
       && (Str.includes (Str.toLowerCase col) "time"
           || Str.includes (Str.toLowerCase col) "date")
    then date ++ [col] else date in
  (numeric, date).

Definition identifyColumnTypes (this : analyzer) : result analyzer :=
  rows <- getData this ;;
  match rows with
  | [] => Ok this
  | first :: _ =>
      let cols := Object_keys first in
      let '(numeric, date) := fold_left (identifyColumn rows) cols ([], []) in
      Ok {| data := data this; columns := cols;
            numericColumns := numeric; dateColumns := date;
            themes := themes this; correlations := correlations this |}
  end.

Definition hasColumns (this : analyzer) (requiredColumns : list string) : bool :=
  forallb (fun col =>
    existsb (fun existingCol =>
      String.eqb (Str.toLowerCase existingCol) (Str.toLowerCase col))
      (columns this)) requiredColumns.

Definition calculateVolatility (this : analyzer) : result (list Js.number) :=
  if negb (hasColumns this ["high"; "low"]) then Ok []
  else
    rows <- getData this ;;
    Ok (filter (fun v => negb (Js.isNaN v))
          (map (fun row =>
                  let high := parseFloat (getProp row "high") in
                  let low := parseFloat (getProp row "low") in
                  (high - low) / low) rows)).

Definition trendOf (values : list point) : trend :=
  if (List.length values <? 2)%nat
  then {| direction := "Insufficient Data"; slope := 0 |}
  else
    let n := Js.ofNat (List.length values) in
    let sumX := fold_left (fun sum point => sum + x point) values 0 in
    let sumY := fold_left (fun sum point => sum + y point) values 0 in
    let sumXY := fold_left (fun sum point => sum + x point * y point) values 0 in
    let sumXX := fold_left (fun sum point => sum + x point * x point) values 0 in
    let slope := (n * sumXY - sumX * sumY) / (n * sumXX - sumX * sumX) in
    let direction :=
      if Js.gt slope 0.001 then "Upward"
      else if Js.lt slope (-0.001) then "Downward" else "Sideways" in
    {| direction := direction; slope := slope |}.

Definition trendPoints (rows : table) (column : string) : list point :=
  filter (fun point => negb (Js.isNaN (y point)))
    (mapi (fun row index =>
             {| x := Js.ofNat index; y := parseFloat (getProp row column) |}) rows).

Definition calculateTrend (this : analyzer) (column : string) : result trend :=
  rows <- getData this ;;
  Ok (trendOf (trendPoints rows column)).

(** The statistics of a non-empty list of values; [None] stands for the
    record [{mean: null, median: null, std: null, skewness: null}]. *)
Definition statsOf (values : list Js.number) : option stats :=
  match values with
  | [] => None
  | _ =>
      let n := Js.ofNat (List.length values) in
      let mean := Js.sum values / n in
      let sortedValues := Js.sort (fun a b => a - b) values in
      let median := median_of sortedValues in
      let variance :=
        fold_left (fun sum val => sum + Js.Math_pow2 (val - mean)) values 0 / n in
      let std := Js.Math_sqrt variance in
      let skewness :=
        if Js.strictEq std 0 then 0
        else fold_left (fun sum val => sum + Js.Math_pow3 ((val - mean) / std))
               values 0 / n in
      Some {| mean := mean; median := median; std := std; skewness := skewness;
              min := Js.Math_min values; max := Js.Math_max values |}
  end.

Definition calculateStats (this : analyzer) (column : string) : result (option stats) :=
  rows <- getData this ;;
  Ok (statsOf (columnValues rows column)).

Definition setThemes (this : analyzer) (ts : list theme) : analyzer :=
  {| data := data this; columns := columns this;
     numericColumns := numericColumns this; dateColumns := dateColumns this;
     themes := ts; correlations := correlations this |}.

Definition setCorrelations (this : analyzer) (cs : list correlationRecord) : analyzer :=
  {| data := data this; columns := columns this;
     numericColumns := numericColumns this; dateColumns := dateColumns this;
     themes := themes this; correlations := cs |}.

Definition financialTheme : theme :=
  {| name := "Financial Market Data";
     description := "OHLC (Open, High, Low, Close) price data typical of stock market or trading data";
     confidence := 0.95;
     indicators := ["open"; "high"; "low"; "close"];
     type := "financial"; metrics := NoMetrics |}.

Definition volumeTheme : theme :=
  {| name := "Trading Volume Analysis";
     description := "Volume data indicating trading activity and market liquidity";
     confidence := 0.9;
     indicators := ["volume"];
     type := "financial"; metrics := NoMetrics |}.

Definition timeSeriesTheme (dateCols : list string) : theme :=
  {| name := "Time Series Data";
     description := "Data with temporal components allowing for trend analysis over time";
     confidence := 0.85;
     indicators := dateCols;
     type := "temporal"; metrics := NoMetrics |}.

Definition volatilityTheme (avgVolatility : Js.number) : theme :=
  {| name := "Price Volatility Patterns";
     description := ("Price volatility analysis shows average volatility of "
                     ++ toFixed avgVolatility 4)%string;
     confidence := 0.8;
     indicators := ["high"; "low"];
     type := "statistical"; metrics := Volatility avgVolatility |}.

Definition trendTheme (t : trend) : theme :=
  {| name := ("Price Trend: " ++ direction t)%string;
     description := ("Overall price trend showing " ++ direction t
                     ++ " movement with slope of " ++ toFixed (slope t) 6)%string;
     confidence := if Js.gt (Js.Math_abs (slope t)) 0.001 then 0.8 else 0.5;
     indicators := ["close"];
     type := "trend"; metrics := TrendMetrics t |}.

Definition distributionTheme (col : string) (st : stats) : theme :=
  let distributionType :=
    if Js.gt (Js.Math_abs (skewness st)) 1
    then (if Js.gt (skewness st) 0 then "Right-skewed" else "Left-skewed")
    else "Normal" in
  {| name := (col ++ " Distribution: " ++ distributionType)%string;
     description := ("Statistical distribution of " ++ col ++ " showing "
                     ++ Str.toLowerCase distributionType ++ " characteristics")%string;
     confidence := 0.7;
     indicators := [col];
     type := "distribution"; metrics := StatsMetrics st |}.

(** The ordered battery of theme rules; each [push] appends. *)
Definition findThemes (this : analyzer) : result analyzer :=
  let ts := [] in
  let ts := if hasColumns this ["open"; "high"; "low"; "close"]
            then ts ++ [financialTheme] else ts in
  let ts := if hasColumns this ["volume"] then ts ++ [volumeTheme] else ts in
  let ts := if (0 <? List.length (dateColumns this))%nat
            then ts ++ [timeSeriesTheme (dateColumns this)] else ts in
  ts <- (if hasColumns this ["high"; "low"] then
           volatilities <- calculateVolatility this ;;
           let avgVolatility :=
             Js.sum volatilities / Js.ofNat (List.length volatilities) in
           Ok (ts ++ [volatilityTheme avgVolatility])
         else Ok ts) ;;
  ts <- (if hasColumns this ["close"] then
           rows <- getData this ;;
           if (10 <? List.length rows)%nat then
             t <- calculateTrend this "close" ;;
             Ok (ts ++ [trendTheme t])
           else Ok ts
         else Ok ts) ;;
  ts <- forEachM (fun ts col =>
                    st <- calculateStats this col ;;
                    match st with
                    | Some st => Ok (ts ++ [distributionTheme col st])
                    | None => Ok ts
                    end) (numericColumns this) ts ;;
  Ok (setThemes this ts).

(** [None] is the result [null]. *)
Definition pearsonOf (pairs : list point) : option Js.number :=
  if (List.length pairs <? 2)%nat then None
  else
    let numerator := pearsonNumerator pairs in
    let denominator := pearsonDenominator pairs in
    if Js.strictEq denominator 0 then None else Some (numerator / denominator).

Definition pearsonCorrelation (this : analyzer) (col1 col2 : string)
    : result (option Js.number) :=
  rows <- getData this ;;
  Ok (pearsonOf (correlationPairs rows col1 col2)).

Definition getCorrelationDescription (col1 col2 : string) (correlation : Js.number)
    : string :=
  let direction := if Js.gt correlation 0 then "positive" else "negative" in
  let strength := Str.toLowerCase (getCorrelationStrength correlation) in
  (col1 ++ " and " ++ col2 ++ " show a " ++ strength ++ " " ++ direction
   ++ " correlation (" ++ toFixed correlation 3 ++ "). "
   ++ "This means that as " ++ col1 ++ " "
   ++ (if Js.gt correlation 0 then "increases" else "decreases") ++ ", "
   ++ col2 ++ " tends to "
   ++ (if Js.gt correlation 0 then "increase" else "decrease") ++ " as well.")%string.

(** The body of the nested loops, for one pair of columns. *)
Definition correlationStep (this : analyzer) (found : list correlationRecord)
    (cols : string * string) : result (list correlationRecord) :=
  let '(col1, col2) := cols in
  correlation <- pearsonCorrelation this col1 col2 ;;
  match correlation with
  | Some r =>
      if Js.gt (Js.Math_abs r) 0.1
      then Ok (found ++ [ {| column1 := col1; column2 := col2; correlation := r;
                             strength := getCorrelationStrength r;
                             corrDescription := getCorrelationDescription col1 col2 r |} ])
      else Ok found
  | None => Ok found
  end.

Definition byStrength (a b : correlationRecord) : Js.number :=
  Js.Math_abs (correlation b) - Js.Math_abs (correlation a).

Definition calculateCorrelations (this : analyzer) : result analyzer :=
  if (List.length (numericColumns this) <? 2)%nat then Ok (setCorrelations this [])
  else
    found <- forEachM (correlationStep this) (columnPairs (numericColumns this)) [] ;;
    Ok (setCorrelations this (Js.sort byStrength found)).

(** [analyzeData], up to the delay that only paces the display. *)
Definition analyzeData (this : analyzer) : result analyzer :=
  match data this with
  | None | Some [] => Throw (Error "No data to analyze")
  | Some _ =>
      this <- identifyColumnTypes this ;;
      this <- findThemes this ;;
      calculateCorrelations this
  end.
(** A template literal that runs over several lines of the source. *)
Definition lines (ls : list string) : string :=
  String.concat (String "010"%char "") ls.

(** [theme.metrics?.avgVolatility], [theme.metrics?.direction],
    [theme.metrics?.slope] and [stats.mean] and the like: [None] is
    [undefined]. *)
Definition avgVolatilityOf (m : themeMetrics) : option Js.number :=
  match m with Volatility v => Some v | _ => None end.
Definition directionOf (m : themeMetrics) : option string :=
  match m with TrendMetrics t => Some (direction t) | _ => None end.
Definition slopeOf (m : themeMetrics) : option Js.number :=
  match m with TrendMetrics t => Some (slope t) | _ => None end.
Definition statOf (field : stats -> Js.number) (m : themeMetrics) : option Js.number :=
  match m with StatsMetrics s => Some (field s) | _ => None end.

(** [v?.toFixed(d)] with what the template prints when there is no [v]. *)
Definition fixedOr (missing : string) (v : option Js.number) (d : nat) : string :=
  match v with Some x => toFixed x d | None => missing end.
Definition lowerOr (missing : string) (s : option string) : string :=
  match s with Some s => Str.toLowerCase s | None => missing end.

Definition ohlcExplanation : string :=
  lines
    [ "This data contains OHLC (Open, High, Low, Close) price information, which is standard for financial market data. ";
      "                           The Open price is the first traded price of a time period, High is the maximum price reached, ";
      "                           Low is the minimum price, and Close is the final price. This format is commonly used for ";
      "                           stock prices, forex rates, commodity prices, and cryptocurrency values." ].

Definition volumeExplanation : string :=
  lines
    [ "Trading volume represents the number of shares, contracts, or units traded during a specific time period. ";
      "                           High volume often indicates strong interest and can confirm price movements, while low volume might ";
      "                           suggest uncertainty or lack of interest in the asset." ].

Definition temporalExplanation : string :=
  lines
    [ "Time series data allows for temporal analysis, revealing patterns like trends, seasonality, and cycles. ";
      "                       This type of data is crucial for forecasting, identifying recurring patterns, and understanding ";
      "                       how variables change over time. Common analyses include trend analysis, seasonal decomposition, ";
      "                       and autocorrelation studies." ].

Definition volatilityExplanation (m : themeMetrics) : string :=
  lines
    [ "Volatility measures the degree of price variation over time. High volatility indicates larger ";
      "                           price swings and higher risk, while low volatility suggests more stable prices. The average ";
      ("                           volatility of " ++ fixedOr "N/A" (avgVolatilityOf m) 4 ++ " provides insight into the ")%string;
      "                           asset's price stability during this period." ].

Definition trendExplanation (m : themeMetrics) : string :=
  lines
    [ ("The trend analysis reveals the general direction of price movement over time. A " ++ lowerOr "undefined" (directionOf m) ++ " ")%string;
      ("                       trend with a slope of " ++ fixedOr "N/A" (slopeOf m) 6 ++ " indicates the rate of change. ")%string;
      "                       Trend analysis is fundamental for technical analysis and helps identify potential future price directions." ].

Definition distributionExplanation (theme : theme) (m : themeMetrics) : string :=
  lines
    [ ("The distribution analysis shows statistical properties of " ++ nth 0 (indicators theme) "undefined" ++ ". ")%string;
      ("                           Mean: " ++ fixedOr "undefined" (statOf mean m) 4 ++ ", Median: "
         ++ fixedOr "undefined" (statOf median m) 4 ++ ", ")%string;
      ("                           Standard Deviation: " ++ fixedOr "undefined" (statOf std m) 4 ++ ", Skewness: "
         ++ fixedOr "undefined" (statOf skewness m) 4 ++ ". ")%string;
      ("                           "
         ++ (if Js.gt (Js.Math_abs (match statOf skewness m with
                                    | Some v => v
                                    | None => PrimFloat.nan
                                    end)) 1
             then "The high skewness indicates an asymmetric distribution."
             else "The low skewness suggests a relatively symmetric distribution."))%string ].

(** [getDetailedExplanation]: a [break] leaves the [switch] for the last
    line, which returns the description of the theme. *)
Definition getDetailedExplanation (theme : theme) : string :=
  if String.eqb (type theme) "financial" then
    if Str.includes (name theme) "OHLC" then ohlcExplanation
    else if Str.includes (name theme) "Volume" then volumeExplanation
    else description theme
  else if String.eqb (type theme) "temporal" then temporalExplanation
  else if String.eqb (type theme) "statistical" then
    if Str.includes (name theme) "Volatility"
    then volatilityExplanation (metrics theme)
    else description theme
  else if String.eqb (type theme) "trend" then trendExplanation (metrics theme)
  else if String.eqb (type theme) "distribution" then
    match metrics theme with
    | NoMetrics => description theme
    | stats => distributionExplanation theme stats
    end
  else description theme.
End Methods.

End DataAnalyzer.

(* ================================================================= *)
(** ** ComprehensiveDataAnalyzer: the analyzer of script.js *)

Module ComprehensiveDataAnalyzer.

(** *** The result aggregate [analysisResults] *)

Record qualityMetrics := {
  completeness : Obj.t string;   (** per column, the text of [toFixed(1)] *)
  uniqueness : Obj.t nat;
  overall : Js.number }.

Record keyMetric := { label : string; value : string; type : string }.

Module Summary.
Record t := {
  totalRows : nat; totalColumns : nat;
  numericColumns : nat; dateColumns : nat; categoricalColumns : nat;
  dataQualityScore : Js.number;
  keyMetrics : list keyMetric }.
End Summary.

(** The object [calculateEfficiencyMetrics] fills; [None] is a key that was
    not set. *)
Record efficiencyMetrics := {
  cpc : option Js.number;
  costPerConversion : option Js.number;
  roi : option Js.number }.

Module Performance.
Record t := {
  topPerformers : list row;
  trends : list string;     (** never filled *)
  efficiency : efficiencyMetrics;
  insights : list string    (** never filled *) }.
End Performance.

Record segmentMetrics := { sum : Js.number; avg : Js.number; count : nat }.

Module Demographics.
Record t := {
  segments : Obj.t (Obj.t (list row));
  performance : Obj.t (Obj.t (Obj.t segmentMetrics));
  insights : list string    (** never filled *) }.
End Demographics.

(** The result of [calculateTrends]; the early returns set [direction]
    only. *)
Record trends := {
  direction : option string;
  slope : option Js.number;
  metric : option string }.

Module Temporal.
Record t := {
  trends : trends;
  seasonality : list string;  (** never filled *)
  insights : list string      (** never filled *) }.
End Temporal.

Record distributionStats := {
  mean : Js.number; median : Js.number; std : Js.number; skewness : Js.number;
  min : Js.number; max : Js.number; q1 : Js.number; q3 : Js.number }.

Module Statistical.
Record t := {
  distributions : Obj.t (option distributionStats);  (** [None] is [null] *)
  outliers : Obj.t (list Js.number);
  insights : list string      (** never filled *) }.
End Statistical.

Record correlationRecord := {
  column1 : string; column2 : string; correlation : Js.number; strength : string }.

Module Correlations.
Record t := {
  significant : list correlationRecord;
  insights : list string      (** never filled *) }.
End Correlations.

Record insight := { kind : string; title : string; description : string }.
Record recommendation := { priority : string; recTitle : string; recDescription : string }.

Record analysisResults := {
  dataQuality : option qualityMetrics;
  executiveSummary : option Summary.t;
  performance : option Performance.t;
  demographics : option Demographics.t;
  temporal : option Temporal.t;
  statistical : option Statistical.t;
  correlations : option Correlations.t;
  advancedInsights : option (list insight);
  recommendations : option (list recommendation) }.

Section Assignments.
Variable r : analysisResults.

Definition setDataQuality v :=
  {| dataQuality := Some v; executiveSummary := executiveSummary r;
     performance := performance r; demographics := demographics r;
     temporal := temporal r; statistical := statistical r;
     correlations := correlations r; advancedInsights := advancedInsights r;
     recommendations := recommendations r |}.
Definition setExecutiveSummary v :=
  {| dataQuality := dataQuality r; executiveSummary := Some v;
     performance := performance r; demographics := demographics r;
     temporal := temporal r; statistical := statistical r;
     correlations := correlations r; advancedInsights := advancedInsights r;
     recommendations := recommendations r |}.
Definition setPerformance v :=
  {| dataQuality := dataQuality r; executiveSummary := executiveSummary r;
     performance := Some v; demographics := demographics r;
     temporal := temporal r; statistical := statistical r;
     correlations := correlations r; advancedInsights := advancedInsights r;
     recommendations := recommendations r |}.
Definition setDemographics v :=
  {| dataQuality := dataQuality r; executiveSummary := executiveSummary r;
     performance := performance r; demographics := Some v;
     temporal := temporal r; statistical := statistical r;
     correlations := correlations r; advancedInsights := advancedInsights r;
     recommendations := recommendations r |}.
Definition setTemporal v :=
  {| dataQuality := dataQuality r; executiveSummary := executiveSummary r;
     performance := performance r; demographics := demographics r;
     temporal := Some v; statistical := statistical r;
     correlations := correlations r; advancedInsights := advancedInsights r;
     recommendations := recommendations r |}.
Definition setStatistical v :=
  {| dataQuality := dataQuality r; executiveSummary := executiveSummary r;
     performance := performance r; demographics := demographics r;
     temporal := temporal r; statistical := Some v;
     correlations := correlations r; advancedInsights := advancedInsights r;
     recommendations := recommendations r |}.
Definition setCorrelations v :=
  {| dataQuality := dataQuality r; executiveSummary := executiveSummary r;
     performance := performance r; demographics := demographics r;
     temporal := temporal r; statistical := statistical r;
     correlations := Some v; advancedInsights := advancedInsights r;
     recommendations := recommendations r |}.
Definition setAdvancedInsights v :=
  {| dataQuality := dataQuality r; executiveSummary := executiveSummary r;
     performance := performance r; demographics := demographics r;
     temporal := temporal r; statistical := statistical r;
     correlations := correlations r; advancedInsights := Some v;
     recommendations := recommendations r |}.
Definition setRecommendations v :=
  {| dataQuality := dataQuality r; executiveSummary := executiveSummary r;
     performance := performance r; demographics := demographics r;
     temporal := temporal r; statistical := statistical r;
     correlations := correlations r; advancedInsights := advancedInsights r;
     recommendations := Some v |}.
End Assignments.

Definition noResults : analysisResults :=
  {| dataQuality := None; executiveSummary := None; performance := None;
     demographics := None; temporal := None; statistical := None;
     correlations := None; advancedInsights := None; recommendations := None |}.

Record analyzer := {
  data : option table;
  columns : list string;
  numericColumns : list string;
  dateColumns : list string;
  categoricalColumns : list string;
  results : analysisResults }.

Definition constructor : analyzer :=
  {| data := None; columns := []; numericColumns := []; dateColumns := [];
     categoricalColumns := []; results := noResults |}.

(** [this.data = rows], the assignment of [handleFile]. *)
Definition load (this : analyzer) (rows : table) : analyzer :=
  {| data := Some rows; columns := columns this;
     numericColumns := numericColumns this; dateColumns := dateColumns this;
     categoricalColumns := categoricalColumns this; results := results this |}.

Definition parseCSV (text : string) : result table :=
  parseCSVWith "No valid data rows found" text.

(** An item of the time series: its date as a time value, and the value of
    every numeric column. *)
Record seriesItem := { date : Js.number; metrics : Obj.t Js.number }.

Section Methods.
Context {E : Engine}.
Local Open Scope string_scope.
Local Open Scope list_scope.
Local Open Scope float_scope.
Local Open Scope js_scope.

Definition getData (this : analyzer) : result table :=
  match data this with
  | Some rows => Ok rows
  | None => Throw (TypeError "Cannot read properties of null")
  end.

(** A member of [this.analysisResults] whose properties are read. *)
Definition defined {A} (member : option A) : result A :=
  match member with
  | Some a => Ok a
  | None => Throw (TypeError "Cannot read properties of undefined")
  end.

Definition setResults (this : analyzer) (r : analysisResults) : analyzer :=
  {| data := data this; columns := columns this;
     numericColumns := numericColumns this; dateColumns := dateColumns this;
     categoricalColumns := categoricalColumns this; results := r |}.

(** The body of the [forEach] of [identifyColumnTypes]: each branch
    pushes the column on one list and returns. *)
Definition identifyColumn (rows : table)
    (lists : list string * list string * list string) (col : string)
    : list string * list string * list string :=
  let '(numeric, date, categorical) := lists in
  let sample := sampleOf rows (Nat.min 100 (List.length rows)) col in
  let numericCount := List.length (filter isNumericValue sample) in
  if Js.gt (Js.ofNat numericCount / Js.ofNat (List.length sample)) 0.7
  then (numeric ++ [col], date, categorical)
  else
    let dateCount := List.length (filter isDateValue sample) in
    if Js.gt (Js.ofNat dateCount / Js.ofNat (List.length sample)) 0.7
    then (numeric, date ++ [col], categorical)
    else (numeric, date, categorical ++ [col]).

Definition identifyColumnTypes (this : analyzer) : result analyzer :=
  rows <- getData this ;;
  match rows with
  | [] => Ok this
  | first :: _ =>
      let cols := Object_keys first in
      let '(numeric, date, categorical) :=
        fold_left (identifyColumn rows) cols ([], [], []) in
      Ok {| data := data this; columns := cols;
            numericColumns := numeric; dateColumns := date;
            categoricalColumns := categorical; results := results this |}
  end.

(** [new Set(values).size] *)
Fixpoint distinct (values : list cell) (seen : list cell) : nat :=
  match values with
  | [] => List.length seen
  | v :: vs =>
      if existsb (sameValueZero v) seen then distinct vs seen
      else distinct vs (seen ++ [v])
  end.

(** The object [qualityMetrics] that [assessDataQuality] builds. *)
Definition qualityMetricsOf (this : analyzer) : result qualityMetrics :=
  rows <- getData this ;;
  let totalRows := Js.ofNat (List.length rows) in
  let '(completeness, uniqueness) :=
    fold_left (fun '(completeness, uniqueness) col =>
      let values := map (fun row => getProp row col) rows in
      let nonNullValues := filter nonEmpty values in
      (Obj.set completeness col
         (toFixed (Js.ofNat (List.length nonNullValues) / totalRows * 100) 1),
       Obj.set uniqueness col (distinct nonNullValues [])))
      (columns this) ([], []) in
  let avgCompleteness :=
    fold_left (fun sum val => sum + parseFloatS val) (Obj.values completeness) 0
    / Js.ofNat (List.length (columns this)) in
  Ok {| completeness := completeness; uniqueness := uniqueness;
        overall := avgCompleteness |}.

Definition assessDataQuality (this : analyzer) : result analyzer :=
  qualityMetrics <- qualityMetricsOf this ;;
  Ok (setResults this (setDataQuality (results this) qualityMetrics)).

Definition hasColumns (this : analyzer) (requiredColumns : list string) : bool :=
  forallb (fun col =>
    existsb (fun existingCol =>
      String.eqb (Str.toLowerCase existingCol) (Str.toLowerCase col))
      (columns this)) requiredColumns.

Definition sumOf (rows : table) (columnName : string) : Js.number :=
  fold_left (fun sum row =>
               let value := parseFloat (getProp row columnName) in
               sum + (if Js.isNaN value then 0 else value)) rows 0.

Definition sumColumn (this : analyzer) (columnName : string) : result Js.number :=
  rows <- getData this ;;
  Ok (sumOf rows columnName).

Definition formatColumnName (col : string) : string :=
  Str.capitalizeWords false (Str.underscoresToSpaces col).

(** The object [summary] that [generateExecutiveSummary] builds. *)
Definition summaryOf (this : analyzer) : result Summary.t :=
  rows <- getData this ;;
  quality <- defined (dataQuality (results this)) ;;
  keyMetrics <-
    (if hasColumns this ["impressions"; "clicks"; "spent"] then
       totalImpressions <- sumColumn this "impressions" ;;
       totalClicks <- sumColumn this "clicks" ;;
       totalSpent <- sumColumn this "spent" ;;
       let ctr := if Js.gt totalImpressions 0
                  then totalClicks / totalImpressions * 100 else 0 in
       Ok [ {| label := "Total Impressions";
               value := toLocaleString totalImpressions; type := "count" |};
            {| label := "Total Clicks";
               value := toLocaleString totalClicks; type := "count" |};
            {| label := "Total Spend";
               value := ("$" ++ toLocaleString totalSpent)%string; type := "currency" |};
            {| label := "Overall CTR";
               value := (toFixed ctr 3 ++ "%")%string; type := "percentage" |} ]
     else
       let topNumericCols := firstn 4 (numericColumns this) in
       mapM (fun col =>
               total <- sumColumn this col ;;
               Ok {| label := formatColumnName col;
                     value := toLocaleString total; type := "count" |})
            topNumericCols) ;;
  Ok {| Summary.totalRows := List.length rows;
        Summary.totalColumns := List.length (columns this);
        Summary.numericColumns := List.length (numericColumns this);
        Summary.dateColumns := List.length (dateColumns this);
        Summary.categoricalColumns := List.length (categoricalColumns this);
        Summary.dataQualityScore := overall quality;
        Summary.keyMetrics := keyMetrics |}.

Definition generateExecutiveSummary (this : analyzer) : result analyzer :=
  summary <- summaryOf this ;;
  Ok (setResults this (setExecutiveSummary (results this) summary)).

Definition calculateEfficiencyMetrics (this : analyzer) : result efficiencyMetrics :=
  cpc <-
    (if hasColumns this ["spent"; "clicks"] then
       totalSpent <- sumColumn this "spent" ;;
       totalClicks <- sumColumn this "clicks" ;;
       Ok (Some (if Js.gt totalClicks 0 then totalSpent / totalClicks else 0))
     else Ok None) ;;
  if hasColumns this ["spent"; "approved_conversion"] then
    totalSpent <- sumColumn this "spent" ;;
    totalConversions <- sumColumn this "approved_conversion" ;;
    Ok {| cpc := cpc;
          costPerConversion :=
            Some (if Js.gt totalConversions 0 then totalSpent / totalConversions else 0);
          roi := Some (if Js.gt totalSpent 0 then totalConversions / totalSpent else 0) |}
  else Ok {| cpc := cpc; costPerConversion := None; roi := None |}.

(** The object [performance] that [performPerformanceAnalysis] builds. *)
Definition performanceOf (this : analyzer) : result Performance.t :=
  topPerformers <-
    match numericColumns this with
    | primaryMetric :: _ =>
        rows <- getData this ;;
        let sorted :=
          Js.sort (fun a b => parseFloat (getProp b primaryMetric)
                              - parseFloat (getProp a primaryMetric)) rows in
        Ok (firstn 10 sorted)
    | [] => Ok []
    end ;;
  efficiency <-
    (if hasColumns this ["spent"; "clicks"] || hasColumns this ["cost"; "revenue"]
     then calculateEfficiencyMetrics this
     else Ok {| cpc := None; costPerConversion := None; roi := None |}) ;;
  Ok {| Performance.topPerformers := topPerformers;
        Performance.trends := [];
        Performance.efficiency := efficiency;
        Performance.insights := [] |}.

Definition performPerformanceAnalysis (this : analyzer) : result analyzer :=
  performance <- performanceOf this ;;
  Ok (setResults this (setPerformance (results this) performance)).

(** [groupBy]: a key that names a property every object inherits finds
    that property instead of an array, and [push] is not a function. *)
Definition groupBy (this : analyzer) (column : string) : result (Obj.t (list row)) :=
  rows <- getData this ;;
  forEachM (fun groups row =>
              let key := ToString (getProp row column) in
              match Obj.get groups key with
              | Some members => Ok (Obj.set groups key (members ++ [row]))
              | None =>
                  if existsb (String.eqb key) Obj.inherited
                  then Throw (TypeError "groups[key].push is not a function")
                  else Ok (Obj.set groups key [row])
              end) rows [].

Definition calculateSegmentPerformance (this : analyzer) (column : string)
    (segments : Obj.t (list row)) : Obj.t (Obj.t segmentMetrics) :=
  fold_left (fun performance '(segment, segmentData) =>
    let metrics :=
      fold_left (fun metrics numCol =>
        let values := columnValues segmentData numCol in
        Obj.set metrics numCol
          {| sum := Js.sum values;
             avg := if (0 <? List.length values)%nat
                    then Js.sum values / Js.ofNat (List.length values) else 0;
             count := List.length values |})
        (numericColumns this) [] in
    Obj.set performance segment metrics) segments [].

Definition demographicHints : list string :=
  ["age"; "gender"; "location"; "segment"; "category"; "type"].

(** The object [demographics] that [performDemographicAnalysis] builds. *)
Definition demographicsOf (this : analyzer) : result Demographics.t :=
  let demoColumns :=
    filter (fun col =>
              existsb (fun demo => Str.includes (Str.toLowerCase col) demo)
                      demographicHints) (categoricalColumns this) in
  found <- forEachM (fun '(segments, performance) col =>
               groups <- groupBy this col ;;
               Ok (Obj.set segments col groups,
                   if (0 <? List.length (numericColumns this))%nat
                   then Obj.set performance col
                          (calculateSegmentPerformance this col groups)
                   else performance))
             demoColumns ([], []) ;;
  Ok {| Demographics.segments := fst found;
        Demographics.performance := snd found;
        Demographics.insights := [] |}.

Definition performDemographicAnalysis (this : analyzer) : result analyzer :=
  demographics <- demographicsOf this ;;
  Ok (setResults this (setDemographics (results this) demographics)).

(** [v || 0] for a number [v]. *)
Definition orZero (v : Js.number) : Js.number :=
  if Js.isNaN v || (v =? 0) then 0 else v.

(** [createTimeSeriesData].  The spread copies the numeric columns over
    the [date] of the literal, so a numeric column named [date] leaves a
    number there, and [item.date.getTime] is not a function. *)
Definition createTimeSeriesData (this : analyzer) (dateColumn : string)
    : result (list seriesItem) :=
  rows <- getData this ;;
  let items :=
    map (fun row =>
           {| date := dateTime (getProp row dateColumn);
              metrics := fold_left (fun acc col =>
                                      Obj.set acc col (orZero (parseFloat (getProp row col))))
                                   (numericColumns this) [] |}) rows in
  if existsb (String.eqb "date") (numericColumns this) && (0 <? List.length items)%nat
  then Throw (TypeError "item.date.getTime is not a function")
  else Ok (Js.sort (fun a b => date a - date b)
             (filter (fun item => negb (Js.isNaN (date item))) items)).

Definition calculateTrends (this : analyzer) (timeSeriesData : list seriesItem) : trends :=
  if (List.length timeSeriesData <? 2)%nat
  then {| direction := Some "insufficient_data"; slope := None; metric := None |}
  else
    match numericColumns this with
    | [] => {| direction := Some "no_numeric_data"; slope := None; metric := None |}
    | primaryMetric :: _ =>
        if String.eqb primaryMetric ""
        then {| direction := Some "no_numeric_data"; slope := None; metric := None |}
        else
          let values :=
            mapi (fun item index =>
                    {| x := Js.ofNat index;
                       y := match Obj.get (metrics item) primaryMetric with
                            | Some v => v
                            | None => PrimFloat.nan
                            end |}) timeSeriesData in
          let n := Js.ofNat (List.length values) in
          let sumX := fold_left (fun sum point => sum + x point) values 0 in
          let sumY := fold_left (fun sum point => sum + y point) values 0 in
          let sumXY := fold_left (fun sum point => sum + x point * y point) values 0 in
          let sumXX := fold_left (fun sum point => sum + x point * x point) values 0 in
          let slope := (n * sumXY - sumX * sumY) / (n * sumXX - sumX * sumX) in
          let direction :=
            if Js.gt slope 0.001 then "increasing"
            else if Js.lt slope (-0.001) then "declining" else "stable" in
          {| direction := Some direction; slope := Some slope;
             metric := Some primaryMetric |}
    end.

(** The object [temporal] that [performTemporalAnalysis] builds. *)
Definition temporalOf (this : analyzer) : result Temporal.t :=
  found <-
    match dateColumns this with
    | dateCol :: _ =>
        timeSeriesData <- createTimeSeriesData this dateCol ;;
        Ok (calculateTrends this timeSeriesData)
    | [] => Ok {| direction := None; slope := None; metric := None |}
    end ;;
  Ok {| Temporal.trends := found; Temporal.seasonality := [];
        Temporal.insights := [] |}.

Definition performTemporalAnalysis (this : analyzer) : result analyzer :=
  temporal <- temporalOf this ;;
  Ok (setResults this (setTemporal (results this) temporal)).

(** [calculateDistributionStats]; [None] is [null].  The quartile
    indices [Math.floor(n * 0.25)] and [Math.floor(n * 0.75)] are exact
    in binary64 for every array length, so they are taken on the
    integers. *)
Definition calculateDistributionStats (values : list Js.number)
    : option distributionStats :=
  match values with
  | [] => None
  | _ =>
      let sorted := Js.sort (fun a b => a - b) values in
      let n := Js.ofNat (List.length values) in
      let mean := Js.sum values / n in
      let median := median_of sorted in
      let variance :=
        fold_left (fun sum val => sum + Js.Math_pow2 (val - mean)) values 0 / n in
      let std := Js.Math_sqrt variance in
      let skewness :=
        if Js.strictEq std 0 then 0
        else fold_left (fun sum val => sum + Js.Math_pow3 ((val - mean) / std))
               values 0 / n in
      Some {| mean := mean; median := median; std := std; skewness := skewness;
              min := Js.Math_min values; max := Js.Math_max values;
              q1 := nth (List.length sorted / 4) sorted PrimFloat.nan;
              q3 := nth (3 * List.length sorted / 4) sorted PrimFloat.nan |}
  end.

Definition lowerBound (st : distributionStats) : Js.number :=
  q1 st - 1.5 * (q3 st - q1 st).
Definition upperBound (st : distributionStats) : Js.number :=
  q3 st + 1.5 * (q3 st - q1 st).

Definition detectOutliers (values : list Js.number) : list Js.number :=
  match calculateDistributionStats values with
  | None => []
  | Some st =>
      let iqr := q3 st - q1 st in
      let lowerBound := q1 st - 1.5 * iqr in
      let upperBound := q3 st + 1.5 * iqr in
      filter (fun val => Js.lt val lowerBound || Js.gt val upperBound) values
  end.

(** The object [statistical] that [performStatisticalAnalysis] builds. *)
Definition statisticalOf (this : analyzer) : result Statistical.t :=
  found <- forEachM (fun '(distributions, outliers) col =>
               rows <- getData this ;;
               let values := columnValues rows col in
               Ok (Obj.set distributions col (calculateDistributionStats values),
                   Obj.set outliers col (detectOutliers values)))
             (numericColumns this) ([], []) ;;
  Ok {| Statistical.distributions := fst found;
        Statistical.outliers := snd found;
        Statistical.insights := [] |}.

Definition performStatisticalAnalysis (this : analyzer) : result analyzer :=
  statistical <- statisticalOf this ;;
  Ok (setResults this (setStatistical (results this) statistical)).

Definition correlationOf (pairs : list point) : Js.number :=
  if (List.length pairs <? 2)%nat then 0
  else
    let numerator := pearsonNumerator pairs in
    let denominator := pearsonDenominator pairs in
    if Js.strictEq denominator 0 then 0 else numerator / denominator.

Definition calculateCorrelation (this : analyzer) (col1 col2 : string)
    : result Js.number :=
  rows <- getData this ;;
  Ok (correlationOf (correlationPairs rows col1 col2)).

Definition correlationStep (this : analyzer) (significant : list correlationRecord)
    (cols : string * string) : result (list correlationRecord) :=
  let '(col1, col2) := cols in
  correlation <- calculateCorrelation this col1 col2 ;;
  if Js.gt (Js.Math_abs correlation) 0.3
  then Ok (significant ++ [ {| column1 := col1; column2 := col2;
                               correlation := correlation;
                               strength := getCorrelationStrength correlation |} ])
  else Ok significant.

(** The object [correlations] that [performCorrelationAnalysis] builds. *)
Definition correlationsOf (this : analyzer) : result Correlations.t :=
  significant <-
    (if (2 <=? List.length (numericColumns this))%nat
     then forEachM (correlationStep this) (columnPairs (numericColumns this)) []
     else Ok []) ;;
  Ok {| Correlations.significant := significant;
        Correlations.insights := [] |}.

Definition performCorrelationAnalysis (this : analyzer) : result analyzer :=
  correlations <- correlationsOf this ;;
  Ok (setResults this (setCorrelations (results this) correlations)).

(** The truth value of a number. *)
Definition truthy (v : Js.number) : bool := negb (Js.isNaN v || (v =? 0)).

Definition natToString (n : nat) : string := Str.digitString (Z.of_nat n).

(** The array [insights] that [generateAdvancedInsights] builds. *)
Definition insightsOf (this : analyzer) : result (list insight) :=
  quality <- defined (dataQuality (results this)) ;;
  let avgQuality := overall quality in
  let insights := [] in
  let insights :=
    if Js.lt avgQuality 80
    then insights ++
         [ {| kind := "warning"; title := "Data Quality Concern";
              description := ("Average data completeness is " ++ toFixed avgQuality 1
                ++ "%. Consider data cleaning to improve analysis accuracy.")%string |} ]
    else insights in
  perf <- defined (performance (results this)) ;;
  let insights :=
    match roi (Performance.efficiency perf) with
    | Some r =>
        if truthy r && Js.lt r 1
        then insights ++
             [ {| kind := "opportunity"; title := "ROI Optimization Opportunity";
                  description := ("Current ROI is " ++ toFixed r 2
                    ++ ". Focus on high-performing segments to improve returns.")%string |} ]
        else insights
    | None => insights
    end in
  corrs <- defined (correlations (results this)) ;;
  let strongCorrelations :=
    filter (fun c => Js.gt (Js.Math_abs (correlation c)) 0.7)
           (Correlations.significant corrs) in
  let insights :=
    if (0 <? List.length strongCorrelations)%nat
    then insights ++
         [ {| kind := "insight"; title := "Strong Correlations Detected";
              description := ("Found " ++ natToString (List.length strongCorrelations)
                ++ " strong correlations that could indicate causal relationships.")%string |} ]
    else insights in
  Ok insights.

Definition generateAdvancedInsights (this : analyzer) : result analyzer :=
  insights <- insightsOf this ;;
  Ok (setResults this (setAdvancedInsights (results this) insights)).

(** [b[primaryMetric]?.avg || 0] *)
Definition avgOr0 (metrics : Obj.t segmentMetrics) (primaryMetric : string) : Js.number :=
  match Obj.get metrics primaryMetric with
  | Some m => orZero (avg m)
  | None => 0
  end.

Definition findBestPerformingSegments (this : analyzer) : result (list string) :=
  demo <- defined (demographics (results this)) ;;
  Ok (fold_left (fun bestSegments '(column, segments) =>
        match numericColumns this with
        | primaryMetric :: _ =>
            if String.eqb primaryMetric "" then bestSegments
            else
              let sortedSegments :=
                Js.sort (fun a b => avgOr0 (snd b) primaryMetric
                                    - avgOr0 (snd a) primaryMetric) segments in
              match sortedSegments with
              | (best, _) :: _ => bestSegments ++ [(column ++ ": " ++ best)%string]
              | [] => bestSegments
              end
        | [] => bestSegments
        end) (Demographics.performance demo) []).

(** The array [recommendations] that [generateRecommendations] builds. *)
Definition recommendationsOf (this : analyzer) : result (list recommendation) :=
  let recs := [] in
  bestSegments <- findBestPerformingSegments this ;;
  let recs :=
    if (0 <? List.length bestSegments)%nat
    then recs ++
         [ {| priority := "high"; recTitle := "Focus on High-Performing Segments";
              recDescription := ("Allocate more resources to "
                ++ String.concat ", " bestSegments
                ++ " segments which show superior performance metrics.")%string |} ]
    else recs in
  temp <- defined (temporal (results this)) ;;
  let recs :=
    match direction (Temporal.trends temp) with
    | Some d =>
        if String.eqb d "declining"
        then recs ++
             [ {| priority := "high"; recTitle := "Address Declining Trend";
                  recDescription := "Implement strategies to reverse the declining performance trend identified in the temporal analysis." |} ]
        else recs
    | None => recs
    end in
  quality <- defined (dataQuality (results this)) ;;
  let lowQualityColumns :=
    map fst (filter (fun '(col, quality) => Js.lt (parseFloatS quality) 70)
                    (completeness quality)) in
  let recs :=
    if (0 <? List.length lowQualityColumns)%nat
    then recs ++
         [ {| priority := "medium"; recTitle := "Improve Data Collection";
              recDescription := ("Improve data collection for "
                ++ String.concat ", " lowQualityColumns
                ++ " to enhance analysis accuracy.")%string |} ]
    else recs in
  Ok recs.

Definition generateRecommendations (this : analyzer) : result analyzer :=
  recommendations <- recommendationsOf this ;;
  Ok (setResults this (setRecommendations (results this) recommendations)).

(** [performComprehensiveAnalysis], up to the delay that only paces the
    display. *)
Definition performComprehensiveAnalysis (this : analyzer) : result analyzer :=
  this <- identifyColumnTypes this ;;
  this <- assessDataQuality this ;;
  this <- generateExecutiveSummary this ;;
  this <- performPerformanceAnalysis this ;;
  this <- performDemographicAnalysis this ;;
  this <- performTemporalAnalysis this ;;
  this <- performStatisticalAnalysis this ;;
  this <- performCorrelationAnalysis this ;;
  this <- generateAdvancedInsights this ;;
  generateRecommendations this.
End Methods.

End ComprehensiveDataAnalyzer.


(* ================================================================= *)
(** ** Vocabulary of the statements *)

(** The classes of binary64 values the proofs distinguish: a finite number
    is a zero or has a mantissa; a count is [+0], positive or [+Infinity]. *)
Definition finiteSF (s : spec_float) : Prop :=
  match s with
  | S754_zero _ | S754_finite _ _ _ => True
  | _ => False
  end.

Definition positiveSF (s : spec_float) : Prop :=
  match s with
  | S754_zero false | S754_infinity false | S754_finite false _ _ => True
  | _ => False
  end.

Section Vocabulary.
Context {E : Engine}.
Local Open Scope float_scope.

(** What a row adds to the sum of a column: [isNaN(value) ? 0 : value]. *)
Definition contribution (columnName : string) (r : row) : Js.number :=
  let value := parseFloat (getProp r columnName) in
  if Js.isNaN value then 0 else value.

(** No cell of the column parses to an infinity. *)
Definition parsesFinite (rows : table) (columnName : string) : Prop :=
  forall r, In r rows ->
    Js.isNaN (parseFloat (getProp r columnName)) = true
    \/ Js.isFiniteNum (parseFloat (getProp r columnName)) = true.


(** The three classes of a column, and the class the tests of
    [ComprehensiveDataAnalyzer.identifyColumnTypes] give a column. *)
Inductive columnClass := Numeric | DateTime | Categorical.

Definition classOf (rows : table) (col : string) : columnClass :=
  let sample := sampleOf rows (Nat.min 100 (List.length rows)) col in
  if Js.gt (Js.ofNat (List.length (filter isNumericValue sample))
            / Js.ofNat (List.length sample)) 0.7
  then Numeric
  else if Js.gt (Js.ofNat (List.length (filter isDateValue sample))
                 / Js.ofNat (List.length sample)) 0.7
  then DateTime
  else Categorical.

End Vocabulary.

Section SpecArithmetic.
Import QArith_base.
Local Open Scope Q_scope.



End SpecArithmetic.


(* ================================================================= *)
(** ** Positions of the binary64 numbers

    The comparisons of binary64 are those of the integers once every number
    is given its position on a line: a finite number its value in units of
    the smallest subnormal, the infinities a position beyond them. *)

Module Position.

Local Open Scope Z_scope.

(** The value of a finite number in units of the last place of the
    subnormal numbers. *)
Definition ulps (m : positive) (e : Z) : Z :=
  Zpos m * 2 ^ (e - SpecFloat.emin prec emax).

(** The result of rounding is an infinity or a canonical number within
    half a unit of the last place of the exact value, on the grid of that
    place. *)
Definition rounded (s : bool) (p : positive) (e : Z) (x : spec_float) : Prop :=
  exists m' e',
    x = (if e' <=? emax - prec then S754_finite s m' e' else S754_infinity s)
    /\ canonical_mantissa prec emax m' e' = true
    /\ let K :=
         Z.max (Zpos (digits2_pos p) + e - SpecFloat.emin prec emax - prec) 0 in
       (exists u, ulps m' e' = 2 ^ K * u)
       /\ 2 * Z.abs (ulps m' e' - ulps p e) <= 2 ^ K.

(** A position beyond every finite number. *)
Definition top : Z := 2 ^ 2098.

(** The position of a number on the line of integers, in units of the last
    place of the subnormal numbers; the infinities sit beyond every finite
    number. *)
Definition val (x : spec_float) : Z :=
  match x with
  | S754_zero _ => 0
  | S754_nan => 0
  | S754_infinity s => if s then - top else top
  | S754_finite s m e => if s then - ulps m e else ulps m e
  end.

Definition notNaN (x : spec_float) : Prop := x <> S754_nan.

(** The position of a number of the program. *)
Definition position (x : float) : Z := val (Prim2SF x).

(** What [j] shifts make of the mantissa [M]: the quotient, the bit that
    was shifted out last, and whether a lower bit was set. *)
Definition shifted (M j : Z) (mrs : shr_record) : Prop :=
  shr_m mrs = M / 2 ^ j
  /\ (shr_r mrs = true -> 1 <= j)
  /\ exists low,
       M mod 2 ^ j = (if shr_r mrs then 2 ^ (j - 1) else 0) + low
       /\ 0 <= low /\ 2 * low < 2 ^ j
       /\ (shr_s mrs = true <-> low <> 0).

End Position.


(* ================================================================= *)
(** ** Vocabulary of the further properties *)

Section CsvVocabulary.
Local Open Scope string_scope.

(** A field written between quotes, its own quotes doubled, and a line of
    such fields. *)
Fixpoint doubleQuotes (field : string) : string :=
  match field with
  | EmptyString => EmptyString
  | String c r =>
      if Ascii.eqb c quote then String quote (String quote (doubleQuotes r))
      else String c (doubleQuotes r)
  end.

Definition quoteField (field : string) : string :=
  String quote (doubleQuotes field ++ String quote "").

Definition csvLine (fields : list string) : string :=
  String.concat "," (map quoteField fields).

(** Whether a character occurs in a string. *)
Fixpoint occurs (c : ascii) (s : string) : bool :=
  match s with
  | EmptyString => false
  | String c' r => Ascii.eqb c' c || occurs c r
  end.

(** What follows the closing quote of a field: nothing or a comma. *)
Definition closes (tail : string) : Prop :=
  match tail with
  | String c _ => Ascii.eqb c quote = false
  | EmptyString => True
  end.

(** The pieces of a line, the first one after what the loop has read of
    its field. *)
Definition prepend (current : string) (pieces : list string) : list string :=
  match pieces with
  | piece :: pieces' => (current ++ piece) :: pieces'
  | [] => [current]
  end.

(** The line feed, and the lines [parseCSV] keeps. *)
Definition lineFeed : ascii := "010"%char.
Definition notBlank (line : string) : bool := negb (String.eqb (Str.trim line) "").

End CsvVocabulary.

Section GroupVocabulary.
Context {E : Engine}.
Local Open Scope string_scope.

(** The rows of a group: those whose cell reads as the key, in the order
    of the table; a key no row has names no group. *)
Definition membersOf (column key : string) (rows : table) : option (list row) :=
  match filter (fun r => String.eqb (ToString (getProp r column)) key) rows with
  | [] => None
  | members => Some members
  end.

(** The body of the loop of [groupBy]. *)
Definition groupStep (column : string) (groups : Obj.t (list row)) (r : row)
    : result (Obj.t (list row)) :=
  let key := ToString (getProp r column) in
  match Obj.get groups key with
  | Some members => Ok (Obj.set groups key (members ++ [r])%list)
  | None =>
      if existsb (String.eqb key) Obj.inherited
      then Throw (TypeError "groups[key].push is not a function")
      else Ok (Obj.set groups key [r])
  end.

End GroupVocabulary.

(** A pair of a correlation with its columns exchanged. *)
Definition swap (pair : point) : point := {| x := y pair; y := x pair |}.

Section ThemeVocabulary.
Context {E : Engine}.
Import DataAnalyzer.

(** The themes [findThemes] makes. *)
Inductive made : theme -> Prop :=
| made_financial : made financialTheme
| made_volume : made volumeTheme
| made_timeSeries dateCols : made (timeSeriesTheme dateCols)
| made_volatility avgVolatility : made (volatilityTheme avgVolatility)
| made_trend t : made (trendTheme t)
| made_distribution col st : made (distributionTheme col st).

End ThemeVocabulary.


(* ================================================================= *)
(** ** Tables used as examples *)

Module Examples.

Local Open Scope string_scope.
Local Open Scope float_scope.

(** A JSON table with one column of epoch milliseconds. *)
Definition epochColumn : table := [ [("timestamp", CNum 1600000000000)] ].

(** A CSV table with one column of years. *)
Definition yearColumn : table := [ [("date", CStr "2020")]; [("date", CStr "2021")] ].

(** Three numeric columns: [a] and [c] are proportional, [b] follows them
    loosely. *)
Definition threeColumns : table :=
  [ [("a", CNum 1); ("b", CNum 1); ("c", CNum 2)];
    [("a", CNum 2); ("b", CNum 3); ("c", CNum 4)];
    [("a", CNum 3); ("b", CNum 2); ("c", CNum 6)];
    [("a", CNum 4); ("b", CNum 4); ("c", CNum 8)] ].

(** The exploratory analyzer once [threeColumns] is loaded and its columns
    identified. *)
Definition threeColumnsIdentified : DataAnalyzer.analyzer :=
  {| DataAnalyzer.data := Some threeColumns;
     DataAnalyzer.columns := ["a"; "b"; "c"];
     DataAnalyzer.numericColumns := ["a"; "b"; "c"];
     DataAnalyzer.dateColumns := [];
     DataAnalyzer.themes := [];
     DataAnalyzer.correlations := [] |}.

(** The exploratory analyzer holding what a run on another table left. *)
Definition staleAnalyzer : DataAnalyzer.analyzer :=
  {| DataAnalyzer.data := Some yearColumn;
     DataAnalyzer.columns := ["date"];
     DataAnalyzer.numericColumns := ["date"];
     DataAnalyzer.dateColumns := ["date"];
     DataAnalyzer.themes := [DataAnalyzer.timeSeriesTheme ["date"]];
     DataAnalyzer.correlations := [] |}.



(** Prices whose low is zero. *)
Definition flatPrices : table := [ [("high", CNum 0); ("low", CNum 0)] ].
Definition zeroLow : table := [ [("high", CNum 1); ("low", CNum 0)] ].

(** Prices that do not parse. *)
Definition missingPrices : table :=
  [ [("high", CStr "n/a"); ("low", CStr "n/a")]; [("high", CStr ""); ("low", CStr "")] ].

(** A closing price that rises by one each day, over twelve days. *)
Definition risingClose : table :=
  map (fun k => [("close", CNum (Js.ofNat k))]) (seq 1 12).

(** One dated row, and four dated rows whose third value does not parse. *)
Definition oneDatedRow : table := [ [("day", CStr "2020-01-01"); ("v", CNum 1)] ].
Definition gappySeries : table :=
  [ [("day", CStr "2020-01-01"); ("v", CStr "1")];
    [("day", CStr "2020-01-02"); ("v", CStr "2")];
    [("day", CStr "2020-01-03"); ("v", CStr "x")];
    [("day", CStr "2020-01-04"); ("v", CStr "4")] ].

(** An advertising table, as a CSV file gives it, whose impressions hold
    both infinities. *)
Definition adsWithInfinities : table :=
  [ [("impressions", CStr "Infinity"); ("clicks", CStr "1"); ("spent", CStr "2")];
    [("impressions", CStr "-Infinity"); ("clicks", CStr "3"); ("spent", CStr "4")] ].

(** An advertising table of finite cells whose totals overflow. *)
Definition adsOverflowing : table :=
  [ [("impressions", CStr "1e308"); ("clicks", CStr "1e308"); ("spent", CStr "1")];
    [("impressions", CStr "1e308"); ("clicks", CStr "1e308"); ("spent", CStr "1")] ].

(** An advertising table with a cell that does not parse. *)
Definition adsWithGap : table :=
  [ [("impressions", CStr "1000"); ("clicks", CStr "n/a"); ("spent", CStr "2.5")];
    [("impressions", CStr "500"); ("clicks", CStr "30"); ("spent", CNum 4)] ].

(** The comprehensive analyzer once [adsWithGap] is loaded, its columns
    identified and its quality assessed. *)
Definition adsWithGapAssessed : ComprehensiveDataAnalyzer.analyzer :=
  {| ComprehensiveDataAnalyzer.data := Some adsWithGap;
     ComprehensiveDataAnalyzer.columns := ["impressions"; "clicks"; "spent"];
     ComprehensiveDataAnalyzer.numericColumns := ["impressions"; "spent"];
     ComprehensiveDataAnalyzer.dateColumns := [];
     ComprehensiveDataAnalyzer.categoricalColumns := ["clicks"];
     ComprehensiveDataAnalyzer.results :=
       ComprehensiveDataAnalyzer.setDataQuality ComprehensiveDataAnalyzer.noResults
         {| ComprehensiveDataAnalyzer.completeness :=
              [("impressions", "100.0"); ("clicks", "100.0"); ("spent", "100.0")];
            ComprehensiveDataAnalyzer.uniqueness :=
              [("impressions", 2%nat); ("clicks", 2%nat); ("spent", 2%nat)];
            ComprehensiveDataAnalyzer.overall := 100 |} |}.

(** Daily spend, as a CSV file gives it: the quartiles are 2 and 4, the
    fences -1 and 7. *)
Definition dailySpend : table :=
  map (fun s => [("spend", CStr s)])
    ["4"; "8"; "2"; "-1"; "4"; "7"; "2"; "4"; "-2"; "4"; "4"].

(** Fields that hold a comma, quotes, and nothing. *)
Definition quotedFields : list string :=
  ["Smith, John"; "the " ++ String quote ("big" ++ String quote " one"); ""]%string.

(** A line without quotes. *)
Definition plainLine : string := "name, age ,city".

(** A file with a header, two full lines, a short line and a blank line. *)
Definition adsCsv : string :=
  String.concat (String "010"%char "")
    ["impressions,clicks"; "1000,10"; "500"; ""; " 2000 , 30 "; ""].

(** A table with a column of segments, and one whose segment is the name
    of a property every object inherits. *)
Definition genders : table :=
  [ [("gender", CStr "M"); ("clicks", CStr "1")];
    [("gender", CStr "F"); ("clicks", CStr "2")];
    [("gender", CStr "M"); ("clicks", CStr "3")] ].
Definition inheritedSegment : table :=
  [ [("category", CStr "shoes")]; [("category", CStr "constructor")] ].

(** The comprehensive analyzer once [threeColumns] is loaded and its
    columns identified, and the same for [gappySeries]. *)
Definition threeColumnsProfiled : ComprehensiveDataAnalyzer.analyzer :=
  {| ComprehensiveDataAnalyzer.data := Some threeColumns;
     ComprehensiveDataAnalyzer.columns := ["a"; "b"; "c"];
     ComprehensiveDataAnalyzer.numericColumns := ["a"; "b"; "c"];
     ComprehensiveDataAnalyzer.dateColumns := [];
     ComprehensiveDataAnalyzer.categoricalColumns := [];
     ComprehensiveDataAnalyzer.results := ComprehensiveDataAnalyzer.noResults |}.
Definition gappySeriesProfiled : ComprehensiveDataAnalyzer.analyzer :=
  {| ComprehensiveDataAnalyzer.data := Some gappySeries;
     ComprehensiveDataAnalyzer.columns := ["day"; "v"];
     ComprehensiveDataAnalyzer.numericColumns := ["v"];
     ComprehensiveDataAnalyzer.dateColumns := ["day"];
     ComprehensiveDataAnalyzer.categoricalColumns := [];
     ComprehensiveDataAnalyzer.results := ComprehensiveDataAnalyzer.noResults |}.

(** An advertising table whose headers are capitalised, once its quality
    is assessed. *)
Definition capitalAds : table :=
  [ [("Impressions", CStr "1000"); ("Clicks", CStr "10"); ("Spent", CStr "5")] ].
Definition capitalAdsAssessed : ComprehensiveDataAnalyzer.analyzer :=
  {| ComprehensiveDataAnalyzer.data := Some capitalAds;
     ComprehensiveDataAnalyzer.columns := ["Impressions"; "Clicks"; "Spent"];
     ComprehensiveDataAnalyzer.numericColumns := ["Impressions"; "Clicks"; "Spent"];
     ComprehensiveDataAnalyzer.dateColumns := [];
     ComprehensiveDataAnalyzer.categoricalColumns := [];
     ComprehensiveDataAnalyzer.results :=
       ComprehensiveDataAnalyzer.setDataQuality ComprehensiveDataAnalyzer.noResults
         {| ComprehensiveDataAnalyzer.completeness :=
              [("Impressions", "100.0"); ("Clicks", "100.0"); ("Spent", "100.0")]%string;
            ComprehensiveDataAnalyzer.uniqueness :=
              [("Impressions", 1%nat); ("Clicks", 1%nat); ("Spent", 1%nat)];
            ComprehensiveDataAnalyzer.overall := 100 |} |}.

(** A hundred rows, and a row of another kind. *)
Definition hundredRows : table := repeat [("a", CNum 1)] 100.
Definition oddRow : row := [("a", CStr "x")].

End Examples.


(* ================================================================= *)
(** * Properties *)

Unset Implicit Arguments.

(* ================================================================= *)
(** ** Facts about binary64 arithmetic

    Each fact is read off the specification of the operation
    ([FloatAxioms]) by cases on the class of the operands. *)

Module FloatFacts.

Local Open Scope float_scope.

Lemma SFcompare_refl (s : spec_float) :
  s <> S754_nan -> SFcompare s s = Some Eq.
Proof.
  destruct s as [[|]|[|]| |[|] m e]; simpl; try reflexivity; try congruence;
    intros _; rewrite Z.compare_refl, Pos.compare_cont_refl; reflexivity.
Qed.

Lemma isNaN_spec (x : float) : Js.isNaN x = true <-> Prim2SF x = S754_nan.
Proof.
  unfold Js.isNaN. rewrite FloatAxioms.eqb_spec. unfold SFeqb. split.
  - intros H. destruct (Prim2SF x) eqn:Hx; try reflexivity;
      rewrite SFcompare_refl in H by congruence; discriminate.
  - intros ->. reflexivity.
Qed.

Lemma isNaN_false (x : float) : Js.isNaN x = false <-> Prim2SF x <> S754_nan.
Proof.
  rewrite <- isNaN_spec. destruct (Js.isNaN x); split; congruence.
Qed.

Lemma ltb_irrefl (x : float) : (x <? x) = false.
Proof.
  rewrite FloatAxioms.ltb_spec. unfold SFltb.
  destruct (Prim2SF x) eqn:Hx; try reflexivity;
    rewrite SFcompare_refl by congruence; reflexivity.
Qed.

Lemma isFiniteNum_spec (x : float) : Js.isFiniteNum x = true <-> finiteSF (Prim2SF x).
Proof.
  unfold Js.isFiniteNum, is_finite, is_nan, is_infinity.
  rewrite !FloatAxioms.eqb_spec, FloatAxioms.abs_spec. change (Prim2SF infinity) with (S754_infinity false).
  unfold SFeqb.
  destruct (Prim2SF x) as [s|s| |s m e] eqn:Hx.
  - simpl. tauto.
  - simpl. destruct s; simpl; split; (discriminate || tauto).
  - simpl. split; (discriminate || tauto).
  - rewrite SFcompare_refl by discriminate. simpl. tauto.
Qed.

(** *** Rounding never produces NaN *)

Lemma shr_1_nonneg (mrs : shr_record) :
  (0 <= shr_m mrs)%Z -> (0 <= shr_m (shr_1 mrs))%Z.
Proof.
  destruct mrs as [m r s]; simpl.
  destruct m as [|p|p]; try destruct p; simpl; lia.
Qed.

Lemma iter_shr_1_nonneg (p : positive) : forall mrs,
  (0 <= shr_m mrs)%Z -> (0 <= shr_m (SpecFloat.iter_pos shr_1 p mrs))%Z.
Proof.
  induction p; intros mrs H; simpl; auto using shr_1_nonneg.
Qed.

Lemma shr_fexp_nonneg (m e : Z) (l : location) :
  (0 <= m)%Z -> (0 <= shr_m (fst (shr_fexp prec emax m e l)))%Z.
Proof.
  intros H. unfold shr_fexp, shr.
  assert (H0 : (0 <= shr_m (shr_record_of_loc m l))%Z)
    by (destruct l as [|[| |]]; exact H).
  destruct (fexp prec emax (Zdigits2 m + e) - e)%Z; simpl; auto using iter_shr_1_nonneg.
Qed.

Lemma round_nearest_even_nonneg (m : Z) (l : location) :
  (0 <= m)%Z -> (0 <= round_nearest_even m l)%Z.
Proof.
  intros H. destruct l as [|[| |]]; simpl; try lia.
  destruct (Z.even m); lia.
Qed.

Lemma binary_round_aux_not_nan (sx : bool) (mx ex : Z) (lx : location) :
  (0 <= mx)%Z -> binary_round_aux prec emax sx mx ex lx <> S754_nan.
Proof.
  intros H. unfold binary_round_aux.
  pose proof (shr_fexp_nonneg mx ex lx H) as H1.
  destruct (shr_fexp prec emax mx ex lx) as [mrs' e']. simpl in H1.
  pose proof (shr_fexp_nonneg _ e' loc_Exact
                (round_nearest_even_nonneg _ (loc_of_shr_record mrs') H1)) as H2.
  destruct (shr_fexp prec emax _ e' loc_Exact) as [mrs'' e'']. simpl in H2.
  destruct (shr_m mrs'') as [|p|p]; try discriminate.
  - destruct (e'' <=? emax - prec)%Z; discriminate.
  - lia.
Qed.

Lemma binary_normalize_not_nan (m e : Z) (szero : bool) :
  binary_normalize prec emax m e szero <> S754_nan.
Proof.
  destruct m as [|p|p]; simpl; try discriminate; unfold binary_round;
    destruct (shl_align _ _ _) as [mz ez]; apply binary_round_aux_not_nan; lia.
Qed.

(** The sum of a number that is not NaN and of a finite number is not
    NaN (it may be an infinity). *)
Lemma add_not_nan (a b : float) :
  Js.isNaN a = false -> Js.isFiniteNum b = true -> Js.isNaN (a + b) = false.
Proof.
  rewrite !isNaN_false, isFiniteNum_spec, FloatAxioms.add_spec. unfold SF64add.
  destruct (Prim2SF a) as [sa|sa| |sa ma ea], (Prim2SF b) as [sb|sb| |sb mb eb];
    simpl; try congruence; try tauto; intros _ _.
  - destruct sa, sb; discriminate.
  - apply binary_normalize_not_nan.
Qed.

(** *** Zeros *)

Lemma SF_zero : Prim2SF 0 = S754_zero false.
Proof. reflexivity. Qed.

(** [v - v] is [+0] for a finite [v]. *)
Lemma sub_diag (v : float) : Js.isFiniteNum v = true -> v - v = 0.
Proof.
  rewrite isFiniteNum_spec. intros Hfin. apply Prim2SF_inj.
  rewrite FloatAxioms.sub_spec, SF_zero. unfold SF64sub, SFsub.
  destruct (Prim2SF v) as [[|]|s| |s m e]; try contradiction; try reflexivity.
  rewrite Z.sub_diag. reflexivity.
Qed.

(** [v - 0] is [v] for a finite [v]. *)
Lemma sub_zero (v : float) : Js.isFiniteNum v = true -> v - 0 = v.
Proof.
  rewrite isFiniteNum_spec. intros Hfin. apply Prim2SF_inj.
  rewrite FloatAxioms.sub_spec, SF_zero. unfold SF64sub, SFsub.
  destruct (Prim2SF v) as [[|]|s| |s m e]; try contradiction; reflexivity.
Qed.

(** [v + 0] compares equal to [v] for a finite [v]. *)
Lemma add_zero_SF (v : float) :
  Js.isFiniteNum v = true ->
  Prim2SF (v + 0) = Prim2SF v \/ exists s s', Prim2SF (v + 0) = S754_zero s /\ Prim2SF v = S754_zero s'.
Proof.
  rewrite isFiniteNum_spec. intros Hfin.
  rewrite FloatAxioms.add_spec, SF_zero. unfold SF64add, SFadd.
  destruct (Prim2SF v) as [[|]|s| |s m e]; try contradiction; eauto.
Qed.

Lemma binary_round_aux_sign (mx ex : Z) (lx : location) :
  (0 <= mx)%Z -> positiveSF (binary_round_aux prec emax false mx ex lx).
Proof.
  intros H. pose proof (binary_round_aux_not_nan false mx ex lx H) as Hnan.
  unfold binary_round_aux in *.
  destruct (shr_fexp prec emax mx ex lx) as [mrs' e'].
  destruct (shr_fexp prec emax _ e' loc_Exact) as [mrs'' e''].
  destruct (shr_m mrs'') as [|p|p]; try exact I; try congruence.
  destruct (e'' <=? emax - prec)%Z; exact I.
Qed.

Lemma ofNat_positive (k : nat) : positiveSF (Prim2SF (Js.ofNat k)).
Proof.
  unfold Js.ofNat. rewrite of_uint63_spec.
  pose proof (Uint63.to_Z_bounded (Uint63.of_Z (Z.of_nat k))) as [H _].
  destruct (Uint63.to_Z _) as [|p|p]; [exact I| |lia].
  cbn [binary_normalize]. unfold binary_round.
  destruct (shl_align _ _ _) as [mz ez]. apply binary_round_aux_sign. lia.
Qed.

(** When a quotient by a count is finite, [0] divided by the count is [+0]. *)
Lemma zero_div_count (s n v : float) :
  positiveSF (Prim2SF n) -> Js.isFiniteNum v = true -> s / n = v -> 0 / n = 0.
Proof.
  intros Hn Hv Hdiv. apply Prim2SF_inj.
  rewrite isFiniteNum_spec in Hv. rewrite <- Hdiv in Hv.
  rewrite FloatAxioms.div_spec in *. rewrite SF_zero. unfold SF64div, SFdiv in *.
  destruct (Prim2SF n) as [[|]|[|]| |[|] mn en]; try contradiction; try reflexivity.
  destruct (Prim2SF s) as [ss|ss| |ss ms es]; contradiction.
Qed.
Lemma ltb_add_zero (v : float) : Js.isFiniteNum v = true -> (v + 0 <? v) = false.
Proof.
  intros Hfin. rewrite FloatAxioms.ltb_spec. unfold SFltb.
  destruct (add_zero_SF v Hfin) as [->|(s & s' & -> & ->)]; [|reflexivity].
  rewrite isFiniteNum_spec in Hfin.
  rewrite SFcompare_refl; [reflexivity|].
  destruct (Prim2SF v); try contradiction; discriminate.
Qed.

(** *** Quotients and products *)

(** A number above 0 is positive and not a zero. *)
Lemma gt_zero_class (b : float) :
  Js.gt b 0 = true ->
  Prim2SF b = S754_infinity false \/ exists m e, Prim2SF b = S754_finite false m e.
Proof.
  unfold Js.gt. rewrite FloatAxioms.ltb_spec, SF_zero. unfold SFltb.
  destruct (Prim2SF b) as [s|[|]| |[|] m e]; simpl; try discriminate; eauto.
Qed.

Lemma div_core_nonneg (m1 m2 : positive) (e1 e2 : Z) :
  (0 <= fst (fst (SFdiv_core_binary prec emax (Zpos m1) e1 (Zpos m2) e2)))%Z.
Proof.
  unfold SFdiv_core_binary.
  set (s := (e1 - e2 - _)%Z).
  set (m' := match s with Zpos _ => Z.shiftl (Zpos m1) s | Z0 => Zpos m1 | Zneg _ => 0%Z end).
  assert (Hm : (0 <= m')%Z).
  { subst m'. destruct s; try lia. apply Z.shiftl_nonneg. lia. }
  pose proof (Z.div_pos m' (Zpos m2) Hm eq_refl) as Hq.
  unfold Z.div in Hq. destruct (Z.div_eucl m' (Zpos m2)) as [q r]. exact Hq.
Qed.

(** A quotient by a number above 0 is NaN only when the dividend is NaN or
    both are infinite. *)
Lemma div_positive_not_nan (a b : float) :
  Js.isNaN a = false -> Js.gt b 0 = true ->
  Js.isFiniteNum a = true \/ Js.isFiniteNum b = true ->
  Js.isNaN (a / b) = false.
Proof.
  intros Ha Hb Hfin. apply isNaN_false. apply isNaN_false in Ha.
  rewrite !isFiniteNum_spec in Hfin. rewrite FloatAxioms.div_spec. unfold SF64div.
  destruct (gt_zero_class b Hb) as [Hb'|(mb & eb & Hb')]; rewrite Hb' in *.
  - destruct (Prim2SF a) as [sa|sa| |sa ma ea]; simpl in *;
      try congruence; try discriminate; tauto.
  - destruct (Prim2SF a) as [sa|sa| |sa ma ea]; try congruence; try discriminate.
    unfold SFdiv.
    pose proof (div_core_nonneg ma mb ea eb) as Hq.
    destruct (SFdiv_core_binary prec emax (Zpos ma) ea (Zpos mb) eb) as [[mz ez] lz].
    apply binary_round_aux_not_nan. exact Hq.
Qed.

(** A product by 100 is NaN only when the other factor is. *)
Lemma mul_hundred_not_nan (x : float) :
  Js.isNaN x = false -> Js.isNaN (x * 100) = false.
Proof.
  intros Hx. apply isNaN_false. apply isNaN_false in Hx.
  assert (H100 : exists m e, Prim2SF 100 = S754_finite false m e)
    by (eexists; eexists; vm_compute; reflexivity).
  destruct H100 as (m & e & H100).
  rewrite FloatAxioms.mul_spec, H100. unfold SF64mul, SFmul.
  destruct (Prim2SF x) as [sx|sx| |sx mx ex]; try congruence; try discriminate.
  apply binary_round_aux_not_nan. lia.
Qed.

End FloatFacts.


(* ================================================================= *)
(** ** The order of binary64

    Rounding to nearest keeps a number on the same side of every
    representable number as the exact result; sums, differences and the
    comparisons are read on the positions of the numbers. *)

Module FloatOrder.

Import Position.

Local Open Scope Z_scope.

Local Abbreviation emin := (SpecFloat.emin prec emax).

Lemma emin_val : emin = -1074.
Proof. reflexivity. Qed.

(** *** Digits *)

Lemma digits2_pos_bounds (p : positive) :
  2 ^ (Zpos (digits2_pos p) - 1) <= Zpos p < 2 ^ Zpos (digits2_pos p).
Proof.
  induction p as [p IH|p IH|]; cbn [digits2_pos].
  - rewrite Pos2Z.inj_succ. replace (Z.succ (Zpos (digits2_pos p)) - 1)
      with (Zpos (digits2_pos p)) by lia.
    rewrite Z.pow_succ_r by lia.
    replace (2 ^ Zpos (digits2_pos p)) with (2 * 2 ^ (Zpos (digits2_pos p) - 1)) in *
      by (rewrite <- Z.pow_succ_r by lia; f_equal; lia).
    lia.
  - rewrite Pos2Z.inj_succ. replace (Z.succ (Zpos (digits2_pos p)) - 1)
      with (Zpos (digits2_pos p)) by lia.
    rewrite Z.pow_succ_r by lia.
    replace (2 ^ Zpos (digits2_pos p)) with (2 * 2 ^ (Zpos (digits2_pos p) - 1)) in *
      by (rewrite <- Z.pow_succ_r by lia; f_equal; lia).
    lia.
  - cbn. lia.
Qed.

(** The number of digits is the only [d] with [2^(d-1) <= n < 2^d]. *)
Lemma digits_unique (n d d' : Z) :
  0 < d -> 0 < d' -> 2 ^ (d - 1) <= n < 2 ^ d -> 2 ^ (d' - 1) <= n < 2 ^ d' -> d = d'.
Proof.
  intros Hd Hd' [H1 H2] [H3 H4].
  destruct (Z.lt_trichotomy d d') as [H|[H|H]]; [|exact H|].
  - assert (2 ^ d <= 2 ^ (d' - 1)) by (apply Z.pow_le_mono_r; lia). lia.
  - assert (2 ^ d' <= 2 ^ (d - 1)) by (apply Z.pow_le_mono_r; lia). lia.
Qed.

Lemma iter_xO (p : positive) (k : positive) :
  Zpos (Pos.iter xO p k) = Zpos p * 2 ^ Zpos k.
Proof.
  revert p. induction k as [|k IH] using Pos.peano_ind; intros p.
  - cbn. lia.
  - rewrite Pos.iter_succ, Pos2Z.inj_succ, Z.pow_succ_r by lia.
    rewrite Pos2Z.inj_xO, IH. lia.
Qed.

Lemma digits_shift (p : positive) (k : positive) :
  Zpos (digits2_pos (Pos.iter xO p k)) = Zpos (digits2_pos p) + Zpos k.
Proof.
  revert p. induction k as [|k IH] using Pos.peano_ind; intros p.
  - cbn. lia.
  - rewrite Pos.iter_succ. cbn [digits2_pos]. rewrite Pos2Z.inj_succ, IH. lia.
Qed.

(** *** Shifting right *)

Lemma iter_pos_invariant {A} (f : A -> A) (P : Z -> A -> Prop) :
  (forall j a, 0 <= j -> P j a -> P (j + 1) (f a)) ->
  forall p j a, 0 <= j -> P j a -> P (j + Zpos p) (SpecFloat.iter_pos f p a).
Proof.
  intros Hstep. induction p as [p IH|p IH|]; intros j a Hj Ha; cbn [SpecFloat.iter_pos].
  - replace (j + Zpos p~1) with (j + 1 + Zpos p + Zpos p) by lia.
    apply IH; [lia|]. apply IH; [lia|]. apply Hstep; assumption.
  - replace (j + Zpos p~0) with (j + Zpos p + Zpos p) by lia.
    apply IH; [lia|]. apply IH; assumption.
  - apply Hstep; assumption.
Qed.

Lemma shifted_0 (M : Z) : shifted M 0 (shr_record_of_loc M loc_Exact).
Proof.
  cbn [shr_record_of_loc]. unfold shifted. cbn [shr_m shr_r shr_s].
  rewrite Z.pow_0_r, Z.div_1_r, Z.mod_1_r.
  split; [reflexivity|]. split; [discriminate|].
  exists 0. repeat split; try lia; try discriminate. 
Qed.

Lemma shifted_step (M j : Z) (mrs : shr_record) :
  0 <= M -> 0 <= j -> shifted M j mrs -> shifted M (j + 1) (shr_1 mrs).
Proof.
  intros HM Hj (Hm & Hr & low & Hrem & Hlow0 & Hlow & Hs).
  assert (Hpow : 0 < 2 ^ j) by (apply Z.pow_pos_nonneg; lia).
  assert (Hpow1 : 2 ^ (j + 1) = 2 * 2 ^ j) by (rewrite Z.pow_add_r by lia; lia).
  pose proof (Z.div_mod M (2 ^ j) ltac:(lia)) as HMdiv.
  pose proof (Z.mod_pos_bound M (2 ^ j) Hpow) as Hmodb.
  assert (Hq : 0 <= M / 2 ^ j) by (apply Z.div_pos; lia).
  destruct mrs as [m r s]. cbn [shr_m shr_r shr_s] in *. subst m.
  set (q := M / 2 ^ j) in *. set (rem := M mod 2 ^ j) in *.
  assert (Hdm : forall q' b, q = 2 * q' + b -> 0 <= b < 2 ->
            M / 2 ^ (j + 1) = q' /\ M mod 2 ^ (j + 1) = b * 2 ^ j + rem).
  { intros q' b Hq' Hb.
    assert (H : M = 2 ^ (j + 1) * q' + (b * 2 ^ j + rem)) by (rewrite Hpow1; nia).
    pose proof (Z.div_mod_unique (2 ^ (j + 1)) (M / 2 ^ (j + 1)) q'
                  (M mod 2 ^ (j + 1)) (b * 2 ^ j + rem)) as Hu.
    assert (Hb1 : 0 <= M mod 2 ^ (j + 1) < 2 ^ (j + 1))
      by (apply Z.mod_pos_bound; lia).
    assert (Hb2 : 0 <= b * 2 ^ j + rem < 2 ^ (j + 1)) by (rewrite Hpow1; nia).
    destruct Hu as [Hu1 Hu2]; [left; exact Hb1|left; exact Hb2| |split; assumption].
    rewrite <- H. symmetry. apply Z.div_mod. lia. }
  assert (Hlowrem : exists low', rem = low' /\ 0 <= low' /\ 2 * low' < 2 ^ (j + 1)
                                 /\ (r || s = true <-> low' <> 0)).
  { exists rem. split; [reflexivity|]. split; [lia|]. split; [lia|].
    rewrite Hrem. destruct r; cbn [orb].
    - specialize (Hr eq_refl).
      assert (0 < 2 ^ (j - 1)) by (apply Z.pow_pos_nonneg; lia). split; [lia|reflexivity].
    - rewrite Hs. split; intros H; lia. }
  destruct Hlowrem as (low' & Hl1 & Hl2 & Hl3 & Hl4).
  assert (Hfin : forall q' b, M / 2 ^ (j + 1) = q' ->
            M mod 2 ^ (j + 1) = b * 2 ^ j + rem -> 0 <= b < 2 ->
            forall r', (r' = true <-> b = 1) ->
            shifted M (j + 1) (Build_shr_record q' r' (r || s))).
  { intros q' b Hq' Hm' Hb r' Hr'. unfold shifted. cbn [shr_m shr_r shr_s].
    split; [symmetry; exact Hq'|]. split; [lia|]. exists low'.
    replace (j + 1 - 1) with j by lia. rewrite Hm'.
    split; [|split; [lia|split; [lia|exact Hl4]]].
    destruct r'.
    - assert (b = 1) by (apply Hr'; reflexivity). lia.
    - assert (b = 0).
      { destruct (Z.eq_dec b 1) as [e|n]; [apply Hr' in e; discriminate|lia]. }
      lia. }
  unfold shr_1.
  destruct q as [|[p|p|]|p] eqn:Hqe; try lia.
  - destruct (Hdm 0 0 ltac:(lia) ltac:(lia)) as [H1 H2].
    apply (Hfin 0 0 H1 H2); [lia|]. split; [discriminate|lia].
  - destruct (Hdm (Zpos p) 1 ltac:(lia) ltac:(lia)) as [H1 H2].
    apply (Hfin (Zpos p) 1 H1 H2); [lia|]. split; reflexivity.
  - destruct (Hdm (Zpos p) 0 ltac:(lia) ltac:(lia)) as [H1 H2].
    apply (Hfin (Zpos p) 0 H1 H2); [lia|]. split; [discriminate|lia].
  - destruct (Hdm 0 1 ltac:(lia) ltac:(lia)) as [H1 H2].
    apply (Hfin 0 1 H1 H2); [lia|]. split; reflexivity.
Qed.

Lemma shifted_iter (M : Z) (k : positive) :
  0 <= M ->
  shifted M (Zpos k) (SpecFloat.iter_pos shr_1 k (shr_record_of_loc M loc_Exact)).
Proof.
  intros HM.
  apply (iter_pos_invariant shr_1 (shifted M) (fun j a Hj => shifted_step M j a HM Hj)
           k 0 _ (Z.le_refl 0) (shifted_0 M)).
Qed.

(** Rounding to nearest after [j >= 1] shifts lands within half a unit of
    the last place. *)
Lemma round_shifted (M j : Z) (mrs : shr_record) :
  0 <= M -> 1 <= j -> shifted M j mrs ->
  let q' := round_nearest_even (shr_m mrs) (loc_of_shr_record mrs) in
  0 <= q' /\ 2 * Z.abs (2 ^ j * q' - M) <= 2 ^ j.
Proof.
  intros HM Hj (Hm & Hr & low & Hrem & Hlow0 & Hlow & Hs) q'.
  assert (Hpow : 0 < 2 ^ j) by (apply Z.pow_pos_nonneg; lia).
  assert (Hpow1 : 2 ^ j = 2 * 2 ^ (j - 1))
    by (rewrite <- Z.pow_succ_r by lia; f_equal; lia).
  pose proof (Z.div_mod M (2 ^ j) ltac:(lia)) as HMdiv.
  assert (Hq : 0 <= M / 2 ^ j) by (apply Z.div_pos; lia).
  destruct mrs as [m r s]. cbn [shr_m shr_r shr_s] in *. subst m q'.
  set (q := M / 2 ^ j) in *. set (rem := M mod 2 ^ j) in *.
  destruct r, s; cbn [loc_of_shr_record round_nearest_even].
  - assert (low <> 0) by (apply Hs; reflexivity). split; [lia|]. nia.
  - assert (low = 0).
    { destruct (Z.eq_dec low 0) as [e|n]; [exact e|]. apply Hs in n. discriminate. }
    destruct (Z.even q); split; try lia; nia.
  - split; [lia|]. nia.
  - split; [lia|]. nia.
Qed.

(** *** Rounding *)

Lemma fexp_val (x : Z) : fexp prec emax x = Z.max (x - 53) (-1074).
Proof. reflexivity. Qed.

Lemma pow2_pos (k : Z) : 0 <= k -> 0 < 2 ^ k.
Proof. intros H. apply Z.pow_pos_nonneg; lia. Qed.

Lemma pow2_add (a b : Z) : 0 <= a -> 0 <= b -> 2 ^ (a + b) = 2 ^ a * 2 ^ b.
Proof. intros. apply Z.pow_add_r; assumption. Qed.

Lemma Zdigits2_pos (z : Z) (d : Z) :
  0 < d -> 2 ^ (d - 1) <= z < 2 ^ d -> Zdigits2 z = d.
Proof.
  intros Hd Hz. assert (0 < 2 ^ (d - 1)) by (apply pow2_pos; lia).
  destruct z as [|p|p]; try lia. cbn [Zdigits2].
  apply (digits_unique (Zpos p)); try lia. apply digits2_pos_bounds.
Qed.

Lemma binary_round_aux_exact (s : bool) (mz : positive) (t : Z) :
  fexp prec emax (Zpos (digits2_pos mz) + t) = t ->
  binary_round_aux prec emax s (Zpos mz) t loc_Exact
  = if t <=? emax - prec then S754_finite s mz t else S754_infinity s.
Proof.
  intros Ht. unfold binary_round_aux, shr_fexp. cbn [Zdigits2 shr_record_of_loc].
  rewrite Ht, Z.sub_diag. cbn [shr shr_m loc_of_shr_record round_nearest_even Zdigits2].
  rewrite Ht, Z.sub_diag. cbn [shr shr_m]. reflexivity.
Qed.

Lemma binary_round_spec (s : bool) (p : positive) (e : Z) :
  emin <= e -> rounded s p e (binary_round prec emax s p e).
Proof.
  intros He. rewrite emin_val in He. unfold binary_round, rounded, ulps.
  rewrite emin_val.
  set (d := Zpos (digits2_pos p)).
  assert (Hd : 0 < d) by (unfold d; lia).
  pose proof (digits2_pos_bounds p) as Hp. fold d in Hp.
  rewrite fexp_val. fold d.
  destruct (Z_le_gt_dec d 53) as [Hsmall|Hbig].
  - (* no digit is lost *)
    set (t := Z.max (d + e - 53) (-1074)).
    assert (Ht : t <= e) by (unfold t; lia).
    assert (Hshl : exists mz, shl_align p e t = (mz, t)
                              /\ Zpos mz = Zpos p * 2 ^ (e - t)
                              /\ Zpos (digits2_pos mz) = d + e - t).
    { unfold shl_align. destruct (t - e) as [|k|k] eqn:Hk; try lia.
      - assert (t = e) by lia. subst t. exists p. rewrite H, Z.sub_diag.
        split; [reflexivity|]. split; [lia|]. fold d. lia.
      - exists (Pos.iter xO p k). split; [reflexivity|].
        rewrite iter_xO, digits_shift. fold d.
        replace (e - t) with (Zpos k) by lia. split; lia. }
    destruct Hshl as (mz & -> & Hmz & Hdz).
    rewrite binary_round_aux_exact
      by (rewrite Hdz, fexp_val; replace (d + e - t + t) with (d + e) by lia; reflexivity).
    exists mz, t. split; [reflexivity|]. split.
    { unfold canonical_mantissa. rewrite Hdz, fexp_val.
      replace (d + e - t + t) with (d + e) by lia. apply Z.eqb_refl. }
    assert (Hval : Zpos mz * 2 ^ (t - -1074) = Zpos p * 2 ^ (e - -1074)).
    { rewrite Hmz. replace (e - -1074) with ((e - t) + (t - -1074)) by lia.
      rewrite pow2_add by (unfold t; lia). lia. }
    cbv zeta. rewrite Hval. split.
    + set (K := Z.max (d + e - -1074 - prec) 0).
      assert (HK : 0 <= K <= e - -1074) by (unfold K, prec; lia).
      exists (Zpos p * 2 ^ (e - -1074 - K)).
      replace (e - -1074) with (K + (e - -1074 - K)) at 1 by lia.
      rewrite pow2_add by lia. lia.
    + rewrite Z.sub_diag. cbn [Z.abs].
      assert (0 < 2 ^ Z.max (d + e - -1074 - prec) 0) by (apply pow2_pos; lia). lia.
  - (* the last [d - 53] digits are rounded *)
    assert (Hshl : shl_align p e (Z.max (d + e - 53) (-1074)) = (p, e)).
    { unfold shl_align. destruct (Z.max (d + e - 53) (-1074) - e) eqn:Hk; try lia;
        reflexivity. }
    rewrite Hshl. unfold binary_round_aux.
    set (k := d - 53).
    assert (Hk : 1 <= k) by (unfold k; lia).
    assert (Hfexp : fexp prec emax (Zdigits2 (Zpos p) + e) - e = k).
    { cbn [Zdigits2]. fold d. rewrite fexp_val. unfold k. lia. }
    destruct k as [|kp|kp] eqn:Hkp; try lia.
    assert (Hfst : shr_fexp prec emax (Zpos p) e loc_Exact
                   = (SpecFloat.iter_pos shr_1 kp (shr_record_of_loc (Zpos p) loc_Exact),
                      e + Zpos kp)).
    { unfold shr_fexp. rewrite Hfexp. reflexivity. }
    rewrite Hfst.
    pose proof (shifted_iter (Zpos p) kp ltac:(lia)) as Hsh.
    set (mrs := SpecFloat.iter_pos shr_1 kp (shr_record_of_loc (Zpos p) loc_Exact)) in *.
    destruct (round_shifted (Zpos p) (Zpos kp) mrs ltac:(lia) Hk Hsh) as [Hq0 Hhalf].
    set (q := round_nearest_even (shr_m mrs) (loc_of_shr_record mrs)) in *.
    assert (Hpk : 0 < 2 ^ Zpos kp) by (apply pow2_pos; lia).
    assert (Hd1 : 2 ^ (d - 1) = 2 ^ 52 * 2 ^ Zpos kp).
    { replace (d - 1) with (52 + Zpos kp) by lia. apply pow2_add; lia. }
    assert (Hd2 : 2 ^ d = 2 ^ 53 * 2 ^ Zpos kp).
    { replace d with (53 + Zpos kp) at 1 by lia. apply pow2_add; lia. }
    assert (Hq : 2 ^ 52 <= q <= 2 ^ 53) by nia.
    assert (HK : Z.max (d + e - -1074 - prec) 0 = Zpos kp + (e - -1074))
      by (unfold prec; lia).
    assert (HKpow : 2 ^ (Zpos kp + (e - -1074)) = 2 ^ Zpos kp * 2 ^ (e - -1074))
      by (apply pow2_add; lia).
    assert (Hpe : 0 < 2 ^ (e - -1074)) by (apply pow2_pos; lia).
    destruct (Z.eq_dec q (2 ^ 53)) as [Htop|Hnot].
    + (* the mantissa overflows to the next binade *)
      rewrite Htop. unfold shr_fexp.
      replace (Zdigits2 (2 ^ 53)) with 54 by (vm_compute; reflexivity).
      rewrite fexp_val.
      replace (Z.max (54 + (e + Zpos kp) - 53) (-1074) - (e + Zpos kp)) with 1 by lia.
      change (shr (shr_record_of_loc (2 ^ 53) loc_Exact) (e + Zpos kp) 1)
        with ({| shr_m := 2 ^ 52; shr_r := false; shr_s := false |}, e + Zpos kp + 1).
      cbn [shr_m]. change (2 ^ 52) with (Zpos (Z.to_pos (2 ^ 52))).
      exists (Z.to_pos (2 ^ 52)), (e + Zpos kp + 1). split; [reflexivity|]. split.
      { unfold canonical_mantissa.
        change (Zpos (digits2_pos (Z.to_pos (2 ^ 52)))) with 53.
        rewrite fexp_val. apply Z.eqb_eq. lia. }
      cbv zeta. rewrite HK, HKpow.
      assert (Hval : Zpos (Z.to_pos (2 ^ 52)) * 2 ^ (e + Zpos kp + 1 - -1074)
                     = 2 ^ 53 * (2 ^ Zpos kp * 2 ^ (e - -1074))).
      { replace (e + Zpos kp + 1 - -1074) with (1 + (Zpos kp + (e - -1074))) by lia.
        rewrite pow2_add, HKpow by lia. change (Zpos (Z.to_pos (2 ^ 52))) with (2 ^ 52).
        change (2 ^ 53) with (2 ^ 52 * 2 ^ 1). lia. }
      rewrite Hval. split.
      * exists (2 ^ 53). lia.
      * rewrite Htop in Hhalf.
        replace (2 ^ 53 * (2 ^ Zpos kp * 2 ^ (e - -1074)) - Zpos p * 2 ^ (e - -1074))
          with ((2 ^ Zpos kp * 2 ^ 53 - Zpos p) * 2 ^ (e - -1074)) by lia.
        rewrite Z.abs_mul, (Z.abs_eq (2 ^ (e - -1074))) by lia. nia.
    + (* the mantissa keeps 53 digits *)
      destruct q as [|mq|mq] eqn:Hqe; try lia.
      unfold shr_fexp.
      rewrite (Zdigits2_pos (Zpos mq) 53) by (change (53 - 1) with 52; lia).
      rewrite fexp_val.
      replace (Z.max (53 + (e + Zpos kp) - 53) (-1074) - (e + Zpos kp)) with 0 by lia.
      cbn [shr shr_record_of_loc shr_m].
      exists mq, (e + Zpos kp). split; [reflexivity|]. split.
      { unfold canonical_mantissa.
        replace (Zpos (digits2_pos mq)) with 53.
        - rewrite fexp_val. apply Z.eqb_eq. lia.
        - symmetry. apply (Zdigits2_pos (Zpos mq) 53); [lia|]. change (53 - 1) with 52. lia. }
      cbv zeta. rewrite HK, HKpow.
      assert (Hval : Zpos mq * 2 ^ (e + Zpos kp - -1074)
                     = Zpos mq * (2 ^ Zpos kp * 2 ^ (e - -1074))).
      { replace (e + Zpos kp - -1074) with (Zpos kp + (e - -1074)) by lia.
        rewrite HKpow. reflexivity. }
      rewrite Hval. split.
      * exists (Zpos mq). lia.
      * replace (Zpos mq * (2 ^ Zpos kp * 2 ^ (e - -1074)) - Zpos p * 2 ^ (e - -1074))
          with ((2 ^ Zpos kp * Zpos mq - Zpos p) * 2 ^ (e - -1074)) by lia.
        rewrite Z.abs_mul, (Z.abs_eq (2 ^ (e - -1074))) by lia. nia.
Qed.

(** *** The order of the numbers *)

Lemma canonical_inv (m : positive) (e : Z) :
  canonical_mantissa prec emax m e = true ->
  -1074 <= e /\ Zpos m < 2 ^ 53 /\ (-1074 < e -> 2 ^ 52 <= Zpos m).
Proof.
  unfold canonical_mantissa. rewrite fexp_val. intros H%Z.eqb_eq.
  pose proof (digits2_pos_bounds m) as Hm.
  set (d := Zpos (digits2_pos m)) in *.
  assert (Hd : 0 < d) by (unfold d; lia).
  split; [lia|]. split.
  - assert (d <= 53) by lia.
    assert (2 ^ d <= 2 ^ 53) by (apply Z.pow_le_mono_r; lia). lia.
  - intros He. assert (d = 53) by lia.
    replace (d - 1) with 52 in Hm by lia. lia.
Qed.

Lemma ulps_pos (m : positive) (e : Z) : -1074 <= e -> 0 < ulps m e.
Proof.
  intros He. unfold ulps. rewrite emin_val.
  assert (0 < 2 ^ (e - -1074)) by (apply pow2_pos; lia). lia.
Qed.

Lemma ulps_lt (m1 m2 : positive) (e1 e2 : Z) :
  canonical_mantissa prec emax m1 e1 = true ->
  canonical_mantissa prec emax m2 e2 = true ->
  e1 < e2 -> ulps m1 e1 < ulps m2 e2.
Proof.
  intros (He1 & Hm1 & _)%canonical_inv (He2 & _ & Hm2)%canonical_inv Hlt.
  specialize (Hm2 ltac:(lia)). unfold ulps. rewrite emin_val.
  assert (H1 : 0 < 2 ^ (e1 - -1074)) by (apply pow2_pos; lia).
  assert (H2 : 2 ^ (e2 - -1074) = 2 ^ (e2 - e1 - 1) * (2 * 2 ^ (e1 - -1074))).
  { replace (e2 - -1074) with ((e2 - e1 - 1) + (1 + (e1 - -1074))) by lia.
    rewrite !pow2_add by lia. reflexivity. }
  assert (H3 : 0 < 2 ^ (e2 - e1 - 1)) by (apply pow2_pos; lia).
  rewrite H2. change (2 ^ 53) with (2 * 2 ^ 52) in Hm1.
  set (a := 2 ^ (e1 - -1074)) in *. set (b := 2 ^ (e2 - e1 - 1)) in *.
  assert (Zpos m1 * a < 2 * 2 ^ 52 * a) by nia.
  assert (2 ^ 52 * (1 * (2 * a)) <= Zpos m2 * (b * (2 * a))).
  { apply Z.mul_le_mono_nonneg; try lia. apply Z.mul_le_mono_nonneg; lia. }
  lia.
Qed.

Lemma ulps_top (m : positive) (e : Z) :
  canonical_mantissa prec emax m e = true -> e <= emax - prec -> ulps m e < top.
Proof.
  intros (He & Hm & _)%canonical_inv Hle. unfold ulps, top. rewrite emin_val.
  change (emax - prec) with 971 in Hle.
  assert (H1 : 0 < 2 ^ (e - -1074)) by (apply pow2_pos; lia).
  assert (H2 : 2 ^ (e - -1074) <= 2 ^ 2045) by (apply Z.pow_le_mono_r; lia).
  replace 2098 with (53 + 2045) by lia. rewrite pow2_add by lia.
  set (a := 2 ^ (e - -1074)) in *. set (b := 2 ^ 2045) in *. set (c := 2 ^ 53) in *.
  assert (0 < c) by (unfold c; apply pow2_pos; lia).
  assert (Zpos m * a < c * a) by nia.
  assert (c * a <= c * b) by nia. lia.
Qed.

Lemma ulps_over (m : positive) (e : Z) :
  canonical_mantissa prec emax m e = true -> emax - prec < e -> top <= ulps m e.
Proof.
  intros (He & _ & Hm)%canonical_inv Hlt. change (emax - prec) with 971 in Hlt.
  specialize (Hm ltac:(lia)). unfold ulps, top. rewrite emin_val.
  assert (H2 : 2 ^ 2046 <= 2 ^ (e - -1074)) by (apply Z.pow_le_mono_r; lia).
  replace 2098 with (52 + 2046) by lia. rewrite pow2_add by lia.
  assert (0 < 2 ^ 2046) by (apply pow2_pos; lia).
  assert (0 < 2 ^ 52) by (apply pow2_pos; lia).
  apply Z.mul_le_mono_nonneg; lia.
Qed.

Lemma top_pos : 0 < top.
Proof. unfold top. apply pow2_pos. lia. Qed.

Lemma valid_finite (s : bool) (m : positive) (e : Z) :
  valid_binary (S754_finite s m e) = true ->
  canonical_mantissa prec emax m e = true /\ e <= emax - prec.
Proof.
  cbn [valid_binary]. unfold bounded. intros [H1 H2]%andb_prop.
  split; [assumption|]. apply Z.leb_le. assumption.
Qed.

Lemma val_bounds (x : spec_float) :
  valid_binary x = true -> - top <= val x <= top.
Proof.
  pose proof top_pos. destruct x as [s|s| |s m e]; cbn [val]; intros Hv.
  - lia.
  - destruct s; lia.
  - lia.
  - apply valid_finite in Hv as [Hc Hle].
    pose proof (ulps_top m e Hc Hle).
    pose proof (ulps_pos m e (proj1 (canonical_inv m e Hc))).
    destruct s; lia.
Qed.

Lemma Pcompare_Eq (m1 m2 : positive) :
  Pos.compare_cont Eq m1 m2 = (Zpos m1 ?= Zpos m2).
Proof. reflexivity. Qed.

Lemma ulps_compare_same (m1 m2 : positive) (e : Z) :
  -1074 <= e -> (ulps m1 e ?= ulps m2 e) = (Zpos m1 ?= Zpos m2).
Proof.
  intros He. unfold ulps. rewrite emin_val.
  assert (0 < 2 ^ (e - -1074)) by (apply pow2_pos; lia).
  destruct (Z.compare_spec (Zpos m1) (Zpos m2)) as [Heq|Hlt|Hgt].
  - rewrite Heq. apply Z.compare_refl.
  - apply Z.compare_lt_iff. nia.
  - apply Z.compare_gt_iff. nia.
Qed.

Ltac order_by_position :=
  f_equal; symmetry;
  first [ apply Z.compare_eq_iff; lia
        | apply Z.compare_lt_iff; lia
        | apply Z.compare_gt_iff; lia ].

(** On valid numbers, the comparison of IEEE 754 is the comparison of the
    positions. *)
Lemma SFcompare_val (x y : spec_float) :
  valid_binary x = true -> valid_binary y = true ->
  notNaN x -> notNaN y ->
  SFcompare x y = Some (val x ?= val y).
Proof.
  intros Hx Hy Nx Ny. pose proof top_pos as Ht.
  pose proof (val_bounds x Hx) as Bx. pose proof (val_bounds y Hy) as By.
  destruct x as [sx|sx| |sx mx ex]; [| | contradiction Nx; reflexivity |];
  destruct y as [sy|sy| |sy my ey]; try (contradiction Ny; reflexivity).
  - reflexivity.
  - cbn [SFcompare val]. destruct sy; order_by_position.
  - apply valid_finite in Hy as [Hc _].
    pose proof (ulps_pos my ey (proj1 (canonical_inv my ey Hc))).
    cbn [SFcompare val]. destruct sy; order_by_position.
  - cbn [SFcompare val]. destruct sx; order_by_position.
  - cbn [SFcompare val]. destruct sx, sy; order_by_position.
  - apply valid_finite in Hy as [Hc Hle]. pose proof (ulps_top my ey Hc Hle).
    pose proof (ulps_pos my ey (proj1 (canonical_inv my ey Hc))).
    cbn [SFcompare val] in *. destruct sx, sy; order_by_position.
  - apply valid_finite in Hx as [Hc _].
    pose proof (ulps_pos mx ex (proj1 (canonical_inv mx ex Hc))).
    cbn [SFcompare val]. destruct sx; order_by_position.
  - apply valid_finite in Hx as [Hc Hle]. pose proof (ulps_top mx ex Hc Hle).
    pose proof (ulps_pos mx ex (proj1 (canonical_inv mx ex Hc))).
    cbn [SFcompare val] in *. destruct sx, sy; order_by_position.
  - apply valid_finite in Hx as [Hcx _]. apply valid_finite in Hy as [Hcy _].
    pose proof (ulps_pos mx ex (proj1 (canonical_inv mx ex Hcx))) as Px.
    pose proof (ulps_pos my ey (proj1 (canonical_inv my ey Hcy))) as Py.
    cbn [SFcompare val].
    destruct sx, sy; try order_by_position.
    + destruct (Z.compare_spec ex ey) as [Heq|Hlt|Hgt].
      * subst ey. rewrite Pcompare_Eq.
        rewrite <- (ulps_compare_same mx my ex (proj1 (canonical_inv mx ex Hcx))).
        f_equal. rewrite Z.compare_opp. symmetry. apply Z.compare_antisym.
      * pose proof (ulps_lt mx my ex ey Hcx Hcy Hlt). order_by_position.
      * pose proof (ulps_lt my mx ey ex Hcy Hcx ltac:(lia)). order_by_position.
    + destruct (Z.compare_spec ex ey) as [Heq|Hlt|Hgt].
      * subst ey. rewrite Pcompare_Eq. f_equal. symmetry.
        apply ulps_compare_same. apply (canonical_inv mx ex Hcx).
      * pose proof (ulps_lt mx my ex ey Hcx Hcy Hlt). order_by_position.
      * pose proof (ulps_lt my mx ey ex Hcy Hcx ltac:(lia)). order_by_position.
Qed.

(** *** Rounding keeps the order *)

Lemma grid_between (a u v N : Z) :
  0 < a -> 2 * Z.abs (a * u - N) <= a ->
  (a * v <= N -> a * v <= a * u) /\ (N <= a * v -> a * u <= a * v).
Proof.
  intros Ha Hhalf. split; intros H.
  - destruct (Z_le_gt_dec v u) as [Hle|Hgt]; [nia|].
    assert (a * (u + 1) <= a * v) by (apply Z.mul_le_mono_nonneg_l; lia). lia.
  - destruct (Z_le_gt_dec u v) as [Hle|Hgt]; [nia|].
    assert (a * (v + 1) <= a * u) by (apply Z.mul_le_mono_nonneg_l; lia). lia.
Qed.

Lemma rounded_grid (p m' mv : positive) (e e' ev : Z) :
  emin <= e ->
  canonical_mantissa prec emax mv ev = true ->
  (exists u, ulps m' e'
             = 2 ^ Z.max (Zpos (digits2_pos p) + e - emin - prec) 0 * u) ->
  2 * Z.abs (ulps m' e' - ulps p e)
    <= 2 ^ Z.max (Zpos (digits2_pos p) + e - emin - prec) 0 ->
  (ulps mv ev <= ulps p e -> ulps mv ev <= ulps m' e')
  /\ (ulps p e <= ulps mv ev -> ulps m' e' <= ulps mv ev).
Proof.
  rewrite emin_val. intros He (Hev & Hmv & _)%canonical_inv [u Hu] Hhalf.
  pose proof (digits2_pos_bounds p) as Hp.
  set (d := Zpos (digits2_pos p)) in *.
  assert (Hd : 0 < d) by (unfold d; lia).
  change prec with 53 in *.
  destruct (Z_le_gt_dec (d + e - -1074 - 53) 0) as [Hsmall|Hbig].
  - rewrite Z.max_r in * by assumption. change (2 ^ 0) with 1 in *. lia.
  - rewrite Z.max_l in * by lia.
    set (K := d + e - -1074 - 53) in *.
    assert (Ha : 0 < 2 ^ K) by (apply pow2_pos; lia).
    assert (HN : 2 ^ K * 2 ^ 52 <= ulps p e).
    { unfold ulps. rewrite emin_val, <- pow2_add by lia.
      replace (K + 52) with ((d - 1) + (e - -1074)) by (unfold K; lia).
      rewrite pow2_add by lia.
      apply Z.mul_le_mono_nonneg_r; [apply Z.lt_le_incl, pow2_pos|]; lia. }
    rewrite Hu in *.
    destruct (Z_le_gt_dec K (ev - -1074)) as [Hgrid|Hbelow].
    + assert (Hv : ulps mv ev = 2 ^ K * (Zpos mv * 2 ^ (ev - -1074 - K))).
      { unfold ulps. rewrite emin_val.
        replace (ev - -1074) with (K + (ev - -1074 - K)) at 1 by lia.
        rewrite pow2_add by lia. lia. }
      rewrite Hv. apply grid_between; assumption.
    + assert (Hv : ulps mv ev < 2 ^ K * 2 ^ 52).
      { unfold ulps. rewrite emin_val.
        replace K with ((ev - -1074) + (K - (ev - -1074) - 1) + 1) by lia.
        rewrite !pow2_add by lia. change (2 ^ 1) with 2.
        assert (0 < 2 ^ (ev - -1074)) by (apply pow2_pos; lia).
        assert (0 < 2 ^ (K - (ev - -1074) - 1)) by (apply pow2_pos; lia).
        change (2 ^ 53) with (2 * 2 ^ 52) in Hmv.
        set (a := 2 ^ (ev - -1074)) in *. set (b := 2 ^ (K - (ev - -1074) - 1)) in *.
        set (c := 2 ^ 52) in *.
        assert (Zpos mv * a < 2 * c * a) by nia.
        assert (2 * c * a * 1 <= 2 * c * a * b) by (apply Z.mul_le_mono_nonneg_l; nia).
        lia. }
      destruct (grid_between (2 ^ K) u (2 ^ 52) (ulps p e) Ha Hhalf) as [Hge _].
      specialize (Hge HN). split; intros H; lia.
Qed.

(** The magnitude of a rounded number lies on the same side of every valid
    number as the exact magnitude. *)
Lemma rounded_order (s : bool) (p : positive) (e : Z) (x : spec_float) :
  emin <= e -> rounded s p e x ->
  valid_binary x = true /\ notNaN x /\
  exists U, val x = (if s then - U else U) /\ 0 < U
    /\ forall (mv : positive) (ev : Z),
         canonical_mantissa prec emax mv ev = true -> ev <= emax - prec ->
         (ulps mv ev <= ulps p e -> ulps mv ev <= U)
         /\ (ulps p e <= ulps mv ev -> U <= ulps mv ev).
Proof.
  intros He (m' & e' & Hx & Hc & Hgrid & Hhalf). cbv zeta in *.
  pose proof (ulps_pos m' e' (proj1 (canonical_inv m' e' Hc))) as Hpos.
  destruct (Z.leb_spec e' (emax - prec)) as [Hle|Hover]; subst x.
  - split; [cbn [valid_binary]; unfold bounded; rewrite Hc; apply Z.leb_le, Hle|].
    split; [discriminate|].
    exists (ulps m' e'). split; [reflexivity|]. split; [assumption|].
    intros mv ev Hcv _. apply (rounded_grid p m' mv e e' ev He Hcv Hgrid Hhalf).
  - split; [reflexivity|]. split; [discriminate|].
    exists top. split; [reflexivity|]. split; [apply top_pos|].
    intros mv ev Hcv Hlev.
    pose proof (ulps_top mv ev Hcv Hlev) as Hv.
    pose proof (ulps_over m' e' Hc Hover) as Ho.
    destruct (rounded_grid p m' mv e e' ev He Hcv Hgrid Hhalf) as [_ Hup].
    split; intros H; lia.
Qed.

(** *** Sums and differences *)

Lemma shl_align_val (m : positive) (e ez : Z) :
  ez <= e -> Zpos (fst (shl_align m e ez)) = Zpos m * 2 ^ (e - ez).
Proof.
  intros H. unfold shl_align. destruct (ez - e) as [|d|d] eqn:Hd; try lia.
  - replace (e - ez) with 0 by lia. cbn [fst]. lia.
  - cbn [fst]. rewrite iter_xO. replace (e - ez) with (Zpos d) by lia. reflexivity.
Qed.

Lemma aligned_val (s : bool) (m : positive) (e ez : Z) :
  emin <= ez -> ez <= e ->
  cond_Zopp s (Zpos (fst (shl_align m e ez))) * 2 ^ (ez - emin)
  = val (S754_finite s m e).
Proof.
  rewrite emin_val. intros H1 H2. rewrite shl_align_val by assumption.
  cbn [val]. unfold ulps. rewrite emin_val.
  replace (e - -1074) with ((e - ez) + (ez - -1074)) by lia.
  rewrite pow2_add by lia. destruct s; cbn [cond_Zopp]; lia.
Qed.

Lemma val_finite_bounds (x : spec_float) :
  valid_binary x = true -> finiteSF x -> - top < val x < top.
Proof.
  pose proof top_pos. destruct x as [s|s| |s m e]; cbn [val finiteSF];
    intros Hv Hf; try contradiction; [lia|].
  apply valid_finite in Hv as [Hc Hle].
  pose proof (ulps_top m e Hc Hle).
  pose proof (ulps_pos m e (proj1 (canonical_inv m e Hc))).
  destruct s; lia.
Qed.

(** The rounding of an exact integer multiple of a power of two stays on the
    same side of every finite number as the exact value. *)
Lemma normalize_order (M ez : Z) (v : spec_float) :
  emin <= ez -> valid_binary v = true -> finiteSF v ->
  notNaN (binary_normalize prec emax M ez false)
  /\ (val v <= M * 2 ^ (ez - emin)
      -> val v <= val (binary_normalize prec emax M ez false))
  /\ (M * 2 ^ (ez - emin) <= val v
      -> val (binary_normalize prec emax M ez false) <= val v).
Proof.
  intros He Hv Hf.
  assert (Hpow : 0 < 2 ^ (ez - emin)) by (apply pow2_pos; lia).
  destruct M as [|p|p]; cbn [binary_normalize].
  - split; [discriminate|]. cbn [val]. lia.
  - destruct (rounded_order false p ez _ He (binary_round_spec false p ez He))
      as (_ & Hn & U & HU & Hpos & Hord).
    split; [assumption|]. rewrite HU. fold (ulps p ez).
    assert (0 < ulps p ez) by (unfold ulps; lia).
    destruct v as [s|s| |s mv ev]; try contradiction; cbn [val].
    + lia.
    + apply valid_finite in Hv as [Hc Hle].
      pose proof (ulps_pos mv ev (proj1 (canonical_inv mv ev Hc))).
      destruct (Hord mv ev Hc Hle) as [H1 H2]. destruct s; lia.
  - destruct (rounded_order true p ez _ He (binary_round_spec true p ez He))
      as (_ & Hn & U & HU & Hpos & Hord).
    split; [assumption|]. rewrite HU.
    replace (Zneg p * 2 ^ (ez - emin)) with (- ulps p ez) by (unfold ulps; lia).
    assert (0 < ulps p ez) by (unfold ulps; lia).
    destruct v as [s|s| |s mv ev]; try contradiction; cbn [val].
    + lia.
    + apply valid_finite in Hv as [Hc Hle].
      pose proof (ulps_pos mv ev (proj1 (canonical_inv mv ev Hc))).
      destruct (Hord mv ev Hc Hle) as [H1 H2]. destruct s; lia.
Qed.

Lemma SFadd_between (x y v : spec_float) :
  valid_binary x = true -> valid_binary y = true -> valid_binary v = true ->
  finiteSF x -> finiteSF y -> finiteSF v ->
  notNaN (SFadd prec emax x y)
  /\ (val v <= val x + val y -> val v <= val (SFadd prec emax x y))
  /\ (val x + val y <= val v -> val (SFadd prec emax x y) <= val v).
Proof.
  intros Hx Hy Hv Fx Fy Fv.
  destruct x as [sx|sx| |sx mx ex]; try contradiction;
  destruct y as [sy|sy| |sy my ey]; try contradiction.
  - cbn [SFadd]. split; [destruct sx, sy; discriminate|].
    destruct sx, sy; cbn [val]; lia.
  - cbn [SFadd]. split; [discriminate|]. cbn [val]. lia.
  - cbn [SFadd]. split; [discriminate|]. cbn [val]. lia.
  - cbn [SFadd]. cbv zeta.
    apply valid_finite in Hx as [Hcx _]. apply valid_finite in Hy as [Hcy _].
    pose proof (proj1 (canonical_inv mx ex Hcx)) as Hex.
    pose proof (proj1 (canonical_inv my ey Hcy)) as Hey.
    set (ez := Z.min ex ey).
    assert (Hez : emin <= ez) by (rewrite emin_val; unfold ez; lia).
    rewrite <- (aligned_val sx mx ex ez Hez ltac:(unfold ez; lia)).
    rewrite <- (aligned_val sy my ey ez Hez ltac:(unfold ez; lia)).
    rewrite <- Z.mul_add_distr_r.
    apply normalize_order; assumption.
Qed.

Lemma SFsub_between (x y v : spec_float) :
  valid_binary x = true -> valid_binary y = true -> valid_binary v = true ->
  finiteSF x -> finiteSF y -> finiteSF v ->
  notNaN (SFsub prec emax x y)
  /\ (val v <= val x - val y -> val v <= val (SFsub prec emax x y))
  /\ (val x - val y <= val v -> val (SFsub prec emax x y) <= val v).
Proof.
  intros Hx Hy Hv Fx Fy Fv.
  destruct x as [sx|sx| |sx mx ex]; try contradiction;
  destruct y as [sy|sy| |sy my ey]; try contradiction.
  - cbn [SFsub]. split; [destruct sx, sy; discriminate|].
    destruct sx, sy; cbn [val]; lia.
  - cbn [SFsub]. split; [discriminate|]. cbn [val]. destruct sy; cbn [negb]; lia.
  - cbn [SFsub]. split; [discriminate|]. cbn [val]. lia.
  - cbn [SFsub]. cbv zeta.
    apply valid_finite in Hx as [Hcx _]. apply valid_finite in Hy as [Hcy _].
    pose proof (proj1 (canonical_inv mx ex Hcx)) as Hex.
    pose proof (proj1 (canonical_inv my ey Hcy)) as Hey.
    set (ez := Z.min ex ey).
    assert (Hez : emin <= ez) by (rewrite emin_val; unfold ez; lia).
    rewrite <- (aligned_val sx mx ex ez Hez ltac:(unfold ez; lia)).
    rewrite <- (aligned_val sy my ey ez Hez ltac:(unfold ez; lia)).
    rewrite <- Z.mul_sub_distr_r.
    apply normalize_order; assumption.
Qed.

Ltac by_classes x y Hx Hy Nx Ny :=
  pose proof top_pos;
  pose proof (val_bounds x Hx); pose proof (val_bounds y Hy);
  pose proof (val_finite_bounds x Hx) as Bx;
  pose proof (val_finite_bounds y Hy) as By;
  destruct x as [[|]|[|]| |[|] ? ?], y as [[|]|[|]| |[|] ? ?];
  try (contradiction Nx; reflexivity); try (contradiction Ny; reflexivity);
  try specialize (Bx I); try specialize (By I).

Ltac by_infinities op Nr :=
  cbn [op negb] in *; try (contradiction Nr; reflexivity);
  cbn [val] in *; lia.

(** Adding a number that is not negative does not move a number down. *)
Lemma SFadd_up (x y : spec_float) :
  valid_binary x = true -> valid_binary y = true ->
  notNaN x -> notNaN y -> notNaN (SFadd prec emax x y) ->
  0 <= val y -> val x <= val (SFadd prec emax x y).
Proof.
  intros Hx Hy Nx Ny Nr Hpos.
  by_classes x y Hx Hy Nx Ny;
    try (destruct (SFadd_between _ _ _ Hx Hy Hx I I I) as (_ & Hup & _);
         apply Hup; lia);
    by_infinities SFadd Nr.
Qed.

(** Subtracting a number that is not negative does not move a number up. *)
Lemma SFsub_down (x y : spec_float) :
  valid_binary x = true -> valid_binary y = true ->
  notNaN x -> notNaN y -> notNaN (SFsub prec emax x y) ->
  0 <= val y -> val (SFsub prec emax x y) <= val x.
Proof.
  intros Hx Hy Nx Ny Nr Hpos.
  by_classes x y Hx Hy Nx Ny;
    try (destruct (SFsub_between _ _ _ Hx Hy Hx I I I) as (_ & _ & Hdown);
         apply Hdown; lia);
    by_infinities SFsub Nr.
Qed.

(** The difference of a number and a number below it is not negative. *)
Lemma SFsub_nonneg (x y : spec_float) :
  valid_binary x = true -> valid_binary y = true ->
  notNaN x -> notNaN y -> notNaN (SFsub prec emax x y) ->
  val y <= val x -> 0 <= val (SFsub prec emax x y).
Proof.
  intros Hx Hy Nx Ny Nr Hle.
  by_classes x y Hx Hy Nx Ny;
    try (destruct (SFsub_between _ _ (S754_zero false) Hx Hy eq_refl I I I)
           as (_ & Hup & _);
         apply Hup; change (val (S754_zero false)) with 0; lia);
    by_infinities SFsub Nr.
Qed.

(** The difference is positive exactly when the first number is above the
    second. *)
Lemma SFsub_pos (x y : spec_float) :
  valid_binary x = true -> valid_binary y = true ->
  notNaN x -> notNaN y ->
  (notNaN (SFsub prec emax x y) /\ 0 < val (SFsub prec emax x y))
  <-> val y < val x.
Proof.
  intros Hx Hy Nx Ny.
  by_classes x y Hx Hy Nx Ny;
    try (destruct (SFsub_between _ _ (S754_finite false 1 (-1074)) Hx Hy eq_refl I I I)
           as (Hn & Hup & _);
         destruct (SFsub_between _ _ (S754_zero false) Hx Hy eq_refl I I I)
           as (_ & _ & Hdown);
         change (val (S754_finite false 1 (-1074))) with 1 in Hup;
         change (val (S754_zero false)) with 0 in Hdown;
         split; [intros [_ Hp]; lia | intros Hlt; split; [exact Hn | lia]]);
    cbn [SFsub negb];
    (split; [intros [Hn Hp]; try (contradiction Hn; reflexivity); cbn [val] in *; lia
            | intros Hlt; cbn [val] in *; first [lia | split; [discriminate | lia]]]).
Qed.

End FloatOrder.


(* ================================================================= *)
(** ** The order of the numbers of the program *)

Module NumberOrder.

Import Position FloatOrder FloatFacts.

Local Open Scope Z_scope.

Lemma lt_position (a b : float) :
  Js.isNaN a = false -> Js.isNaN b = false ->
  Js.lt a b = (position a <? position b).
Proof.
  rewrite !isNaN_false. intros Ha Hb. unfold Js.lt, position.
  rewrite FloatAxioms.ltb_spec. unfold SFltb.
  rewrite (SFcompare_val _ _ (Prim2SF_valid a) (Prim2SF_valid b) Ha Hb).
  rewrite Z.ltb_compare. reflexivity.
Qed.

Lemma gt_position (a b : float) :
  Js.isNaN a = false -> Js.isNaN b = false ->
  Js.gt a b = (position b <? position a).
Proof. intros Ha Hb. apply lt_position; assumption. Qed.

Lemma ge_position (a b : float) :
  Js.isNaN a = false -> Js.isNaN b = false ->
  Js.ge a b = (position b <=? position a).
Proof.
  rewrite !isNaN_false. intros Ha Hb. unfold Js.ge, position.
  rewrite FloatAxioms.leb_spec. unfold SFleb.
  rewrite (SFcompare_val _ _ (Prim2SF_valid b) (Prim2SF_valid a) Hb Ha).
  rewrite Z.leb_compare. reflexivity.
Qed.

Lemma strictEq_position (a b : float) :
  Js.strictEq a b = true -> position a = position b.
Proof.
  unfold Js.strictEq, position. rewrite FloatAxioms.eqb_spec. unfold SFeqb.
  intros H.
  assert (Ha : notNaN (Prim2SF a)) by (intros E; rewrite E in H; discriminate).
  assert (Hb : notNaN (Prim2SF b)).
  { intros E; rewrite E in H. destruct (Prim2SF a); discriminate. }
  rewrite (SFcompare_val _ _ (Prim2SF_valid a) (Prim2SF_valid b) Ha Hb) in H.
  destruct (Z.compare_spec (val (Prim2SF a)) (val (Prim2SF b))); congruence.
Qed.

Lemma strictEq_not_NaN (a b : float) :
  Js.strictEq a b = true -> Js.isNaN a = false /\ Js.isNaN b = false.
Proof.
  unfold Js.strictEq. rewrite FloatAxioms.eqb_spec, !isNaN_false. unfold SFeqb.
  intros H. split; intros E; rewrite E in H; [discriminate|].
  destruct (Prim2SF a); discriminate.
Qed.

Lemma lt_not_NaN (a b : float) :
  Js.lt a b = true -> Js.isNaN a = false /\ Js.isNaN b = false.
Proof.
  unfold Js.lt. rewrite FloatAxioms.ltb_spec, !isNaN_false. unfold SFltb.
  intros H. split; intros E; rewrite E in H; [discriminate|].
  destruct (Prim2SF a); discriminate.
Qed.

Lemma add_not_NaN (a b : float) :
  Js.isNaN (a + b)%float = false -> Js.isNaN a = false /\ Js.isNaN b = false.
Proof.
  rewrite !isNaN_false, FloatAxioms.add_spec. unfold SF64add. intros H.
  split; intros E; rewrite E in H; apply H; [reflexivity|].
  destruct (Prim2SF a); reflexivity.
Qed.

Lemma sub_not_NaN (a b : float) :
  Js.isNaN (a - b)%float = false -> Js.isNaN a = false /\ Js.isNaN b = false.
Proof.
  rewrite !isNaN_false, FloatAxioms.sub_spec. unfold SF64sub. intros H.
  split; intros E; rewrite E in H; apply H; [reflexivity|].
  destruct (Prim2SF a); reflexivity.
Qed.

Lemma mul_not_NaN (a b : float) :
  Js.isNaN (a * b)%float = false -> Js.isNaN a = false /\ Js.isNaN b = false.
Proof.
  rewrite !isNaN_false, FloatAxioms.mul_spec. unfold SF64mul. intros H.
  split; intros E; rewrite E in H; apply H; [reflexivity|].
  destruct (Prim2SF a); reflexivity.
Qed.

(** [a - b > 0] is the test [a > b], also where the difference of two
    infinities is NaN. *)
Lemma difference_positive (a b : float) :
  Js.isNaN a = false -> Js.isNaN b = false ->
  Js.gt (a - b)%float 0%float = (position b <? position a).
Proof.
  intros Ha Hb. pose proof Ha as Na. pose proof Hb as Nb.
  rewrite isNaN_false in Na, Nb.
  pose proof (SFsub_pos _ _ (Prim2SF_valid a) (Prim2SF_valid b) Na Nb) as Hpos.
  rewrite <- FloatAxioms.sub_spec in Hpos. fold (position a) (position b) in Hpos.
  destruct (Js.isNaN (a - b)%float) eqn:Hn.
  - assert (Hgt : Js.gt (a - b)%float 0%float = false).
    { destruct (Js.gt (a - b)%float 0%float) eqn:Hgt; [|reflexivity].
      apply lt_not_NaN in Hgt. destruct Hgt; congruence. }
    rewrite Hgt. symmetry. apply Z.ltb_ge.
    destruct (Z_le_gt_dec (position a) (position b)) as [Hle|Hlt]; [assumption|].
    apply Z.gt_lt, Hpos in Hlt. destruct Hlt as [Hnn _].
    apply isNaN_spec in Hn. contradiction.
  - rewrite gt_position by (assumption || reflexivity).
    change (position 0%float) with 0.
    destruct (Z.ltb_spec 0 (position (a - b)%float)) as [Hlt|Hge].
    + symmetry. apply Z.ltb_lt, Hpos. split; [apply isNaN_false, Hn|exact Hlt].
    + symmetry. apply Z.ltb_ge.
      destruct (Z_le_gt_dec (position a) (position b)) as [Hle|Hlt]; [assumption|].
      apply Z.gt_lt, Hpos in Hlt. unfold position in Hge. lia.
Qed.

Lemma add_up (a b : float) :
  Js.isNaN (a + b)%float = false -> 0 <= position b -> position a <= position (a + b)%float.
Proof.
  intros Hn Hb. destruct (add_not_NaN a b Hn) as [Na Nb].
  rewrite isNaN_false in Hn, Na, Nb. unfold position.
  rewrite FloatAxioms.add_spec in *.
  apply SFadd_up; try assumption; apply Prim2SF_valid.
Qed.

Lemma sub_down (a b : float) :
  Js.isNaN (a - b)%float = false -> 0 <= position b -> position (a - b)%float <= position a.
Proof.
  intros Hn Hb. destruct (sub_not_NaN a b Hn) as [Na Nb].
  rewrite isNaN_false in Hn, Na, Nb. unfold position.
  rewrite FloatAxioms.sub_spec in *.
  apply SFsub_down; try assumption; apply Prim2SF_valid.
Qed.

Lemma sub_nonneg (a b : float) :
  Js.isNaN (a - b)%float = false -> position b <= position a -> 0 <= position (a - b)%float.
Proof.
  intros Hn Hb. destruct (sub_not_NaN a b Hn) as [Na Nb].
  rewrite isNaN_false in Hn, Na, Nb. unfold position.
  rewrite FloatAxioms.sub_spec in *.
  apply SFsub_nonneg; try assumption; apply Prim2SF_valid.
Qed.

Lemma positiveSF_position (x : spec_float) : positiveSF x -> 0 <= val x.
Proof.
  pose proof top_pos.
  destruct x as [[|]|[|]| |[|] m e]; cbn [positiveSF val]; try contradiction;
    try lia.
  intros _. unfold ulps. apply Z.mul_nonneg_nonneg; [lia|].
  apply Z.pow_nonneg. lia.
Qed.

(** The product of a positive constant and of a number that is not
    negative is not negative. *)
Lemma mul_nonneg (c b : float) :
  (exists m e, Prim2SF c = S754_finite false m e) ->
  Js.isNaN (c * b)%float = false -> 0 <= position b -> 0 <= position (c * b)%float.
Proof.
  intros (m & e & Hc) Hn Hb. destruct (mul_not_NaN c b Hn) as [_ Nb].
  rewrite isNaN_false in Hn, Nb. unfold position in *.
  rewrite FloatAxioms.mul_spec in *. unfold SF64mul in *. rewrite Hc in *.
  pose proof top_pos.
  pose proof (Prim2SF_valid b) as Hv.
  destruct (Prim2SF b) as [[|]|[|]| |[|] mb eb]; cbn [SFmul xorb val] in *;
    try lia; try (contradiction Nb; reflexivity).
  - apply valid_finite in Hv as [Hcm _].
    pose proof (ulps_pos mb eb (proj1 (canonical_inv mb eb Hcm))). lia.
  - apply positiveSF_position, binary_round_aux_sign. lia.
Qed.

End NumberOrder.


(* ================================================================= *)
(** ** Loops, exceptions and sorting *)

Section Generic.

Lemma bind_assoc {A B C} (m : result A) (f : A -> result B) (g : B -> result C) :
  bind (bind m f) g = bind m (fun a => bind (f a) g).
Proof. destruct m; reflexivity. Qed.

Lemma bind_ext {A B} (m : result A) (f g : A -> result B) :
  (forall a, f a = g a) -> bind m f = bind m g.
Proof. intros H. destruct m; simpl; auto. Qed.

Lemma mapM_Ok {A B} (f : A -> B) (xs : list A) :
  mapM (fun a => Ok (f a)) xs = Ok (map f xs).
Proof.
  induction xs as [|a xs IH]; simpl; [reflexivity|].
  rewrite IH. reflexivity.
Qed.

Lemma mapM_ext {A B} (f g : A -> result B) (xs : list A) :
  (forall a, f a = g a) -> mapM f xs = mapM g xs.
Proof.
  intros H. induction xs as [|a xs IH]; simpl; [reflexivity|].
  rewrite H, IH. reflexivity.
Qed.

Lemma forEachM_ext {A S} (f g : S -> A -> result S) (xs : list A) (s : S) :
  (forall s a, f s a = g s a) -> forEachM f xs s = forEachM g xs s.
Proof.
  intros H. revert s. induction xs as [|a xs IH]; intros s; simpl; [reflexivity|].
  rewrite H. destruct (g s a); simpl; auto.
Qed.

(** A loop whose body never throws is a fold. *)
Lemma forEachM_Ok {A S} (f : S -> A -> S) (xs : list A) (s : S) :
  forEachM (fun s a => Ok (f s a)) xs s = Ok (fold_left f xs s).
Proof.
  revert s. induction xs as [|a xs IH]; intros s; simpl; auto.
Qed.

(** An invariant of the accumulator of a loop holds of its result. *)
Lemma forEachM_invariant {A S} (P : S -> Prop) (body : S -> A -> result S)
    (xs : list A) :
  (forall s a s', P s -> body s a = Ok s' -> P s') ->
  forall s s', P s -> forEachM body xs s = Ok s' -> P s'.
Proof.
  intros Hbody. induction xs as [|a xs IH]; intros s s' Hs H; simpl in H.
  - inversion H; subst; exact Hs.
  - destruct (body s a) as [s1|e] eqn:Hb; simpl in H; [|discriminate].
    eapply IH; [|exact H]. eapply Hbody; eauto.
Qed.

Lemma fold_left_map {A B C} (f : C -> B -> C) (g : A -> B) (xs : list A) (c : C) :
  fold_left (fun acc a => f acc (g a)) xs c = fold_left f (map g xs) c.
Proof.
  revert c. induction xs as [|a xs IH]; intros c; simpl; auto.
Qed.

(** [sort] permutes its argument. *)
Lemma insertBack_perm {A} (cmp : A -> A -> Js.number) (a : A) (l : list A) :
  Permutation (Js.insertBack cmp a l) (a :: l).
Proof.
  induction l as [|b l IH]; simpl; [reflexivity|].
  destruct (Js.gt (cmp b a) 0%float).
  - rewrite IH. apply perm_swap.
  - reflexivity.
Qed.

Lemma sort_perm {A} (cmp : A -> A -> Js.number) (l : list A) :
  Permutation (Js.sort cmp l) l.
Proof.
  unfold Js.sort. rewrite <- Permutation_rev.
  assert (H : forall acc, Permutation
            (fold_left (fun acc x => Js.insertBack cmp x acc) l acc) (l ++ acc)).
  { induction l as [|a l IH]; intros acc; simpl; [reflexivity|].
    rewrite IH, insertBack_perm. symmetry. apply Permutation_middle. }
  rewrite H, app_nil_r. reflexivity.
Qed.

Lemma sort_In {A} (cmp : A -> A -> Js.number) (l : list A) (a : A) :
  In a (Js.sort cmp l) <-> In a l.
Proof.
  split; apply Permutation_in; [|symmetry]; apply sort_perm.
Qed.

Lemma sort_length {A} (cmp : A -> A -> Js.number) (l : list A) :
  List.length (Js.sort cmp l) = List.length l.
Proof. apply Permutation_length, sort_perm. Qed.

Lemma filter_nothing {A} (f : A -> bool) (l : list A) :
  (forall a, In a l -> f a = false) -> filter f l = [].
Proof.
  induction l as [|a l IH]; intros H; [reflexivity|]. cbn [filter].
  rewrite (H a (or_introl eq_refl)). apply IH. intros b Hb. apply H. right. exact Hb.
Qed.

End Generic.


(* ================================================================= *)
(** ** The order [sort] leaves

    [sort] is read with a rank of the elements: where the comparison
    function is positive exactly on the pairs whose first element has the
    higher rank, the sorted array is in ascending rank. *)

Section SortOrder.
Variable A : Type.
Variable comparefn : A -> A -> Js.number.
Variable rank : A -> Z.
Variable comparable : A -> Prop.
Hypothesis comparefn_rank : forall a b, comparable a -> comparable b ->
  Js.gt (comparefn a b) 0%float = (rank b <? rank a)%Z.

(** The sorted prefix that [sort] keeps reversed: every element is at or
    above those after it. *)
#[local] Abbreviation descending :=
  (StronglySorted (fun a b : A => (rank b <= rank a)%Z)).

Lemma insertBack_descending (element : A) (revPrefix : list A) :
  comparable element -> Forall comparable revPrefix ->
  descending revPrefix ->
  descending (Js.insertBack comparefn element revPrefix).
Proof.
  intros He Hall Hsorted.
  induction Hsorted as [|tmp rest Hrest IH Hbelow]; cbn [Js.insertBack].
  - repeat constructor.
  - inversion Hall as [|? ? Htmp Hall']; subst.
    rewrite (comparefn_rank tmp element Htmp He).
    destruct (Z.ltb_spec (rank element) (rank tmp)) as [Hlt|Hge].
    + constructor; [apply IH; assumption|].
      apply Forall_forall. intros z Hz.
      apply (Permutation_in _ (insertBack_perm _ element rest)) in Hz.
      destruct Hz as [<-|Hz]; [lia|].
      rewrite Forall_forall in Hbelow. apply Hbelow, Hz.
    + constructor; [constructor; assumption|].
      constructor; [assumption|].
      apply Forall_forall. intros z Hz.
      rewrite Forall_forall in Hbelow. specialize (Hbelow z Hz).
      cbv beta in Hbelow. lia.
Qed.

Lemma fold_insertBack_descending (xs : list A) : forall revPrefix,
  Forall comparable xs -> Forall comparable revPrefix ->
  descending revPrefix ->
  descending (fold_left (fun acc x => Js.insertBack comparefn x acc) xs revPrefix).
Proof.
  induction xs as [|x xs IH]; intros revPrefix Hxs Hprefix Hsorted;
    cbn [fold_left]; [assumption|].
  inversion Hxs as [|? ? Hx Hxs']; subst.
  apply IH; [assumption| |apply insertBack_descending; assumption].
  apply Forall_forall. intros z Hz.
  apply (Permutation_in _ (insertBack_perm _ x revPrefix)) in Hz.
  destruct Hz as [<-|Hz]; [assumption|].
  rewrite Forall_forall in Hprefix. apply Hprefix, Hz.
Qed.

Lemma descending_nth (l : list A) (d : A) :
  descending l ->
  forall i j, (i <= j)%nat -> (j < List.length l)%nat ->
  (rank (nth j l d) <= rank (nth i l d))%Z.
Proof.
  induction 1 as [|a l Hl IH Hall]; intros i j Hij Hj; cbn [List.length] in Hj;
    [lia|].
  destruct i as [|i], j as [|j]; cbn [nth]; try lia.
  - rewrite Forall_forall in Hall. apply Hall, nth_In. lia.
  - apply IH; lia.
Qed.

Lemma sort_ascending (xs : list A) (d : A) (i j : nat) :
  Forall comparable xs ->
  (i <= j)%nat -> (j < List.length xs)%nat ->
  (rank (nth i (Js.sort comparefn xs) d)
   <= rank (nth j (Js.sort comparefn xs) d))%Z.
Proof.
  intros Hxs Hij Hj.
  pose proof (sort_length comparefn xs) as Hlen.
  unfold Js.sort in *. rewrite length_rev in Hlen.
  set (acc := fold_left _ xs []) in *.
  assert (Hacc : descending acc).
  { apply fold_insertBack_descending; [assumption|constructor|constructor]. }
  rewrite !rev_nth by lia.
  apply descending_nth; [assumption|lia|lia].
Qed.

End SortOrder.


(* ================================================================= *)
(** ** The sum of a column *)

Section SumColumn.
Context {E : Engine}.
Import ComprehensiveDataAnalyzer FloatFacts.
Local Open Scope string_scope.
Local Open Scope float_scope.

Lemma sumOf_fold (rows : table) (columnName : string) :
  sumOf rows columnName
  = fold_left (fun sum r => sum + contribution columnName r) rows 0.
Proof. reflexivity. Qed.

Lemma sumOf_contributions (rows : table) (columnName : string) :
  sumOf rows columnName = Js.sum (map (contribution columnName) rows).
Proof.
  rewrite sumOf_fold. unfold Js.sum.
  apply (fold_left_map PrimFloat.add (contribution columnName)).
Qed.

Lemma contribution_finite (rows : table) (columnName : string) (r : row) :
  parsesFinite rows columnName -> In r rows ->
  Js.isFiniteNum (contribution columnName r) = true.
Proof.
  intros Hfin Hr. unfold contribution. destruct (Hfin r Hr) as [Hn|Hf].
  - rewrite Hn. reflexivity.
  - destruct (Js.isNaN _); [reflexivity|exact Hf].
Qed.

Lemma sumOf_not_nan (rows : table) (columnName : string) :
  parsesFinite rows columnName -> Js.isNaN (sumOf rows columnName) = false.
Proof.
  rewrite sumOf_fold.
  assert (H0 : Js.isNaN 0 = false) by reflexivity. revert H0. generalize 0.
  induction rows as [|r rows IH]; intros acc Hacc Hfin; simpl; [exact Hacc|].
  apply IH.
  - apply add_not_nan; [exact Hacc|].
    eapply contribution_finite; [exact Hfin|]. left. reflexivity.
  - intros r' Hr'. apply Hfin. right. exact Hr'.
Qed.

Lemma sumColumn_Ok (this : analyzer) (rows : table) (columnName : string) :
  data this = Some rows -> sumColumn this columnName = Ok (sumOf rows columnName).
Proof.
  intros H. unfold sumColumn, getData. rewrite H. reflexivity.
Qed.

(** The rate is 0 or a quotient by a total above 0. *)
Lemma rate_not_nan (impressions clicks : Js.number) :
  Js.isNaN clicks = false ->
  Js.isFiniteNum impressions = true \/ Js.isFiniteNum clicks = true ->
  Js.isNaN (if Js.gt impressions 0 then clicks / impressions * 100 else 0) = false.
Proof.
  intros Hclicks Hfin. destruct (Js.gt impressions 0) eqn:Hgt; [|reflexivity].
  apply mul_hundred_not_nan, div_positive_not_nan; tauto.
Qed.

(** C10, amended.  [sumColumn] adds up [parseFloat] of the cells of the
    column, a cell whose [parseFloat] is NaN counting for 0, whatever the
    table; its result is not NaN when no cell of that column parses to an
    infinity.  The key metrics of the executive summary that are sums print
    these totals: the sums of the first four numeric columns, or the totals
    of impressions, clicks and spend next to the rate computed from them;
    the rate is not NaN when the clicks are not and one of the two totals
    is finite. *)
Theorem sumColumn_total_of_parsed_cells (this : analyzer) (rows : table) :
  data this = Some rows ->
  let total col := Js.sum (map (contribution col) rows) in
  let ctr := if Js.gt (total "impressions") 0
             then total "clicks" / total "impressions" * 100 else 0 in
  (forall col,
     sumColumn this col = Ok (total col)
     /\ (parsesFinite rows col -> Js.isNaN (total col) = false))
  /\ (forall quality, dataQuality (results this) = Some quality ->
      exists summary,
        summaryOf this = Ok summary
        /\ Summary.keyMetrics summary =
           if hasColumns this ["impressions"; "clicks"; "spent"]
           then
             [ {| label := "Total Impressions";
                  value := toLocaleString (total "impressions"); type := "count" |};
               {| label := "Total Clicks";
                  value := toLocaleString (total "clicks"); type := "count" |};
               {| label := "Total Spend";
                  value := "$" ++ toLocaleString (total "spent"); type := "currency" |};
               {| label := "Overall CTR";
                  value := toFixed ctr 3 ++ "%"; type := "percentage" |} ]%string
           else
             map (fun col => {| label := formatColumnName col;
                                value := toLocaleString (total col); type := "count" |})
                 (firstn 4 (numericColumns this)))
  /\ (Js.isNaN (total "clicks") = false ->
      Js.isFiniteNum (total "impressions") = true
      \/ Js.isFiniteNum (total "clicks") = true ->
      Js.isNaN ctr = false).
Proof.
  intros Hdata total ctr. split; [|split].
  - intros col. subst total. cbv beta. rewrite <- sumOf_contributions. split.
    + apply sumColumn_Ok, Hdata.
    + apply sumOf_not_nan.
  - intros quality Hq. unfold summaryOf, getData, defined. rewrite Hdata, Hq. cbn [bind].
    destruct (hasColumns this ["impressions"; "clicks"; "spent"]).
    + rewrite !(sumColumn_Ok this rows _ Hdata). cbn [bind]. eexists. split; [reflexivity|].
      cbn [Summary.keyMetrics]. subst ctr total. cbv beta.
      rewrite <- !sumOf_contributions. reflexivity.
    + erewrite mapM_ext.
      2:{ intros col. rewrite (sumColumn_Ok this rows _ Hdata). cbn [bind]. reflexivity. }
      rewrite mapM_Ok. cbn [bind]. eexists. split; [reflexivity|].
      cbn [Summary.keyMetrics]. apply map_ext. intros col. subst total. cbv beta.
      rewrite <- sumOf_contributions. reflexivity.
  - subst ctr. apply rate_not_nan.
Qed.

End SumColumn.

(** The amended C10 at a table with a cell that does not parse: the
    clicks add up to 30, and the summary prints the totals and the rate. *)
Lemma sumColumn_total_of_parsed_cells_witness :
  ComprehensiveDataAnalyzer.data Examples.adsWithGapAssessed
  = Some Examples.adsWithGap
  /\ parsesFinite Examples.adsWithGap "clicks"
  /\ ComprehensiveDataAnalyzer.sumColumn Examples.adsWithGapAssessed "clicks"
     = Ok 30%float
  /\ exists summary,
       ComprehensiveDataAnalyzer.summaryOf Examples.adsWithGapAssessed = Ok summary
       /\ map ComprehensiveDataAnalyzer.value
              (ComprehensiveDataAnalyzer.Summary.keyMetrics summary)
          = ["1,500"; "30"; "$6.5"; "2.000%"]%string.
Proof.
  assert (Hfin : parsesFinite Examples.adsWithGap "clicks").
  { intros r [<-|[<-|[]]]; vm_compute; auto. }
  destruct (@sumColumn_total_of_parsed_cells refEngine
              Examples.adsWithGapAssessed Examples.adsWithGap eq_refl)
    as (Hsum & Hsummary & _).
  destruct (Hsum "clicks"%string) as [Hclicks _].
  destruct (Hsummary _ eq_refl) as (summary & Hrun & Hmetrics).
  split; [reflexivity|]. split; [exact Hfin|]. split.
  - rewrite Hclicks. vm_compute. reflexivity.
  - exists summary. split; [exact Hrun|]. rewrite Hmetrics. vm_compute. reflexivity.
Defined.

(** C10 as stated fails.  A column that holds both infinities sums to NaN,
    and the executive summary prints it.  A column of finite cells can
    overflow: two cells [1e308] sum to [Infinity], which is no real number,
    and the rate of two such totals is NaN. *)
Lemma sumColumn_not_always_a_number :
  (ComprehensiveDataAnalyzer.sumColumn
     (ComprehensiveDataAnalyzer.load ComprehensiveDataAnalyzer.constructor
        Examples.adsWithInfinities) "impressions" = Ok PrimFloat.nan
   /\ exists this',
        ComprehensiveDataAnalyzer.performComprehensiveAnalysis
          (ComprehensiveDataAnalyzer.load ComprehensiveDataAnalyzer.constructor
             Examples.adsWithInfinities) = Ok this'
        /\ option_map
             (fun s => map ComprehensiveDataAnalyzer.value
                           (ComprehensiveDataAnalyzer.Summary.keyMetrics s))
             (ComprehensiveDataAnalyzer.executiveSummary
                (ComprehensiveDataAnalyzer.results this'))
           = Some ["NaN"; "4"; "$6"; "0.000%"]%string)
  /\ ((forall col, parsesFinite Examples.adsOverflowing col)
      /\ ComprehensiveDataAnalyzer.sumColumn
           (ComprehensiveDataAnalyzer.load ComprehensiveDataAnalyzer.constructor
              Examples.adsOverflowing) "impressions" = Ok PrimFloat.infinity
      /\ exists this',
           ComprehensiveDataAnalyzer.performComprehensiveAnalysis
             (ComprehensiveDataAnalyzer.load ComprehensiveDataAnalyzer.constructor
                Examples.adsOverflowing) = Ok this'
           /\ option_map
                (fun s => map ComprehensiveDataAnalyzer.value
                              (ComprehensiveDataAnalyzer.Summary.keyMetrics s))
                (ComprehensiveDataAnalyzer.executiveSummary
                   (ComprehensiveDataAnalyzer.results this'))
              = Some ["∞"; "∞"; "$2"; "NaN%"]%string).
Proof.
  split; [|split; [|split]].
  - split; [vm_compute; reflexivity|].
    eexists. split; [vm_compute; reflexivity|]. vm_compute. reflexivity.
  - intros col r [<-|[<-|[]]]; cbn [getProp].
    all: destruct (String.eqb "impressions" col); [vm_compute; auto|].
    all: destruct (String.eqb "clicks" col); [vm_compute; auto|].
    all: destruct (String.eqb "spent" col); vm_compute; auto.
  - vm_compute. reflexivity.
  - eexists. split; [vm_compute; reflexivity|]. vm_compute. reflexivity.
Qed.


(* ================================================================= *)
(** ** Correlations *)

Section Correlations.
Context {E : Engine}.
Local Open Scope float_scope.








End Correlations.



(** C3 fails on the comprehensive analyzer: its significant correlations
    stay in the order of the column pairs.  On [threeColumns] the
    coefficient 0.8 of [(a, b)] comes before the coefficient 1 of
    [(a, c)]. *)
Lemma significant_correlations_unsorted :
  exists this' found,
    ComprehensiveDataAnalyzer.performComprehensiveAnalysis
      (ComprehensiveDataAnalyzer.load ComprehensiveDataAnalyzer.constructor
         Examples.threeColumns) = Ok this'
    /\ ComprehensiveDataAnalyzer.correlations
         (ComprehensiveDataAnalyzer.results this') = Some found
    /\ map (fun r => (ComprehensiveDataAnalyzer.column1 r,
                      ComprehensiveDataAnalyzer.column2 r,
                      ComprehensiveDataAnalyzer.correlation r))
           (ComprehensiveDataAnalyzer.Correlations.significant found)
       = [ ("a", "b", 0.8); ("a", "c", 1); ("b", "c", 0.8) ]%string%float.
Proof.
  eexists. eexists. split; [vm_compute; reflexivity|].
  split; vm_compute; reflexivity.
Qed.

(** The exploratory analyzer sorts the same correlations, strongest
    first. *)
Lemma DataAnalyzer_correlations_sorted_example :
  exists this',
    DataAnalyzer.analyzeData
      (DataAnalyzer.load DataAnalyzer.constructor Examples.threeColumns) = Ok this'
    /\ map (fun r => (DataAnalyzer.column1 r, DataAnalyzer.column2 r,
                      DataAnalyzer.correlation r))
           (DataAnalyzer.correlations this')
       = [ ("a", "c", 1); ("a", "b", 0.8); ("b", "c", 0.8) ]%string%float.
Proof.
  eexists. split; vm_compute; reflexivity.
Qed.


(* ================================================================= *)
(** ** Column types *)

Section ColumnTypes.
Context {E : Engine}.
Import ComprehensiveDataAnalyzer.

Lemma identifyColumn_classOf (rows : table) (numeric date categorical : list string)
    (col : string) :
  identifyColumn rows (numeric, date, categorical) col =
  match classOf rows col with
  | Numeric => (numeric ++ [col], date, categorical)
  | DateTime => (numeric, date ++ [col], categorical)
  | Categorical => (numeric, date, categorical ++ [col])
  end.
Proof.
  unfold identifyColumn, classOf.
  destruct (Js.gt _ _); [reflexivity|]. destruct (Js.gt _ _); reflexivity.
Qed.

(** After the loop, each list holds the columns of its class. *)
Lemma identifyColumns_spec (rows : table) (cols : list string) :
  forall numeric date categorical,
  let '(numeric', date', categorical') :=
    fold_left (identifyColumn rows) cols (numeric, date, categorical) in
  numeric' = numeric ++ filter (fun c => match classOf rows c with
                                         | Numeric => true | _ => false end) cols
  /\ date' = date ++ filter (fun c => match classOf rows c with
                                      | DateTime => true | _ => false end) cols
  /\ categorical' = categorical
                    ++ filter (fun c => match classOf rows c with
                                        | Categorical => true | _ => false end) cols.
Proof.
  induction cols as [|col cols IH]; intros numeric date categorical; cbn [fold_left filter].
  - rewrite !app_nil_r. auto.
  - rewrite identifyColumn_classOf.
    destruct (classOf rows col);
      match goal with
      | |- context [fold_left _ cols (?n, ?d, ?c)] => specialize (IH n d c)
      end;
      destruct (fold_left _ cols _) as [[n' d'] c'];
      destruct IH as (-> & -> & ->); rewrite <- ?app_assoc; auto.
Qed.

(** The classification of [ComprehensiveDataAnalyzer] is exclusive: once a
    non-empty table is loaded, [identifyColumnTypes] puts every column on
    exactly one of the three lists. *)
Theorem Comprehensive_classification_exclusive (this : analyzer) (rows : table) :
  data this = Some rows -> rows <> [] ->
  exists this',
    identifyColumnTypes this = Ok this'
    /\ forall col, In col (columns this') ->
         (In col (numericColumns this') /\ ~ In col (dateColumns this')
          /\ ~ In col (categoricalColumns this'))
         \/ (~ In col (numericColumns this') /\ In col (dateColumns this')
             /\ ~ In col (categoricalColumns this'))
         \/ (~ In col (numericColumns this') /\ ~ In col (dateColumns this')
             /\ In col (categoricalColumns this')).
Proof.
  intros Hdata Hne. unfold identifyColumnTypes, getData. rewrite Hdata. cbn [bind].
  destruct rows as [|first rest]; [congruence|].
  pose proof (identifyColumns_spec (first :: rest) (Object_keys first) [] [] []) as H.
  destruct (fold_left _ _ _) as [[numeric date] categorical].
  destruct H as (-> & -> & ->). cbn [app].
  eexists. split; [reflexivity|].
  cbn [columns numericColumns dateColumns categoricalColumns].
  intros col Hcol. rewrite !filter_In.
  destruct (classOf (first :: rest) col); [left|right; left|right; right];
    repeat split; auto; intros [_ H]; discriminate.
Qed.

End ColumnTypes.

(** The exclusive classification at the table [threeColumns]. *)
Lemma Comprehensive_classification_exclusive_witness :
  exists this',
    ComprehensiveDataAnalyzer.identifyColumnTypes
      (ComprehensiveDataAnalyzer.load ComprehensiveDataAnalyzer.constructor
         Examples.threeColumns) = Ok this'
    /\ ComprehensiveDataAnalyzer.numericColumns this' = ["a"; "b"; "c"]%string.
Proof.
  destruct (@Comprehensive_classification_exclusive refEngine
              (ComprehensiveDataAnalyzer.load ComprehensiveDataAnalyzer.constructor
                 Examples.threeColumns)
              Examples.threeColumns eq_refl ltac:(discriminate)) as (this' & Hrun & _).
  exists this'. split; [exact Hrun|].
  vm_compute in Hrun. injection Hrun as <-. reflexivity.
Defined.

(** C1 fails on the exploratory analyzer, whose tests do not exclude one
    another: a column of epoch milliseconds named [timestamp] is put on the
    numeric list and on the date list, and so is a column of years named
    [date]. *)
Lemma DataAnalyzer_column_numeric_and_date :
  (exists this',
     DataAnalyzer.identifyColumnTypes
       (DataAnalyzer.load DataAnalyzer.constructor Examples.epochColumn) = Ok this'
     /\ DataAnalyzer.numericColumns this' = ["timestamp"]%string
     /\ DataAnalyzer.dateColumns this' = ["timestamp"]%string)
  /\ (exists this',
        DataAnalyzer.identifyColumnTypes
          (DataAnalyzer.load DataAnalyzer.constructor Examples.yearColumn) = Ok this'
        /\ DataAnalyzer.numericColumns this' = ["date"]%string
        /\ DataAnalyzer.dateColumns this' = ["date"]%string).
Proof.
  split; eexists; (split; [vm_compute; reflexivity|]); split; reflexivity.
Qed.

(* ================================================================= *)
(** ** Empty tables *)

(** The exploratory analyzer refuses a table that is missing or empty, and
    returns nothing. *)
Lemma DataAnalyzer_rejects_empty_table (E : Engine) (this : DataAnalyzer.analyzer) :
  DataAnalyzer.data this = None \/ DataAnalyzer.data this = Some [] ->
  DataAnalyzer.analyzeData this = Throw (Error "No data to analyze").
Proof.
  intros [H|H]; unfold DataAnalyzer.analyzeData; rewrite H; reflexivity.
Qed.

Lemma DataAnalyzer_rejects_empty_table_witness :
  DataAnalyzer.analyzeData (DataAnalyzer.load DataAnalyzer.constructor [])
  = Throw (Error "No data to analyze").
Proof.
  apply (DataAnalyzer_rejects_empty_table refEngine). right. reflexivity.
Defined.

Section TableOnly.
Context {E : Engine}.
Import DataAnalyzer.

(** [findThemes] reads the table and the lists of columns, and writes the
    themes only. *)
Lemma findThemes_frame d c n dt t cs t' cs' :
  findThemes (Build_analyzer d c n dt t cs)
  = bind (findThemes (Build_analyzer d c n dt t' cs'))
      (fun a => Ok (Build_analyzer d c n dt (themes a) cs)).
Proof.
  unfold findThemes.
  do 3 (rewrite bind_assoc; apply bind_ext; intros ?ts).
  reflexivity.
Qed.

(** [calculateCorrelations] does not read the correlations it replaces. *)
Lemma calculateCorrelations_frame d c n dt t cs cs' :
  calculateCorrelations (Build_analyzer d c n dt t cs)
  = calculateCorrelations (Build_analyzer d c n dt t cs').
Proof. reflexivity. Qed.

(** The outcome of [analyzeData] is that of the table alone: the columns,
    themes and correlations an earlier run left are not read, and a table
    that is missing or empty is refused whatever they are. *)
Theorem DataAnalyzer_result_of_table_alone (this other : analyzer) :
  data this = data other -> analyzeData this = analyzeData other.
Proof.
  destruct this as [d c n dt t cs], other as [d' c' n' dt' t' cs'].
  cbn [data]. intros <-. unfold analyzeData. cbn [data].
  destruct d as [[|first rest]|]; try reflexivity.
  unfold identifyColumnTypes, getData. cbn [data bind themes correlations].
  destruct (fold_left _ _ _) as [numeric date]. cbn [bind].
  rewrite (findThemes_frame _ _ _ _ t cs [] []), (findThemes_frame _ _ _ _ t' cs' [] []).
  destruct (findThemes _) as [a|e]; cbn [bind]; [|reflexivity].
  apply calculateCorrelations_frame.
Qed.
End TableOnly.

(** A run on [threeColumns] by an analyzer that holds what another table
    left ends as a run by a fresh analyzer. *)
Lemma DataAnalyzer_result_of_table_alone_witness :
  DataAnalyzer.analyzeData (DataAnalyzer.load Examples.staleAnalyzer Examples.threeColumns)
  = DataAnalyzer.analyzeData
      (DataAnalyzer.load DataAnalyzer.constructor Examples.threeColumns).
Proof.
  exact (@DataAnalyzer_result_of_table_alone refEngine
           (DataAnalyzer.load Examples.staleAnalyzer Examples.threeColumns)
           (DataAnalyzer.load DataAnalyzer.constructor Examples.threeColumns) eq_refl).
Defined.

(** C2 fails on the comprehensive analyzer: on the empty table
    [performComprehensiveAnalysis] runs to its end and leaves a result
    aggregate whose quality score is NaN. *)
Lemma Comprehensive_analyzes_empty_table :
  exists this' summary,
    ComprehensiveDataAnalyzer.performComprehensiveAnalysis
      (ComprehensiveDataAnalyzer.load ComprehensiveDataAnalyzer.constructor [])
    = Ok this'
    /\ ComprehensiveDataAnalyzer.executiveSummary
         (ComprehensiveDataAnalyzer.results this') = Some summary
    /\ ComprehensiveDataAnalyzer.Summary.totalRows summary = 0
    /\ ComprehensiveDataAnalyzer.Summary.dataQualityScore summary = PrimFloat.nan
    /\ ComprehensiveDataAnalyzer.recommendations
         (ComprehensiveDataAnalyzer.results this') = Some [].
Proof.
  eexists. eexists. split; [vm_compute; reflexivity|].
  split; [reflexivity|]. repeat split.
Qed.

(* ================================================================= *)
(** ** Volatility *)

(** C8 fails: the average volatility is the quotient of a sum by a count
    that may be 0, and a low of 0 divides by zero.  The theme then carries
    NaN or an infinity, and prints it. *)
Lemma volatility_theme_NaN :
  let volatilityOf rows :=
    match DataAnalyzer.analyzeData (DataAnalyzer.load DataAnalyzer.constructor rows) with
    | Ok this' =>
        map (fun t => (DataAnalyzer.metrics t, DataAnalyzer.description t))
            (filter (fun t => String.eqb (DataAnalyzer.name t) "Price Volatility Patterns")
                    (DataAnalyzer.themes this'))
    | Throw _ => []
    end in
  volatilityOf Examples.flatPrices
  = [ (DataAnalyzer.Volatility PrimFloat.nan,
       "Price volatility analysis shows average volatility of NaN"%string) ]
  /\ volatilityOf Examples.missingPrices
     = [ (DataAnalyzer.Volatility PrimFloat.nan,
          "Price volatility analysis shows average volatility of NaN"%string) ]
  /\ volatilityOf Examples.zeroLow
     = [ (DataAnalyzer.Volatility PrimFloat.infinity,
          "Price volatility analysis shows average volatility of Infinity"%string) ].
Proof.
  repeat split; vm_compute; reflexivity.
Qed.


(* ================================================================= *)
(** ** Determinism of the comprehensive analysis *)

Section Idempotence.
Context {E : Engine}.
Import ComprehensiveDataAnalyzer.

Lemma identifyColumnTypes_fixed (this a : analyzer) :
  identifyColumnTypes this = Ok a ->
  data a = data this
  /\ forall r,
       identifyColumnTypes
         (Build_analyzer (data a) (columns a) (numericColumns a) (dateColumns a)
            (categoricalColumns a) r)
       = Ok (Build_analyzer (data a) (columns a) (numericColumns a) (dateColumns a)
               (categoricalColumns a) r).
Proof.
  unfold identifyColumnTypes, getData.
  destruct (data this) as [[|first rest]|] eqn:Hdata; cbn [bind]; [| |discriminate].
  - intros H. injection H as <-. split; [auto|]. intros r.
    cbn [data]. rewrite Hdata. reflexivity.
  - destruct (fold_left _ _ _) as [[numeric date] categorical] eqn:Hfold.
    intros H. injection H as <-. cbn [data]. split; [auto|]. intros r.
    cbn [data columns numericColumns dateColumns categoricalColumns bind].
    rewrite Hfold. reflexivity.
Qed.

Lemma qualityMetricsOf_frame d c n dt cat r r' :
  qualityMetricsOf (Build_analyzer d c n dt cat r)
  = qualityMetricsOf (Build_analyzer d c n dt cat r').
Proof. reflexivity. Qed.

Lemma summaryOf_frame d c n dt cat r r' :
  dataQuality r = dataQuality r' ->
  summaryOf (Build_analyzer d c n dt cat r) = summaryOf (Build_analyzer d c n dt cat r').
Proof.
  intros H. unfold summaryOf. cbn [results]. rewrite H. reflexivity.
Qed.

Lemma performanceOf_frame d c n dt cat r r' :
  performanceOf (Build_analyzer d c n dt cat r)
  = performanceOf (Build_analyzer d c n dt cat r').
Proof. reflexivity. Qed.

Lemma demographicsOf_frame d c n dt cat r r' :
  demographicsOf (Build_analyzer d c n dt cat r)
  = demographicsOf (Build_analyzer d c n dt cat r').
Proof. reflexivity. Qed.

Lemma temporalOf_frame d c n dt cat r r' :
  temporalOf (Build_analyzer d c n dt cat r)
  = temporalOf (Build_analyzer d c n dt cat r').
Proof. reflexivity. Qed.

Lemma statisticalOf_frame d c n dt cat r r' :
  statisticalOf (Build_analyzer d c n dt cat r)
  = statisticalOf (Build_analyzer d c n dt cat r').
Proof. reflexivity. Qed.

Lemma correlationsOf_frame d c n dt cat r r' :
  correlationsOf (Build_analyzer d c n dt cat r)
  = correlationsOf (Build_analyzer d c n dt cat r').
Proof. reflexivity. Qed.

Lemma insightsOf_frame d c n dt cat r r' :
  dataQuality r = dataQuality r' -> performance r = performance r' ->
  correlations r = correlations r' ->
  insightsOf (Build_analyzer d c n dt cat r) = insightsOf (Build_analyzer d c n dt cat r').
Proof.
  intros H1 H2 H3. unfold insightsOf. cbn [results]. rewrite H1, H2, H3. reflexivity.
Qed.

Lemma recommendationsOf_frame d c n dt cat r r' :
  dataQuality r = dataQuality r' -> demographics r = demographics r' ->
  temporal r = temporal r' ->
  recommendationsOf (Build_analyzer d c n dt cat r)
  = recommendationsOf (Build_analyzer d c n dt cat r').
Proof.
  intros H1 H2 H3. unfold recommendationsOf, findBestPerformingSegments.
  cbn [results]. rewrite H1, H2, H3. reflexivity.
Qed.

Lemma bind_Ok_inv {A B} (m : result A) (k : A -> result B) (b : B) :
  bind m k = Ok b -> exists a, m = Ok a /\ k a = Ok b.
Proof.
  destruct m as [a|e]; cbn [bind]; [eauto|discriminate].
Qed.

Ltac normalize_in H :=
  unfold setResults, setDataQuality, setExecutiveSummary, setPerformance,
    setDemographics, setTemporal, setStatistical, setCorrelations,
    setAdvancedInsights, setRecommendations in H;
  cbn [data columns numericColumns dateColumns categoricalColumns results
       dataQuality executiveSummary performance demographics temporal statistical
       correlations advancedInsights recommendations] in H.

Ltac normalize :=
  unfold setResults, setDataQuality, setExecutiveSummary, setPerformance,
    setDemographics, setTemporal, setStatistical, setCorrelations,
    setAdvancedInsights, setRecommendations;
  cbn [data columns numericColumns dateColumns categoricalColumns results
       dataQuality executiveSummary performance demographics temporal statistical
       correlations advancedInsights recommendations bind].

Ltac frame lem H :=
  match type of H with
  | ?f (Build_analyzer _ _ _ _ _ ?r0) = _ =>
      match goal with
      | |- context [f (Build_analyzer ?d ?c ?n ?dt ?cat ?r1)] =>
          rewrite (lem d c n dt cat r1 r0) by reflexivity; rewrite H; normalize
      end
  end.

Ltac step H v Hv :=
  apply bind_Ok_inv in H; destruct H as (? & H' & H);
  apply bind_Ok_inv in H'; destruct H' as (v & Hv & H');
  injection H' as <-; normalize_in H.

(** A second run on the analyzer a first run left changes nothing, and the
    table is the one that was loaded. *)
Lemma analysis_idempotent (this this1 : analyzer) :
  performComprehensiveAnalysis this = Ok this1 ->
  data this1 = data this
  /\ performComprehensiveAnalysis this1 = Ok this1.
Proof.
  intros Hrun. unfold performComprehensiveAnalysis in Hrun.
  destruct (identifyColumnTypes this) as [a|] eqn:Hid; [cbn [bind] in Hrun|discriminate].
  destruct (identifyColumnTypes_fixed this a Hid) as [Hdata Hfix].
  destruct a as [d c n dt cat [r1 r2 r3 r4 r5 r6 r7 r8 r9]].
  unfold assessDataQuality, generateExecutiveSummary, performPerformanceAnalysis,
    performDemographicAnalysis, performTemporalAnalysis, performStatisticalAnalysis,
    performCorrelationAnalysis, generateAdvancedInsights, generateRecommendations
    in Hrun.
  cbn [data columns numericColumns dateColumns categoricalColumns] in Hdata, Hfix.
  step Hrun v1 H1. step Hrun v2 H2. step Hrun v3 H3. step Hrun v4 H4.
  step Hrun v5 H5. step Hrun v6 H6. step Hrun v7 H7. step Hrun v8 H8.
  apply bind_Ok_inv in Hrun. destruct Hrun as (v9 & H9 & Hrun).
  injection Hrun as <-. normalize.
  split; [exact Hdata|].
  unfold performComprehensiveAnalysis. rewrite Hfix. cbn [bind].
  unfold assessDataQuality, generateExecutiveSummary, performPerformanceAnalysis,
    performDemographicAnalysis, performTemporalAnalysis, performStatisticalAnalysis,
    performCorrelationAnalysis, generateAdvancedInsights, generateRecommendations.
  frame qualityMetricsOf_frame H1. frame summaryOf_frame H2.
  frame performanceOf_frame H3. frame demographicsOf_frame H4.
  frame temporalOf_frame H5. frame statisticalOf_frame H6.
  frame correlationsOf_frame H7. frame insightsOf_frame H8.
  frame recommendationsOf_frame H9.
  reflexivity.
Qed.

Lemma identifyColumnTypes_of_table (first : row) (rest : list row) :
  exists c n dt cat, forall this,
    data this = Some (first :: rest) ->
    identifyColumnTypes this
    = Ok (Build_analyzer (Some (first :: rest)) c n dt cat (results this)).
Proof.
  destruct (fold_left (identifyColumn (first :: rest)) (Object_keys first) ([], [], []))
    as [[n dt] cat] eqn:Hfold.
  exists (Object_keys first), n, dt, cat. intros this Hdata.
  unfold identifyColumnTypes, getData. rewrite Hdata. cbn [bind].
  rewrite Hfold. reflexivity.
Qed.

(** The result aggregate of a non-empty table does not depend on what the
    analyzer held before. *)
Lemma analysis_of_table_only (this this1 other : analyzer) (first : row)
    (rest : list row) :
  performComprehensiveAnalysis this = Ok this1 ->
  data this = Some (first :: rest) ->
  data other = Some (first :: rest) ->
  exists other1,
    performComprehensiveAnalysis other = Ok other1
    /\ results other1 = results this1.
Proof.
  intros Hrun Hthis Hother.
  destruct (identifyColumnTypes_of_table first rest) as (c & n & dt & cat & Hid).
  unfold performComprehensiveAnalysis in *.
  rewrite (Hid this Hthis) in Hrun. rewrite (Hid other Hother).
  cbn [bind] in *.
  destruct (results this) as [r1 r2 r3 r4 r5 r6 r7 r8 r9].
  destruct (results other) as [o1 o2 o3 o4 o5 o6 o7 o8 o9].
  unfold assessDataQuality, generateExecutiveSummary, performPerformanceAnalysis,
    performDemographicAnalysis, performTemporalAnalysis, performStatisticalAnalysis,
    performCorrelationAnalysis, generateAdvancedInsights, generateRecommendations
    in *.
  step Hrun v1 H1. step Hrun v2 H2. step Hrun v3 H3. step Hrun v4 H4.
  step Hrun v5 H5. step Hrun v6 H6. step Hrun v7 H7. step Hrun v8 H8.
  apply bind_Ok_inv in Hrun. destruct Hrun as (v9 & H9 & Hrun).
  injection Hrun as <-. normalize.
  frame qualityMetricsOf_frame H1. frame summaryOf_frame H2.
  frame performanceOf_frame H3. frame demographicsOf_frame H4.
  frame temporalOf_frame H5. frame statisticalOf_frame H6.
  frame correlationsOf_frame H7. frame insightsOf_frame H8.
  frame recommendationsOf_frame H9.
  eexists. split; reflexivity.
Qed.

(** C9.  The full analysis is deterministic and leaves the table as it
    was: after a run that ends, the analyzer still holds the table that was
    loaded; a second run on it ends in the same state, with the same result
    aggregate; and any analyzer that holds the same non-empty table ends
    with the same result aggregate. *)
Theorem analysis_deterministic (this this1 : analyzer) :
  performComprehensiveAnalysis this = Ok this1 ->
  data this1 = data this
  /\ performComprehensiveAnalysis this1 = Ok this1
  /\ forall other first rest,
       data this = Some (first :: rest) ->
       data other = data this ->
       exists other1,
         performComprehensiveAnalysis other = Ok other1
         /\ results other1 = results this1.
Proof.
  intros Hrun. destruct (analysis_idempotent this this1 Hrun) as [Hdata Hidem].
  split; [exact Hdata|]. split; [exact Hidem|].
  intros other first rest Hthis Hother. rewrite Hthis in Hother.
  exact (analysis_of_table_only this this1 other first rest Hrun Hthis Hother).
Qed.

End Idempotence.

(** C9 at the table [threeColumns]. *)
Lemma analysis_deterministic_witness :
  exists this1,
    ComprehensiveDataAnalyzer.performComprehensiveAnalysis
      (ComprehensiveDataAnalyzer.load ComprehensiveDataAnalyzer.constructor
         Examples.threeColumns) = Ok this1
    /\ ComprehensiveDataAnalyzer.data this1 = Some Examples.threeColumns
    /\ ComprehensiveDataAnalyzer.performComprehensiveAnalysis this1 = Ok this1.
Proof.
  destruct (ComprehensiveDataAnalyzer.performComprehensiveAnalysis
              (ComprehensiveDataAnalyzer.load ComprehensiveDataAnalyzer.constructor
                 Examples.threeColumns)) as [this1|e] eqn:Hrun.
  - exists this1.
    destruct (@analysis_deterministic refEngine _ this1 Hrun) as (Hdata & Hidem & _).
    split; [reflexivity|]. split; [exact Hdata|exact Hidem].
  - vm_compute in Hrun. discriminate Hrun.
Defined.


(* ================================================================= *)
(** ** Trends *)

Local Open Scope float_scope.

(** Nothing lies below a negative number and above a positive one. *)
Lemma SFltb_signs (s : spec_float) (m1 m2 : positive) (e1 e2 : Z) :
  SFltb s (S754_finite true m1 e1) = true ->
  SFltb (S754_finite false m2 e2) s = false.
Proof.
  unfold SFltb.
  destruct s as [[|]|[|]| |[|] m e]; try discriminate; intros _; reflexivity.
Qed.

Lemma below_not_above (s : float) :
  Js.lt s (-0.001) = true -> Js.gt s 0.001 = false.
Proof.
  unfold Js.lt, Js.gt. rewrite !FloatAxioms.ltb_spec.
  assert (Hlo : exists m e, Prim2SF (-0.001) = S754_finite true m e)
    by (eexists; eexists; vm_compute; reflexivity).
  assert (Hhi : exists m e, Prim2SF 0.001 = S754_finite false m e)
    by (eexists; eexists; vm_compute; reflexivity).
  destruct Hlo as (m1 & e1 & ->). destruct Hhi as (m2 & e2 & ->).
  apply SFltb_signs.
Qed.

Section Trend.
Context {E : Engine}.
Local Open Scope string_scope.

Lemma trendPoints_parse (rows : table) (column : string) (p : point) :
  In p (DataAnalyzer.trendPoints rows column) -> Js.isNaN (y p) = false.
Proof.
  unfold DataAnalyzer.trendPoints. rewrite filter_In. intros [_ H].
  destruct (Js.isNaN (y p)); [discriminate|reflexivity].
Qed.

(** C7, amended.  [DataAnalyzer.calculateTrend] fits the points whose value
    parses; with fewer than 2 of them it returns the direction
    ["Insufficient Data"] with slope 0, and otherwise the direction is
    ["Upward"] iff slope > 0.001, ["Downward"] iff slope < -0.001 and
    ["Sideways"] otherwise.  [ComprehensiveDataAnalyzer.calculateTrends]
    returns the direction ["insufficient_data"] and no slope for a series
    of fewer than 2 items, and otherwise, for a primary metric, a slope and
    the direction ["increasing"], ["declining"] or ["stable"] by the same
    thresholds. *)
Theorem trend_direction_by_slope :
  (forall this rows column,
     DataAnalyzer.data this = Some rows ->
     let points := DataAnalyzer.trendPoints rows column in
     exists t,
       DataAnalyzer.calculateTrend this column = Ok t
       /\ (forall p, In p points -> Js.isNaN (y p) = false)
       /\ (List.length points < 2 ->
           DataAnalyzer.direction t = "Insufficient Data"
           /\ DataAnalyzer.slope t = 0%float)
       /\ (2 <= List.length points ->
           (DataAnalyzer.direction t = "Upward"
            <-> Js.gt (DataAnalyzer.slope t) 0.001 = true)
           /\ (DataAnalyzer.direction t = "Downward"
               <-> Js.lt (DataAnalyzer.slope t) (-0.001) = true)
           /\ (DataAnalyzer.direction t = "Sideways"
               <-> Js.gt (DataAnalyzer.slope t) 0.001 = false
                   /\ Js.lt (DataAnalyzer.slope t) (-0.001) = false)))
  /\ (forall this series,
        let t := ComprehensiveDataAnalyzer.calculateTrends this series in
        (List.length series < 2 ->
         ComprehensiveDataAnalyzer.direction t = Some "insufficient_data"
         /\ ComprehensiveDataAnalyzer.slope t = None)
        /\ (2 <= List.length series ->
            forall primaryMetric others,
              ComprehensiveDataAnalyzer.numericColumns this = primaryMetric :: others ->
              primaryMetric <> "" ->
              exists s,
                ComprehensiveDataAnalyzer.slope t = Some s
                /\ (ComprehensiveDataAnalyzer.direction t = Some "increasing"
                    <-> Js.gt s 0.001 = true)
                /\ (ComprehensiveDataAnalyzer.direction t = Some "declining"
                    <-> Js.lt s (-0.001) = true)
                /\ (ComprehensiveDataAnalyzer.direction t = Some "stable"
                    <-> Js.gt s 0.001 = false /\ Js.lt s (-0.001) = false))).
Proof.
  split.
  - intros this rows column Hdata points.
    unfold DataAnalyzer.calculateTrend, DataAnalyzer.getData. rewrite Hdata.
    cbn [bind]. eexists. split; [reflexivity|].
    split; [apply trendPoints_parse|].
    fold points. unfold DataAnalyzer.trendOf.
    destruct (List.length points <? 2)%nat eqn:Hlen.
    + apply Nat.ltb_lt in Hlen. split; [intros _; split; reflexivity|lia].
    + apply Nat.ltb_ge in Hlen. split; [lia|]. intros _.
      cbn [DataAnalyzer.direction DataAnalyzer.slope].
      match goal with |- context [Js.gt ?s 0.001] => generalize s end.
      intros s. pose proof (below_not_above s) as Hs.
      destruct (Js.gt s 0.001) eqn:Hgt; destruct (Js.lt s (-0.001)) eqn:Hlt;
        try (specialize (Hs eq_refl); discriminate Hs);
        repeat split; try discriminate; try reflexivity;
        try (intros [? ?]; discriminate).
  - intros this series t. subst t. unfold ComprehensiveDataAnalyzer.calculateTrends.
    destruct (List.length series <? 2)%nat eqn:Hlen.
    + apply Nat.ltb_lt in Hlen. split; [intros _; split; reflexivity|lia].
    + apply Nat.ltb_ge in Hlen. split; [lia|]. intros _ primaryMetric others -> Hne.
      destruct (String.eqb_spec primaryMetric ""); [contradiction|].
      cbn [ComprehensiveDataAnalyzer.direction ComprehensiveDataAnalyzer.slope].
      eexists. split; [reflexivity|].
      match goal with |- context [Js.gt ?s 0.001] => generalize s end.
      intros s. pose proof (below_not_above s) as Hs.
      destruct (Js.gt s 0.001) eqn:Hgt; destruct (Js.lt s (-0.001)) eqn:Hlt;
        try (specialize (Hs eq_refl); discriminate Hs);
        repeat split; try discriminate; try reflexivity;
        try (intros [? ?]; discriminate).
Qed.
End Trend.

(** C7 at a closing price that rises by one a day. *)
Lemma trend_direction_by_slope_witness :
  exists t,
    DataAnalyzer.calculateTrend
      (DataAnalyzer.load DataAnalyzer.constructor Examples.risingClose) "close" = Ok t
    /\ DataAnalyzer.slope t = 1
    /\ DataAnalyzer.direction t = "Upward"%string.
Proof.
  destruct (@trend_direction_by_slope refEngine) as [HD _].
  destruct (HD (DataAnalyzer.load DataAnalyzer.constructor Examples.risingClose)
               Examples.risingClose "close"%string eq_refl)
    as (t & Hcalc & _ & _ & Hdir).
  exists t. split; [exact Hcalc|].
  assert (Hslope : DataAnalyzer.slope t = 1).
  { vm_compute in Hcalc. injection Hcalc as <-. reflexivity. }
  split; [exact Hslope|].
  apply Hdir.
  - vm_compute. repeat constructor.
  - rewrite Hslope. reflexivity.
Defined.

(** C7 as stated fails on the comprehensive analyzer: with one dated row
    its trend has the direction ["insufficient_data"] and no slope at all,
    and a value that does not parse is a point of value 0, not a missing
    point: on [gappySeries] the slope is 0.7 over four points, where the
    exploratory analyzer fits three points and finds 1. *)
Lemma calculateTrends_without_slope :
  let trendsOf rows :=
    match ComprehensiveDataAnalyzer.performComprehensiveAnalysis
            (ComprehensiveDataAnalyzer.load ComprehensiveDataAnalyzer.constructor rows)
    with
    | Ok this' =>
        option_map ComprehensiveDataAnalyzer.Temporal.trends
          (ComprehensiveDataAnalyzer.temporal (ComprehensiveDataAnalyzer.results this'))
    | Throw _ => None
    end in
  trendsOf Examples.oneDatedRow
  = Some {| ComprehensiveDataAnalyzer.direction := Some "insufficient_data"%string;
            ComprehensiveDataAnalyzer.slope := None;
            ComprehensiveDataAnalyzer.metric := None |}
  /\ trendsOf Examples.gappySeries
     = Some {| ComprehensiveDataAnalyzer.direction := Some "increasing"%string;
               ComprehensiveDataAnalyzer.slope := Some 0.7;
               ComprehensiveDataAnalyzer.metric := Some "v"%string |}
  /\ DataAnalyzer.calculateTrend
       (DataAnalyzer.load DataAnalyzer.constructor Examples.gappySeries) "v"
     = Ok {| DataAnalyzer.direction := "Upward"; DataAnalyzer.slope := 1 |}.
Proof.
  repeat split; vm_compute; reflexivity.
Qed.


(* ================================================================= *)
(** ** Columns of identical values *)

(** C5 fails in binary64.  The mean of [0.1, 0.1, 0.1] is
    0.10000000000000002, so the deviations are not 0: the standard
    deviation is 1.39e-17, which the test [std === 0] lets through, and the
    skewness is -1, in both analyzers.  No value is an outlier. *)
Lemma identical_tenths_deviate :
  (exists st,
     ComprehensiveDataAnalyzer.calculateDistributionStats (repeat 0.1 3) = Some st
     /\ ComprehensiveDataAnalyzer.mean st = 0.10000000000000002
     /\ ComprehensiveDataAnalyzer.std st = 1.3877787807814457e-17
     /\ Js.strictEq (ComprehensiveDataAnalyzer.std st) 0 = false
     /\ ComprehensiveDataAnalyzer.skewness st = -1)%float
  /\ (exists st,
        DataAnalyzer.statsOf (repeat 0.1 3) = Some st
        /\ DataAnalyzer.std st = 1.3877787807814457e-17
        /\ Js.strictEq (DataAnalyzer.std st) 0 = false
        /\ DataAnalyzer.skewness st = -1)%float
  /\ ComprehensiveDataAnalyzer.detectOutliers (repeat 0.1%float 3) = [].
Proof.
  split; [|split]; [| |vm_compute; reflexivity];
    eexists; (split; [vm_compute; reflexivity|]); repeat split.
Qed.

(** Where the mean is exact the test holds: on [5, 5, 5, 5] the standard
    deviation and the skewness are 0 in both analyzers, and no value is an
    outlier. *)
Lemma identical_fives_guarded :
  (exists st,
     ComprehensiveDataAnalyzer.calculateDistributionStats (repeat 5 4) = Some st
     /\ ComprehensiveDataAnalyzer.mean st = 5
     /\ ComprehensiveDataAnalyzer.std st = 0
     /\ ComprehensiveDataAnalyzer.skewness st = 0)%float
  /\ (exists st,
        DataAnalyzer.statsOf (repeat 5 4) = Some st
        /\ DataAnalyzer.std st = 0
        /\ DataAnalyzer.skewness st = 0)%float
  /\ ComprehensiveDataAnalyzer.detectOutliers (repeat 5%float 4) = [].
Proof.
  split; [|split]; [| |vm_compute; reflexivity];
    eexists; (split; [vm_compute; reflexivity|]); repeat split.
Qed.


(* ================================================================= *)
(** ** Outlier fences *)

Section Fences.
Context {E : Engine}.

Import Position NumberOrder.
Import ComprehensiveDataAnalyzer.

Local Open Scope float_scope.

#[local] Abbreviation byDifference := (fun a b : float => a - b).

(** Numbers without a NaN come out of [sort((a, b) => a - b)] in
    ascending order. *)
Lemma sort_by_difference (values : list float) (d : float) (i j : nat) :
  Forall (fun v => Js.isNaN v = false) values ->
  (i <= j)%nat -> (j < List.length values)%nat ->
  (position (nth i (Js.sort byDifference values) d)
   <= position (nth j (Js.sort byDifference values) d))%Z.
Proof.
  apply (sort_ascending float byDifference position
           (fun v => Js.isNaN v = false) difference_positive).
Qed.

Lemma columnValues_not_NaN (rows : table) (column : string) :
  Forall (fun v => Js.isNaN v = false) (columnValues rows column).
Proof.
  apply Forall_forall. intros v [_ Hv]%filter_In.
  apply negb_true_iff, Hv.
Qed.

Lemma one_and_a_half : exists m e, Prim2SF 1.5 = S754_finite false m e.
Proof. eexists. eexists. vm_compute. reflexivity. Qed.

(** The quartiles are two numbers of the sorted values, the first at or
    before the second. *)
Lemma quartiles (values : list float) (st : distributionStats) :
  calculateDistributionStats values = Some st ->
  (0 < List.length values)%nat
  /\ q1 st = nth (List.length values / 4) (Js.sort byDifference values) PrimFloat.nan
  /\ q3 st = nth (3 * List.length values / 4) (Js.sort byDifference values)
               PrimFloat.nan.
Proof.
  intros Hst. rewrite <- (sort_length byDifference values) at 2 3.
  destruct values as [|v0 values]; [discriminate|].
  split; [cbn [List.length]; lia|].
  unfold calculateDistributionStats in Hst. injection Hst as <-.
  split; reflexivity.
Qed.

(** The lower fence is not above the upper fence. *)
Lemma fences_in_order (values : list float) (st : distributionStats) :
  Forall (fun v => Js.isNaN v = false) values ->
  calculateDistributionStats values = Some st ->
  Js.isNaN (lowerBound st) = false -> Js.isNaN (upperBound st) = false ->
  (position (lowerBound st) <= position (upperBound st))%Z.
Proof.
  intros Hvalues Hst Hlower Hupper. unfold lowerBound, upperBound in *.
  destruct (sub_not_NaN _ _ Hlower) as [_ Hwidth].
  destruct (mul_not_NaN _ _ Hwidth) as [_ Hiqr].
  assert (Hq : (position (q1 st) <= position (q3 st))%Z).
  { destruct (quartiles values st Hst) as (Hn & -> & ->).
    apply sort_by_difference; [assumption| |].
    - apply Nat.Div0.div_le_mono. lia.
    - apply Nat.Div0.div_lt_upper_bound. lia. }
  pose proof (sub_nonneg _ _ Hiqr Hq) as Hspread.
  pose proof (mul_nonneg _ _ one_and_a_half Hwidth Hspread) as Hmargin.
  pose proof (sub_down _ _ Hlower Hmargin).
  pose proof (add_up _ _ Hupper Hmargin).
  lia.
Qed.

(** C6.  The outlier fences are strict: among the values of a column, one
    that equals [Q3 + 1.5 * IQR] or [Q1 - 1.5 * IQR] is not reported as an
    outlier, and one that is above the upper fence or below the lower
    fence is. *)
Theorem outlier_fences_strict (rows : table) (column : string)
    (st : distributionStats) (v : Js.number) :
  calculateDistributionStats (columnValues rows column) = Some st ->
  In v (columnValues rows column) ->
  (Js.strictEq v (upperBound st) = true \/ Js.strictEq v (lowerBound st) = true ->
   ~ In v (detectOutliers (columnValues rows column)))
  /\ (Js.gt v (upperBound st) = true \/ Js.lt v (lowerBound st) = true ->
      In v (detectOutliers (columnValues rows column))).
Proof.
  intros Hst Hv. unfold detectOutliers. rewrite Hst. cbv zeta.
  fold (lowerBound st) (upperBound st).
  pose proof (columnValues_not_NaN rows column) as Hvalues.
  split.
  - intros Hfence [_ Hout]%filter_In.
    assert (Hv' : Js.isNaN v = false).
    { rewrite Forall_forall in Hvalues. apply Hvalues, Hv. }
    destruct Hfence as [Heq|Heq];
      destruct (strictEq_not_NaN _ _ Heq) as [_ Hfin];
      apply strictEq_position in Heq;
      apply orb_true_iff in Hout as [Hlt|Hgt].
    + destruct (lt_not_NaN _ _ Hlt) as [_ Hlower].
      rewrite lt_position in Hlt by assumption. apply Z.ltb_lt in Hlt.
      pose proof (fences_in_order _ st Hvalues Hst Hlower Hfin). lia.
    + rewrite gt_position in Hgt by assumption. apply Z.ltb_lt in Hgt. lia.
    + rewrite lt_position in Hlt by assumption. apply Z.ltb_lt in Hlt. lia.
    + destruct (lt_not_NaN _ _ Hgt) as [Hupper _].
      rewrite gt_position in Hgt by assumption. apply Z.ltb_lt in Hgt.
      pose proof (fences_in_order _ st Hvalues Hst Hfin Hupper). lia.
  - intros Hbeyond. apply filter_In. split; [assumption|].
    apply orb_true_iff. tauto.
Qed.

End Fences.

Section FencesExample.

Local Open Scope float_scope.
Local Open Scope string_scope.

(** C6 on [dailySpend], whose fences are -1 and 7: the 7 and the -1 are
    not reported, the 8 and the -2 are. *)
Lemma outlier_fences_strict_witness :
  exists st,
    ComprehensiveDataAnalyzer.calculateDistributionStats
      (columnValues Examples.dailySpend "spend") = Some st
    /\ ComprehensiveDataAnalyzer.upperBound st = 7%float
    /\ ComprehensiveDataAnalyzer.lowerBound st = (-1)%float
    /\ ~ In 7%float (ComprehensiveDataAnalyzer.detectOutliers
                       (columnValues Examples.dailySpend "spend"))
    /\ ~ In (-1)%float (ComprehensiveDataAnalyzer.detectOutliers
                          (columnValues Examples.dailySpend "spend"))
    /\ In 8%float (ComprehensiveDataAnalyzer.detectOutliers
                     (columnValues Examples.dailySpend "spend"))
    /\ In (-2)%float (ComprehensiveDataAnalyzer.detectOutliers
                        (columnValues Examples.dailySpend "spend")).
Proof.
  destruct (ComprehensiveDataAnalyzer.calculateDistributionStats
              (columnValues Examples.dailySpend "spend")) as [st|] eqn:Hst;
    [|vm_compute in Hst; discriminate].
  assert (Hupper : ComprehensiveDataAnalyzer.upperBound st = 7%float).
  { vm_compute in Hst. injection Hst as <-. reflexivity. }
  assert (Hlower : ComprehensiveDataAnalyzer.lowerBound st = (-1)%float).
  { vm_compute in Hst. injection Hst as <-. reflexivity. }
  assert (Hin : forall v, In v [7; -1; 8; -2]%float ->
                  In v (columnValues Examples.dailySpend "spend")).
  { intros v Hv. vm_compute. cbn [In] in Hv. tauto. }
  assert (Hseven : Js.strictEq 7 (ComprehensiveDataAnalyzer.upperBound st) = true)
    by (rewrite Hupper; reflexivity).
  assert (Hminus : Js.strictEq (-1) (ComprehensiveDataAnalyzer.lowerBound st) = true)
    by (rewrite Hlower; reflexivity).
  assert (Height : Js.gt 8 (ComprehensiveDataAnalyzer.upperBound st) = true)
    by (rewrite Hupper; reflexivity).
  assert (Hbelow : Js.lt (-2) (ComprehensiveDataAnalyzer.lowerBound st) = true)
    by (rewrite Hlower; reflexivity).
  exists st. split; [reflexivity|]. split; [exact Hupper|]. split; [exact Hlower|].
  split; [|split; [|split]].
  - exact (proj1 (outlier_fences_strict Examples.dailySpend "spend" st 7 Hst
                    (Hin 7 (or_introl eq_refl)))
                 (or_introl Hseven)).
  - exact (proj1 (outlier_fences_strict Examples.dailySpend "spend" st (-1) Hst
                    (Hin (-1) (or_intror (or_introl eq_refl))))
                 (or_intror Hminus)).
  - exact (proj2 (outlier_fences_strict Examples.dailySpend "spend" st 8 Hst
                    (Hin 8 (or_intror (or_intror (or_introl eq_refl)))))
                 (or_introl Height)).
  - exact (proj2 (outlier_fences_strict Examples.dailySpend "spend" st (-2) Hst
                    (Hin (-2) (or_intror (or_intror (or_intror (or_introl eq_refl))))))
                 (or_intror Hbelow)).
Defined.

End FencesExample.


(* ================================================================= *)
(** ** The order of the correlations *)

Section Strongest.
Context {E : Engine}.

Import Position NumberOrder.
Import DataAnalyzer.

Local Open Scope float_scope.

(** The records the loop of [calculateCorrelations] keeps are above the
    threshold. *)
Lemma correlationStep_above (this : analyzer) (found found' : list correlationRecord)
    (cols : string * string) :
  Forall (fun r => Js.gt (Js.Math_abs (correlation r)) 0.1 = true) found ->
  correlationStep this found cols = Ok found' ->
  Forall (fun r => Js.gt (Js.Math_abs (correlation r)) 0.1 = true) found'.
Proof.
  intros Hfound. unfold correlationStep. destruct cols as [col1 col2].
  destruct (pearsonCorrelation this col1 col2) as [[r|]|e]; cbn [bind];
    try discriminate.
  - destruct (Js.gt (Js.Math_abs r) 0.1) eqn:Hr; intros [= <-]; [|assumption].
    apply Forall_app. split; [assumption|]. repeat constructor. exact Hr.
  - intros [= <-]. assumption.
Qed.

Lemma byStrength_rank (a b : correlationRecord) :
  Js.isNaN (Js.Math_abs (correlation a)) = false ->
  Js.isNaN (Js.Math_abs (correlation b)) = false ->
  Js.gt (byStrength a b) 0
  = (- position (Js.Math_abs (correlation b))
     <? - position (Js.Math_abs (correlation a)))%Z.
Proof.
  intros Ha Hb. unfold byStrength. rewrite (difference_positive _ _ Hb Ha).
  destruct (Z.ltb_spec (position (Js.Math_abs (correlation a)))
                       (position (Js.Math_abs (correlation b))));
    symmetry; [apply Z.ltb_lt|apply Z.ltb_ge]; lia.
Qed.

(** The correlations [calculateCorrelations] leaves are in descending
    order of strength: no record is weaker than a record after it. *)
Theorem DataAnalyzer_strongest_first (this this' : analyzer) (i j : nat)
    (d : correlationRecord) :
  calculateCorrelations this = Ok this' ->
  (i <= j)%nat -> (j < List.length (correlations this'))%nat ->
  Js.ge (Js.Math_abs (correlation (nth i (correlations this') d)))
        (Js.Math_abs (correlation (nth j (correlations this') d))) = true.
Proof.
  unfold calculateCorrelations.
  destruct (List.length (numericColumns this) <? 2)%nat.
  { intros [= <-] _ Hj. cbn [correlations setCorrelations List.length] in Hj. lia. }
  destruct (forEachM _ _ _) as [found|e] eqn:Hloop; cbn [bind]; [|discriminate].
  intros [= <-] Hij Hj. cbn [correlations setCorrelations] in *.
  assert (Habove : Forall (fun r => Js.gt (Js.Math_abs (correlation r)) 0.1 = true)
                     found).
  { apply (forEachM_invariant _ (correlationStep this)
             (columnPairs (numericColumns this))
             (fun found cols found' H => correlationStep_above this found found' cols H)
             [] found (Forall_nil _) Hloop). }
  assert (Hnan : Forall (fun r => Js.isNaN (Js.Math_abs (correlation r)) = false)
                   found).
  { eapply Forall_impl; [|exact Habove]. intros r Hr. apply (lt_not_NaN _ _ Hr). }
  rewrite sort_length in Hj.
  pose proof (sort_ascending _ byStrength
                (fun r => (- position (Js.Math_abs (correlation r)))%Z)
                (fun r => Js.isNaN (Js.Math_abs (correlation r)) = false)
                byStrength_rank found d i j Hnan Hij Hj) as Hrank.
  cbv beta in Hrank.
  assert (Hin : forall k, (k < List.length found)%nat ->
            Js.isNaN (Js.Math_abs (correlation (nth k (Js.sort byStrength found) d)))
            = false).
  { intros k Hk. rewrite Forall_forall in Hnan. apply Hnan.
    apply (sort_In byStrength). apply nth_In. rewrite sort_length. exact Hk. }
  rewrite ge_position by (apply Hin; lia).
  apply Z.leb_le. lia.
Qed.

End Strongest.

Section StrongestExample.

Local Open Scope float_scope.
Local Open Scope string_scope.

(** On [threeColumns] the strongest correlation, that of [a] and [c], comes
    first. *)
Lemma DataAnalyzer_strongest_first_witness :
  exists this',
    DataAnalyzer.calculateCorrelations Examples.threeColumnsIdentified = Ok this'
    /\ map (fun r => (DataAnalyzer.column1 r, DataAnalyzer.column2 r))
           (DataAnalyzer.correlations this')
       = [ ("a", "c"); ("a", "b"); ("b", "c") ]
    /\ forall d,
         Js.ge (Js.Math_abs (DataAnalyzer.correlation
                               (nth 0 (DataAnalyzer.correlations this') d)))
               (Js.Math_abs (DataAnalyzer.correlation
                               (nth 2 (DataAnalyzer.correlations this') d))) = true.
Proof.
  destruct (DataAnalyzer.calculateCorrelations Examples.threeColumnsIdentified)
    as [this'|e] eqn:Hrun; [|vm_compute in Hrun; discriminate].
  assert (Hcols : map (fun r => (DataAnalyzer.column1 r, DataAnalyzer.column2 r))
                    (DataAnalyzer.correlations this')
                  = [ ("a", "c"); ("a", "b"); ("b", "c") ]).
  { vm_compute in Hrun. injection Hrun as <-. reflexivity. }
  exists this'. split; [reflexivity|]. split; [exact Hcols|].
  intros d.
  refine (@DataAnalyzer_strongest_first refEngine
            Examples.threeColumnsIdentified this' 0 2 d Hrun _ _).
  - lia.
  - rewrite <- (length_map (fun r => (DataAnalyzer.column1 r, DataAnalyzer.column2 r))),
      Hcols. cbn [List.length]. lia.
Defined.

End StrongestExample.


(* ================================================================= *)
(** ** Reading a CSV file *)

Section CsvLines.
Local Open Scope string_scope.

Lemma append_nil_r (s : string) : s ++ "" = s.
Proof. induction s as [|c s IH]; cbn; [reflexivity|]. rewrite IH. reflexivity. Qed.

Lemma append_assoc (a b c : string) : (a ++ b) ++ c = a ++ (b ++ c).
Proof. induction a as [|x a IH]; cbn; [reflexivity|]. rewrite IH. reflexivity. Qed.

(** One turn of the loop on a character that is part of the field. *)
Lemma parseCSVLineFrom_plain (c : ascii) (rest : string) (result : list string)
    (current : string) (inQuotes : bool) :
  Ascii.eqb c quote = false ->
  Ascii.eqb c "," && negb inQuotes = false ->
  parseCSVLineFrom (String c rest) result current inQuotes
  = parseCSVLineFrom rest result (current ++ String c "") inQuotes.
Proof.
  intros Hq Hc. cbn [parseCSVLineFrom]. rewrite Hq, Hc.
  destruct rest; reflexivity.
Qed.

(** One turn on a comma outside quotes. *)
Lemma parseCSVLineFrom_comma (rest : string) (result : list string) (current : string) :
  parseCSVLineFrom (String "," rest) result current false
  = parseCSVLineFrom rest (result ++ [Str.trim current]) "" false.
Proof. cbn [parseCSVLineFrom]. destruct rest; reflexivity. Qed.

(** One turn on a quote that opens a quoted part. *)
Lemma parseCSVLineFrom_open (rest : string) (result : list string) (current : string) :
  parseCSVLineFrom (String quote rest) result current false
  = parseCSVLineFrom rest result current true.
Proof. cbn [parseCSVLineFrom]. destruct rest; reflexivity. Qed.

Lemma parseCSVLineFrom_quoted (field : string) : forall tail result current,
  closes tail ->
  parseCSVLineFrom (doubleQuotes field ++ String quote tail) result current true
  = parseCSVLineFrom tail result (current ++ field) false.
Proof.
  induction field as [|c field IH]; intros tail result current Htail.
  - cbn [doubleQuotes append]. rewrite append_nil_r.
    destruct tail as [|c' tail']; [reflexivity|].
    cbn [closes] in Htail. cbn [parseCSVLineFrom].
    rewrite Htail. reflexivity.
  - cbn [doubleQuotes]. destruct (Ascii.eqb c quote) eqn:Hc.
    + apply Ascii.eqb_eq in Hc. subst c. cbn [append].
      cbn [parseCSVLineFrom]. rewrite IH by assumption.
      rewrite append_assoc. reflexivity.
    + cbn [append]. rewrite parseCSVLineFrom_plain by (rewrite ?andb_false_r; auto).
      rewrite IH by assumption. rewrite append_assoc. reflexivity.
Qed.

Lemma csvLine_cons (field : string) (fields : list string) :
  csvLine (field :: fields)
  = quoteField field ++ match fields with
                        | [] => ""
                        | _ => String "," (csvLine fields)
                        end.
Proof.
  unfold csvLine. cbn [map String.concat].
  destruct fields as [|f fields]; cbn [map]; [rewrite append_nil_r|]; reflexivity.
Qed.

Lemma parseCSVLineFrom_csvLine (fields : list string) : forall result,
  fields <> [] ->
  (forall field, In field fields -> Str.trim field = field) ->
  parseCSVLineFrom (csvLine fields) result "" false = (result ++ fields)%list.
Proof.
  induction fields as [|field fields IH]; intros result Hne Htrim; [congruence|].
  rewrite csvLine_cons. unfold quoteField. cbn [append]. rewrite append_assoc.
  cbn [append]. rewrite parseCSVLineFrom_open.
  destruct fields as [|f fields].
  - rewrite parseCSVLineFrom_quoted by exact I. cbn [append parseCSVLineFrom].
    rewrite (Htrim field) by (left; reflexivity). reflexivity.
  - rewrite parseCSVLineFrom_quoted by reflexivity. cbn [append].
    rewrite parseCSVLineFrom_comma.
    rewrite (Htrim field) by (left; reflexivity).
    rewrite IH; [|discriminate|intros g Hg; apply Htrim; right; exact Hg].
    rewrite <- app_assoc. reflexivity.
Qed.

(** Writing fields between quotes and reading the line back gives the
    fields, commas, quotes and all; [parseCSVLine] trims what it reads, so
    the fields are taken without white space around them. *)
Theorem parseCSVLine_reads_quoted_fields (fields : list string) :
  fields <> [] ->
  (forall field, In field fields -> Str.trim field = field) ->
  parseCSVLine (csvLine fields) = fields.
Proof.
  intros Hne Htrim. unfold parseCSVLine.
  apply (parseCSVLineFrom_csvLine fields [] Hne Htrim).
Qed.

Lemma split_not_nil (sep : ascii) (s : string) : Str.split sep s <> [].
Proof.
  destruct s as [|c s]; cbn [Str.split]; [discriminate|].
  destruct (Ascii.eqb c sep); [discriminate|].
  destruct (Str.split sep s); discriminate.
Qed.

Lemma parseCSVLineFrom_unquoted (line : string) : forall result current,
  occurs quote line = false ->
  parseCSVLineFrom line result current false
  = (result ++ map Str.trim (prepend current (Str.split "," line)))%list.
Proof.
  induction line as [|c line IH]; intros result current Hq.
  - cbn [parseCSVLineFrom Str.split prepend map]. rewrite append_nil_r. reflexivity.
  - cbn [occurs] in Hq. apply orb_false_iff in Hq as [Hc Hq].
    cbn [Str.split]. destruct (Ascii.eqb c ",") eqn:Hcomma.
    + apply Ascii.eqb_eq in Hcomma. subst c.
      rewrite parseCSVLineFrom_comma, IH by assumption.
      cbn [prepend map]. rewrite append_nil_r, <- app_assoc.
      destruct (Str.split "," line) as [|piece pieces] eqn:Hs;
        [apply split_not_nil in Hs; contradiction|].
      reflexivity.
    + rewrite parseCSVLineFrom_plain by (rewrite ?Hcomma; auto).
      rewrite IH by assumption.
      destruct (Str.split "," line) as [|piece pieces] eqn:Hs;
        [apply split_not_nil in Hs; contradiction|].
      cbn [prepend]. rewrite append_assoc. reflexivity.
Qed.

(** A line without a quote is cut at its commas, and each piece trimmed. *)
Theorem parseCSVLine_splits_at_commas (line : string) :
  occurs quote line = false ->
  parseCSVLine line = map Str.trim (Str.split "," line).
Proof.
  intros Hq. unfold parseCSVLine. rewrite parseCSVLineFrom_unquoted by assumption.
  destruct (Str.split "," line) as [|piece pieces] eqn:Hs;
    [apply split_not_nil in Hs; contradiction|].
  reflexivity.
Qed.

End CsvLines.

Section CsvText.
Local Open Scope string_scope.

Lemma parseCSVLineFrom_inside (line : string) : forall result current,
  occurs quote line = false ->
  parseCSVLineFrom line result current true
  = (result ++ [Str.trim (current ++ line)])%list.
Proof.
  induction line as [|c line IH]; intros result current Hq.
  - cbn [parseCSVLineFrom]. rewrite append_nil_r. reflexivity.
  - cbn [occurs] in Hq. apply orb_false_iff in Hq as [Hc Hq].
    rewrite parseCSVLineFrom_plain by (rewrite ?andb_false_r; auto).
    rewrite IH by assumption. rewrite append_assoc. reflexivity.
Qed.

(** A quote that is never closed takes the rest of the line into one
    field: the commas after it cut nothing. *)
Theorem parseCSVLine_unclosed_quote (before after : string) :
  occurs quote before = false -> occurs "," before = false ->
  occurs quote after = false ->
  parseCSVLine (before ++ String quote after) = [Str.trim (before ++ after)].
Proof.
  intros Hq Hc Ha. unfold parseCSVLine.
  assert (H : forall current,
            parseCSVLineFrom (before ++ String quote after) [] current false
            = [Str.trim (current ++ before ++ after)]).
  { induction before as [|c before IH]; intros current.
    - cbn [append]. rewrite parseCSVLineFrom_open.
      apply (parseCSVLineFrom_inside after [] current Ha).
    - cbn [occurs] in Hq, Hc.
      apply orb_false_iff in Hq as [Hq1 Hq2]. apply orb_false_iff in Hc as [Hc1 Hc2].
      cbn [append]. rewrite parseCSVLineFrom_plain by (rewrite ?Hc1; auto).
      rewrite (IH Hq2 Hc2). rewrite append_assoc. reflexivity. }
  apply H.
Qed.

(** *** [trim] *)

Lemma trimRight_head (c : ascii) (s : string) :
  Str.isWhiteSpace c = false ->
  exists r, Str.trimRight (String c s) = String c r.
Proof.
  intros Hc. cbn [Str.trimRight]. destruct (Str.trimRight s).
  - rewrite Hc. eauto.
  - eauto.
Qed.

Lemma trimLeft_head (s : string) :
  Str.trimLeft s = "" \/
  exists c r, Str.trimLeft s = String c r /\ Str.isWhiteSpace c = false.
Proof.
  induction s as [|c s IH]; cbn [Str.trimLeft]; [left; reflexivity|].
  destruct (Str.isWhiteSpace c) eqn:Hc; [exact IH|]. right. eauto.
Qed.

(** A trimmed string is empty or starts with a character that is not
    white space. *)
Lemma trim_head (s : string) :
  Str.trim s = "" \/
  exists c r, Str.trim s = String c r /\ Str.isWhiteSpace c = false.
Proof.
  unfold Str.trim. destruct (trimLeft_head s) as [->|(c & r & -> & Hc)].
  - left. reflexivity.
  - right. destruct (trimRight_head c r Hc) as [r' ->]. eauto.
Qed.

Lemma trimLeft_fixed (c : ascii) (s : string) :
  Str.isWhiteSpace c = false -> Str.trimLeft (String c s) = String c s.
Proof. intros Hc. cbn [Str.trimLeft]. rewrite Hc. reflexivity. Qed.

Lemma trimRight_idempotent (s : string) :
  Str.trimRight (Str.trimRight s) = Str.trimRight s.
Proof.
  induction s as [|c s IH]; cbn [Str.trimRight]; [reflexivity|].
  destruct (Str.trimRight s) as [|c' r'] eqn:Hs.
  - destruct (Str.isWhiteSpace c) eqn:Hc; cbn [Str.trimRight]; rewrite ?Hc; reflexivity.
  - cbn [Str.trimRight]. cbn [Str.trimRight] in IH.
    destruct (Str.trimRight r') as [|c'' r''] eqn:Hr'.
    + destruct (Str.isWhiteSpace c'); [discriminate|]. congruence.
    + rewrite IH. reflexivity.
Qed.

Lemma trim_idempotent (s : string) : Str.trim (Str.trim s) = Str.trim s.
Proof.
  destruct (trim_head s) as [H|(c & r & H & Hc)]; rewrite H.
  - reflexivity.
  - unfold Str.trim at 1. rewrite trimLeft_fixed by assumption.
    rewrite <- H. unfold Str.trim. apply trimRight_idempotent.
Qed.

Lemma trim_nonempty (c : ascii) (s : string) :
  Str.isWhiteSpace c = false -> Str.trim (String c s) <> "".
Proof.
  intros Hc. unfold Str.trim. rewrite trimLeft_fixed by assumption.
  destruct (trimRight_head c s Hc) as [r ->]. discriminate.
Qed.

(** *** The lines of a text *)

Lemma split_head (c : ascii) (s : string) :
  Ascii.eqb c lineFeed = false ->
  exists piece pieces, Str.split lineFeed (String c s) = String c piece :: pieces.
Proof.
  intros Hc. cbn [Str.split]. rewrite Hc.
  destruct (Str.split lineFeed s); eauto.
Qed.

(** A text that is not blank has a line that is not blank. *)
Lemma lines_of_text (text : string) :
  Str.trim text <> "" ->
  filter notBlank (Str.split lineFeed (Str.trim text)) <> [].
Proof.
  intros Hne. destruct (trim_head text) as [H|(c & r & H & Hc)]; [contradiction|].
  rewrite H.
  assert (Hnl : Ascii.eqb c lineFeed = false).
  { destruct (Ascii.eqb c lineFeed) eqn:Hnl; [|reflexivity].
    apply Ascii.eqb_eq in Hnl. subst c. discriminate. }
  destruct (split_head c r Hnl) as (piece & pieces & ->).
  cbn [filter]. unfold notBlank at 1.
  destruct (String.eqb_spec (Str.trim (String c piece)) "") as [He|_].
  - apply trim_nonempty in He; [contradiction|assumption].
  - discriminate.
Qed.

(** [parseCSV] refuses a text as empty exactly when the text is blank:
    nothing in it but white space and line ends. *)
Theorem parseCSV_empty_file (text : string) :
  (ComprehensiveDataAnalyzer.parseCSV text = Throw (Error "Empty CSV file")
   <-> Str.trim text = "")
  /\ (DataAnalyzer.parseCSV text = Throw (Error "Empty CSV file")
      <-> Str.trim text = "").
Proof.
  assert (H : forall noRows, noRows <> "Empty CSV file" ->
            (parseCSVWith noRows text = Throw (Error "Empty CSV file")
             <-> Str.trim text = "")).
  { intros noRows Hmsg. unfold parseCSVWith. split.
    - intros Hthrow.
      destruct (String.eqb_spec (Str.trim text) "") as [He|Hne]; [exact He|].
      apply lines_of_text in Hne. unfold notBlank, lineFeed in Hne.
      destruct (filter _ _) as [|first rest]; [congruence|].
      destruct (fold_left _ rest []); [|discriminate].
      injection Hthrow as Hthrow. congruence.
    - intros ->. reflexivity. }
  split; apply H; discriminate.
Qed.

End CsvText.

(* ================================================================= *)
(** ** Objects used as maps *)

Section ObjectFacts.
Local Open Scope string_scope.

Lemma mem_keys {V W} (o : Obj.t V) (o' : Obj.t W) (k : string) :
  Obj.keys o = Obj.keys o' -> Obj.mem o k = Obj.mem o' k.
Proof.
  revert o'. induction o as [|[k1 v1] o IH]; intros [|[k2 v2] o'] H;
    try discriminate; [reflexivity|].
  cbn in H. injection H as -> H. cbn [Obj.mem]. rewrite (IH o' H). reflexivity.
Qed.

Lemma replace_keys {V} (o : Obj.t V) (k : string) (v : V) :
  Obj.keys (Obj.replace o k v) = Obj.keys o.
Proof.
  induction o as [|[k1 v1] o IH]; cbn [Obj.replace]; [reflexivity|].
  destruct (String.eqb k1 k); [reflexivity|].
  unfold Obj.keys in *. cbn [map fst]. rewrite IH. reflexivity.
Qed.

Lemma insert_keys {V W} (o : Obj.t V) (o' : Obj.t W) (k : string) (v : V) (w : W) :
  Obj.keys o = Obj.keys o' ->
  Obj.keys (Obj.insert o k v) = Obj.keys (Obj.insert o' k w).
Proof.
  revert o'. induction o as [|[k1 v1] o IH]; intros [|[k2 v2] o'] H;
    try discriminate; [reflexivity|].
  cbn in H. injection H as -> H. cbn [Obj.insert].
  destruct (Obj.precedes k k2).
  - unfold Obj.keys in *. cbn [map fst]. rewrite H. reflexivity.
  - unfold Obj.keys in *. cbn [map fst]. f_equal. apply IH, H.
Qed.

(** The keys of an object after an assignment depend on its keys and on
    the key assigned, not on the values. *)
Lemma set_keys {V W} (o : Obj.t V) (o' : Obj.t W) (k : string) (v : V) (w : W) :
  Obj.keys o = Obj.keys o' ->
  Obj.keys (Obj.set o k v) = Obj.keys (Obj.set o' k w).
Proof.
  intros H. unfold Obj.set. destruct (String.eqb k "__proto__"); [exact H|].
  rewrite (mem_keys o o' k H). destruct (Obj.mem o' k).
  - rewrite !replace_keys. exact H.
  - apply insert_keys, H.
Qed.

Lemma replace_In {V} (o : Obj.t V) (k : string) (v : V) (k' : string) (v' : V) :
  In (k', v') (Obj.replace o k v) -> In (k', v') o \/ v' = v.
Proof.
  induction o as [|[k1 v1] o IH]; cbn [Obj.replace]; [tauto|].
  destruct (String.eqb k1 k).
  - intros [[= <- <-]|H]; [right; reflexivity|left; right; exact H].
  - intros [H|H]; [left; left; exact H|].
    destruct (IH H); [left; right; assumption|right; assumption].
Qed.

Lemma insert_In {V} (o : Obj.t V) (k : string) (v : V) (k' : string) (v' : V) :
  In (k', v') (Obj.insert o k v) -> In (k', v') o \/ v' = v.
Proof.
  induction o as [|[k1 v1] o IH]; cbn [Obj.insert].
  - intros [[= <- <-]|[]]. right. reflexivity.
  - destruct (Obj.precedes k k1).
    + intros [[= <- <-]|H]; [right; reflexivity|left; exact H].
    + intros [H|H]; [left; left; exact H|].
      destruct (IH H); [left; right; assumption|right; assumption].
Qed.

(** An assignment adds no value but the one assigned. *)
Lemma set_In {V} (o : Obj.t V) (k : string) (v : V) (k' : string) (v' : V) :
  In (k', v') (Obj.set o k v) -> In (k', v') o \/ v' = v.
Proof.
  unfold Obj.set. destruct (String.eqb k "__proto__"); [tauto|].
  destruct (Obj.mem o k); [apply replace_In|apply insert_In].
Qed.

End ObjectFacts.

Section CsvRows.
Local Open Scope string_scope.

(** The fields [parseCSVLine] returns are trimmed. *)
Lemma parseCSVLineFrom_trimmed (n : nat) : forall line result current inQuotes,
  (String.length line <= n)%nat ->
  Forall (fun field => Str.trim field = field) result ->
  Forall (fun field => Str.trim field = field)
         (parseCSVLineFrom line result current inQuotes).
Proof.
  assert (Hpush : forall result current,
            Forall (fun field => Str.trim field = field) result ->
            Forall (fun field => Str.trim field = field)
                   (result ++ [Str.trim current])).
  { intros result current H. apply Forall_app. split; [exact H|].
    repeat constructor. apply trim_idempotent. }
  induction n as [|n IH]; intros line result current inQuotes Hlen Hres.
  - destruct line; [|cbn in Hlen; lia]. cbn [parseCSVLineFrom]. apply Hpush, Hres.
  - destruct line as [|c rest]; [cbn [parseCSVLineFrom]; apply Hpush, Hres|].
    cbn [String.length] in Hlen. cbn [parseCSVLineFrom].
    destruct rest as [|c' rest'].
    + destruct (Ascii.eqb c quote); [apply IH; [cbn; lia|assumption]|].
      destruct (Ascii.eqb c "," && negb inQuotes);
        apply IH; try (cbn; lia); auto.
    + cbn [String.length] in Hlen.
      destruct (Ascii.eqb c quote && inQuotes && Ascii.eqb c' quote);
        [apply IH; [lia|assumption]|].
      destruct (Ascii.eqb c quote); [apply IH; [cbn; lia|assumption]|].
      destruct (Ascii.eqb c "," && negb inQuotes);
        apply IH; try (cbn [String.length]; lia); auto.
Qed.

Lemma parseCSVLine_trimmed (line : string) :
  Forall (fun field => Str.trim field = field) (parseCSVLine line).
Proof.
  apply (parseCSVLineFrom_trimmed (String.length line)); [lia|constructor].
Qed.

Lemma csvRow_fold (headers values : list string) : forall row index,
  (forall k v, In (k, v) row -> exists s, v = CStr s /\ Str.trim s = s) ->
  Forall (fun field => Str.trim field = field) values ->
  forall k v,
    In (k, v) (fst (fold_left (fun '(row, index) header =>
                                 (Obj.set row header (CStr (nth index values "")),
                                  S index))
                              headers (row, index))) ->
    exists s, v = CStr s /\ Str.trim s = s.
Proof.
  induction headers as [|header headers IH]; intros row index Hrow Hvalues k v;
    cbn [fold_left fst]; [apply Hrow|].
  apply IH; [|assumption].
  intros k' v' [Hin| ->]%set_In; [eapply Hrow, Hin|].
  eexists. split; [reflexivity|].
  destruct (nth_in_or_default index values "") as [Hn| ->]; [|reflexivity].
  rewrite Forall_forall in Hvalues. apply Hvalues, Hn.
Qed.

Lemma csvRow_keys_fold (headers values values' : list string) : forall row row' index,
  Obj.keys row = Obj.keys row' ->
  Obj.keys (fst (fold_left (fun '(row, index) header =>
                              (Obj.set row header (CStr (nth index values "")),
                               S index))
                           headers (row, index)))
  = Obj.keys (fst (fold_left (fun '(row, index) header =>
                                (Obj.set row header (CStr (nth index values' "")),
                                 S index))
                             headers (row', index))).
Proof.
  induction headers as [|header headers IH]; intros row row' index H;
    cbn [fold_left fst]; [exact H|].
  apply IH. apply set_keys, H.
Qed.

(** The rows of a file have the keys its header gives them, whatever the
    line. *)
Lemma csvRow_keys (headers values values' : list string) :
  Object_keys (csvRow headers values) = Object_keys (csvRow headers values').
Proof. apply (csvRow_keys_fold headers values values' [] [] 0 eq_refl). Qed.

Lemma parseCSVWith_rows (noRows text : string) (rows : table) :
  parseCSVWith noRows text = Ok rows ->
  rows <> []
  /\ exists headers,
       forall row, In row rows ->
         (exists values, Forall (fun field => Str.trim field = field) values
                         /\ row = csvRow headers values).
Proof.
  unfold parseCSVWith. destruct (filter _ _) as [|first rest]; [discriminate|].
  set (headers := parseCSVLine first).
  assert (H : forall lines data,
            (forall row, In row data ->
               exists values, Forall (fun field => Str.trim field = field) values
                              /\ row = csvRow headers values) ->
            forall row,
              In row (fold_left (fun data line =>
                        let values := parseCSVLine line in
                        if negb (List.length values =? List.length headers)%nat
                        then data else (data ++ [csvRow headers values])%list)
                      lines data) ->
              exists values, Forall (fun field => Str.trim field = field) values
                             /\ row = csvRow headers values).
  { induction lines as [|line lines IH]; intros data Hdata; cbn [fold_left];
      [exact Hdata|].
    apply IH. cbv zeta.
    destruct (negb _); [exact Hdata|].
    intros row [Hin|[<-|[]]]%in_app_or; [apply Hdata, Hin|].
    exists (parseCSVLine line). split; [apply parseCSVLine_trimmed|reflexivity]. }
  specialize (H rest [] (fun row (Hin : In row []) => match Hin with end)).
  cbv zeta in H.
  destruct (fold_left _ rest []) as [|row0 data]; [discriminate|].
  intros [= <-]. split; [discriminate|]. exists headers. exact H.
Qed.

(** What [parseCSV] returns: at least one row; rows with the same keys in
    the same order; cells that are strings without white space around
    them. *)
Theorem parseCSV_rows (text : string) (rows : table) :
  ComprehensiveDataAnalyzer.parseCSV text = Ok rows
  \/ DataAnalyzer.parseCSV text = Ok rows ->
  rows <> []
  /\ (forall row row', In row rows -> In row' rows ->
        Object_keys row = Object_keys row')
  /\ (forall row k v, In row rows -> In (k, v) row ->
        exists s, v = CStr s /\ Str.trim s = s).
Proof.
  intros H.
  assert (Hrows : exists noRows, parseCSVWith noRows text = Ok rows)
    by (destruct H as [H|H]; eexists; exact H).
  destruct Hrows as [noRows Hrows].
  destruct (parseCSVWith_rows noRows text rows Hrows) as (Hne & headers & Hall).
  split; [exact Hne|]. split.
  - intros row row' Hrow Hrow'.
    destruct (Hall row Hrow) as (values & _ & ->).
    destruct (Hall row' Hrow') as (values' & _ & ->).
    apply csvRow_keys.
  - intros row k v Hrow Hin.
    destruct (Hall row Hrow) as (values & Hvalues & ->).
    unfold csvRow in Hin.
    apply (csvRow_fold headers values [] 0) in Hin; [exact Hin| |exact Hvalues].
    intros k' v' [].
Qed.

End CsvRows.

Section CsvExamples.
Local Open Scope string_scope.
Local Open Scope list_scope.
Local Open Scope float_scope.

(** Three fields, one with a comma and one with quotes, are read back as
    written. *)
Lemma parseCSVLine_reads_quoted_fields_witness :
  Examples.quotedFields <> []
  /\ (forall field, In field Examples.quotedFields -> Str.trim field = field)
  /\ parseCSVLine (csvLine Examples.quotedFields) = Examples.quotedFields.
Proof.
  assert (H1 : Examples.quotedFields <> []) by discriminate.
  assert (H2 : forall field, In field Examples.quotedFields -> Str.trim field = field).
  { intros field [<-|[<-|[<-|[]]]]; reflexivity. }
  split; [exact H1|]. split; [exact H2|].
  exact (parseCSVLine_reads_quoted_fields Examples.quotedFields H1 H2).
Defined.

(** A line without quotes gives its trimmed pieces. *)
Lemma parseCSVLine_splits_at_commas_witness :
  occurs quote Examples.plainLine = false
  /\ parseCSVLine Examples.plainLine
     = map Str.trim (Str.split "," Examples.plainLine).
Proof.
  split; [reflexivity|].
  exact (parseCSVLine_splits_at_commas Examples.plainLine eq_refl).
Defined.

(** After [a] an open quote takes [b,c] into the same field. *)
Lemma parseCSVLine_unclosed_quote_witness :
  parseCSVLine ("a" ++ String quote "b,c")%string = [Str.trim ("a" ++ "b,c")%string].
Proof.
  exact (parseCSVLine_unclosed_quote "a" "b,c" eq_refl eq_refl eq_refl).
Defined.

(** A header and two lines of data give two rows of the same keys. *)
Lemma parseCSV_rows_witness :
  exists rows,
    ComprehensiveDataAnalyzer.parseCSV Examples.adsCsv = Ok rows
    /\ List.length rows = 2%nat
    /\ rows <> []
    /\ (forall row row', In row rows -> In row' rows ->
          Object_keys row = Object_keys row')
    /\ (forall row k v, In row rows -> In (k, v) row ->
          exists s, v = CStr s /\ Str.trim s = s).
Proof.
  destruct (ComprehensiveDataAnalyzer.parseCSV Examples.adsCsv) as [rows|e] eqn:Hrows;
    [|vm_compute in Hrows; discriminate].
  exists rows. split; [reflexivity|]. split.
  { vm_compute in Hrows. injection Hrows as <-. reflexivity. }
  exact (parseCSV_rows Examples.adsCsv rows (or_introl Hrows)).
Defined.

End CsvExamples.


Section ObjectLookup.
Local Open Scope string_scope.

Lemma get_replace {V} (o : Obj.t V) (k k' : string) (v : V) :
  Obj.mem o k = true ->
  Obj.get (Obj.replace o k v) k' = if String.eqb k k' then Some v else Obj.get o k'.
Proof.
  induction o as [|[k1 v1] o IH]; cbn [Obj.mem Obj.replace Obj.get]; [discriminate|].
  destruct (String.eqb_spec k1 k) as [->|Hne]; cbn [orb].
  - intros _. cbn [Obj.get]. destruct (String.eqb k k'); reflexivity.
  - intros Hmem. cbn [Obj.get]. rewrite (IH Hmem).
    destruct (String.eqb_spec k1 k') as [->|Hne'].
    + destruct (String.eqb_spec k k'); [congruence|reflexivity].
    + reflexivity.
Qed.

Lemma get_absent {V} (o : Obj.t V) (k : string) :
  Obj.mem o k = false -> Obj.get o k = None.
Proof.
  induction o as [|[k1 v1] o IH]; cbn [Obj.mem Obj.get]; [reflexivity|].
  destruct (String.eqb k1 k); cbn [orb]; [discriminate|exact IH].
Qed.

Lemma get_insert {V} (o : Obj.t V) (k k' : string) (v : V) :
  Obj.mem o k = false ->
  Obj.get (Obj.insert o k v) k' = if String.eqb k k' then Some v else Obj.get o k'.
Proof.
  induction o as [|[k1 v1] o IH]; cbn [Obj.mem Obj.insert Obj.get]; [reflexivity|].
  destruct (String.eqb_spec k1 k) as [->|Hne]; cbn [orb]; [discriminate|].
  intros Hmem. destruct (Obj.precedes k k1); cbn [Obj.get]; [reflexivity|].
  rewrite (IH Hmem).
  destruct (String.eqb_spec k1 k') as [->|Hne'].
  - destruct (String.eqb_spec k k'); [congruence|reflexivity].
  - reflexivity.
Qed.

(** Reading a property after an assignment: the value assigned under the
    key assigned, the old value under another key. *)
Lemma get_set {V} (o : Obj.t V) (k k' : string) (v : V) :
  k <> "__proto__" ->
  Obj.get (Obj.set o k v) k' = if String.eqb k k' then Some v else Obj.get o k'.
Proof.
  intros Hk. unfold Obj.set.
  destruct (String.eqb_spec k "__proto__"); [contradiction|].
  destruct (Obj.mem o k) eqn:Hmem; [apply get_replace|apply get_insert]; assumption.
Qed.

End ObjectLookup.

Section Groups.
Context {E : Engine}.
Import ComprehensiveDataAnalyzer.
Local Open Scope string_scope.

Lemma membersOf_snoc (column key : string) (done : table) (r : row) :
  membersOf column key (done ++ [r])%list
  = if String.eqb (ToString (getProp r column)) key
    then Some (match membersOf column key done with
               | Some members => (members ++ [r])%list
               | None => [r]
               end)
    else membersOf column key done.
Proof.
  unfold membersOf. rewrite filter_app. cbn [filter].
  destruct (String.eqb (ToString (getProp r column)) key).
  - destruct (filter _ done); reflexivity.
  - rewrite app_nil_r. reflexivity.
Qed.

Lemma inherited_proto (key : string) :
  existsb (String.eqb key) Obj.inherited = false -> key <> "__proto__".
Proof. intros H ->. discriminate. Qed.

Lemma groupStep_members (column : string) (done : table) (groups groups' : Obj.t (list row))
    (r : row) :
  (forall key, Obj.get groups key = membersOf column key done) ->
  Forall (fun r => existsb (String.eqb (ToString (getProp r column))) Obj.inherited
                   = false) done ->
  groupStep column groups r = Ok groups' ->
  (forall key, Obj.get groups' key = membersOf column key (done ++ [r])%list)
  /\ existsb (String.eqb (ToString (getProp r column))) Obj.inherited = false.
Proof.
  intros Hget Hdone. unfold groupStep.
  set (k0 := ToString (getProp r column)).
  destruct (Obj.get groups k0) as [members|] eqn:Hk0.
  - assert (Hin : existsb (String.eqb k0) Obj.inherited = false).
    { rewrite Hget in Hk0. unfold membersOf in Hk0.
      destruct (filter _ done) as [|r1 rs] eqn:Hf; [discriminate|].
      assert (H1 : In r1 (filter (fun r => String.eqb (ToString (getProp r column)) k0)
                            done)) by (rewrite Hf; left; reflexivity).
      apply filter_In in H1 as [H1 Hkey]. apply String.eqb_eq in Hkey.
      rewrite Forall_forall in Hdone. rewrite <- Hkey. apply Hdone, H1. }
    intros [= <-]. split; [|exact Hin].
    intros key. rewrite get_set by (apply inherited_proto, Hin).
    rewrite membersOf_snoc. fold k0.
    destruct (String.eqb_spec k0 key) as [<-|Hne]; [|apply Hget].
    rewrite <- Hget, Hk0. reflexivity.
  - destruct (existsb (String.eqb k0) Obj.inherited) eqn:Hin; [discriminate|].
    intros [= <-]. split; [|reflexivity].
    intros key. rewrite get_set by (apply inherited_proto, Hin).
    rewrite membersOf_snoc. fold k0.
    destruct (String.eqb_spec k0 key) as [<-|Hne]; [|apply Hget].
    rewrite <- Hget, Hk0. reflexivity.
Qed.

Lemma groupLoop_members (column : string) (todo : table) :
  forall (done : table) (groups groups' : Obj.t (list row)),
  (forall key, Obj.get groups key = membersOf column key done) ->
  Forall (fun r => existsb (String.eqb (ToString (getProp r column))) Obj.inherited
                   = false) done ->
  forEachM (groupStep column) todo groups = Ok groups' ->
  (forall key, Obj.get groups' key = membersOf column key (done ++ todo)%list)
  /\ Forall (fun r => existsb (String.eqb (ToString (getProp r column))) Obj.inherited
                      = false) (done ++ todo)%list.
Proof.
  induction todo as [|r todo IH]; intros done groups groups' Hget Hdone; cbn [forEachM].
  - intros [= <-]. rewrite app_nil_r. split; assumption.
  - destruct (groupStep column groups r) as [groups1|e] eqn:Hstep; cbn [bind];
      [|discriminate].
    destruct (groupStep_members column done groups groups1 r Hget Hdone Hstep)
      as [Hget1 Hr].
    intros Hloop.
    replace (done ++ r :: todo)%list with ((done ++ [r]) ++ todo)%list
      by (rewrite <- app_assoc; reflexivity).
    apply (IH (done ++ [r])%list groups1 groups' Hget1); [|exact Hloop].
    apply Forall_app. split; [exact Hdone|]. repeat constructor. exact Hr.
Qed.

Lemma groupBy_loop (this : analyzer) (column : string) (rows : table) :
  data this = Some rows ->
  groupBy this column = forEachM (groupStep column) rows [].
Proof. intros H. unfold groupBy, getData. rewrite H. reflexivity. Qed.

(** [groupBy] gathers under each key the rows whose cell reads as the key,
    in the order of the table, and makes no other group.  The column is
    one whose name no object inherits, so that [row[column]] is the cell
    of the row. *)
Theorem groupBy_members (this : analyzer) (column : string) (rows : table)
    (groups : Obj.t (list row)) :
  ~ In column Obj.inherited ->
  data this = Some rows ->
  groupBy this column = Ok groups ->
  forall key, Obj.get groups key = membersOf column key rows.
Proof.
  intros _ Hdata. rewrite (groupBy_loop this column rows Hdata). intros Hloop key.
  apply (groupLoop_members column rows [] [] groups); auto.
Qed.

Lemma groupLoop_throws (column : string) (todo : table) :
  forall (done : table) (groups : Obj.t (list row)),
  (forall key, Obj.get groups key = membersOf column key done) ->
  Forall (fun r => existsb (String.eqb (ToString (getProp r column))) Obj.inherited
                   = false) done ->
  Exists (fun r => existsb (String.eqb (ToString (getProp r column))) Obj.inherited
                   = true) todo ->
  forEachM (groupStep column) todo groups
  = Throw (TypeError "groups[key].push is not a function").
Proof.
  induction todo as [|r todo IH]; intros done groups Hget Hdone Hex; cbn [forEachM];
    [inversion Hex|].
  destruct (groupStep column groups r) as [groups1|e] eqn:Hstep; cbn [bind].
  - destruct (groupStep_members column done groups groups1 r Hget Hdone Hstep)
      as [Hget1 Hr].
    apply (IH (done ++ [r])%list); [exact Hget1| |].
    + apply Forall_app. split; [exact Hdone|]. repeat constructor. exact Hr.
    + inversion Hex as [? ? Hhere|? ? Hlater]; subst; [congruence|exact Hlater].
  - unfold groupStep in Hstep.
    destruct (Obj.get groups _); [discriminate|].
    destruct (existsb _ Obj.inherited); [|discriminate].
    congruence.
Qed.

Lemma groupLoop_returns (column : string) (todo : table) :
  forall (groups : Obj.t (list row)),
  Forall (fun r => existsb (String.eqb (ToString (getProp r column))) Obj.inherited
                   = false) todo ->
  exists groups', forEachM (groupStep column) todo groups = Ok groups'.
Proof.
  induction todo as [|r todo IH]; intros groups Hall; cbn [forEachM]; [eauto|].
  inversion Hall as [|? ? Hr Hall']; subst.
  unfold groupStep at 1. destruct (Obj.get groups _); cbn [bind].
  - apply IH, Hall'.
  - rewrite Hr. cbn [bind]. apply IH, Hall'.
Qed.

(** [groupBy] fails on a cell that reads as the name of a property every
    object inherits ([constructor], [toString], ...): the group it finds
    there is no array.  On any other table it returns. *)
Theorem groupBy_inherited_key (this : analyzer) (column : string) (rows : table) :
  ~ In column Obj.inherited ->
  data this = Some rows ->
  (Exists (fun r => In (ToString (getProp r column)) Obj.inherited) rows ->
   groupBy this column = Throw (TypeError "groups[key].push is not a function"))
  /\ (Forall (fun r => ~ In (ToString (getProp r column)) Obj.inherited) rows ->
      exists groups, groupBy this column = Ok groups).
Proof.
  intros _ Hdata. rewrite (groupBy_loop this column rows Hdata).
  assert (Hin : forall key, existsb (String.eqb key) Obj.inherited = true
                            <-> In key Obj.inherited).
  { intros key. rewrite existsb_exists. split.
    - intros (k & Hk & ->%String.eqb_eq). exact Hk.
    - intros Hk. exists key. split; [exact Hk|apply String.eqb_refl]. }
  split.
  - intros Hex. apply (groupLoop_throws column rows [] []); [reflexivity|constructor|].
    eapply Exists_impl; [|exact Hex]. intros r Hr. apply Hin, Hr.
  - intros Hall. apply groupLoop_returns.
    eapply Forall_impl; [|exact Hall]. intros r Hr. cbv beta in Hr.
    destruct (existsb _ Obj.inherited) eqn:He; [|reflexivity].
    apply Hin in He. contradiction.
Qed.

End Groups.

Section GroupExamples.
Local Open Scope string_scope.
Local Open Scope list_scope.
Local Open Scope float_scope.

(** A name checked against the list of inherited names. *)
Lemma not_inherited (column : string) :
  existsb (String.eqb column) Obj.inherited = false -> ~ In column Obj.inherited.
Proof.
  intros H Hin. assert (Hex : existsb (String.eqb column) Obj.inherited = true).
  { apply existsb_exists. exists column. split; [exact Hin|apply String.eqb_refl]. }
  congruence.
Qed.

(** The table [genders] falls into the groups [M] and [F], in the order in
    which the keys first occur. *)
Lemma groupBy_members_witness :
  exists groups,
    ComprehensiveDataAnalyzer.groupBy
      (ComprehensiveDataAnalyzer.load ComprehensiveDataAnalyzer.constructor
         Examples.genders) "gender" = Ok groups
    /\ Obj.keys groups = ["M"; "F"]%string
    /\ forall key, Obj.get groups key = membersOf "gender" key Examples.genders.
Proof.
  destruct (ComprehensiveDataAnalyzer.groupBy
              (ComprehensiveDataAnalyzer.load ComprehensiveDataAnalyzer.constructor
                 Examples.genders) "gender") as [groups|e] eqn:Hgroups;
    [|vm_compute in Hgroups; discriminate].
  exists groups. split; [reflexivity|]. split.
  { vm_compute in Hgroups. injection Hgroups as <-. reflexivity. }
  exact (@groupBy_members refEngine
           (ComprehensiveDataAnalyzer.load ComprehensiveDataAnalyzer.constructor
              Examples.genders)
           "gender"%string Examples.genders groups
           (not_inherited "gender" eq_refl) eq_refl Hgroups).
Defined.

(** A category named [constructor] stops [groupBy]. *)
Lemma groupBy_inherited_key_witness :
  ComprehensiveDataAnalyzer.groupBy
    (ComprehensiveDataAnalyzer.load ComprehensiveDataAnalyzer.constructor
       Examples.inheritedSegment) "category"
  = Throw (TypeError "groups[key].push is not a function").
Proof.
  refine (proj1 (@groupBy_inherited_key refEngine
                   (ComprehensiveDataAnalyzer.load ComprehensiveDataAnalyzer.constructor
                      Examples.inheritedSegment)
                   "category"%string Examples.inheritedSegment
                   (not_inherited "category" eq_refl) eq_refl) _).
  apply Exists_cons_tl. apply Exists_cons_hd. cbn. tauto.
Defined.

End GroupExamples.


(* ================================================================= *)
(** ** Correlations and the order of the columns *)

Section Symmetry.
Context {E : Engine}.
Local Open Scope float_scope.

Lemma mul_comm (a b : float) : a * b = b * a.
Proof.
  apply Prim2SF_inj. rewrite !FloatAxioms.mul_spec. unfold SF64mul.
  destruct (Prim2SF a) as [sa|sa| |sa ma ea], (Prim2SF b) as [sb|sb| |sb mb eb];
    cbn [SFmul]; rewrite ?(xorb_comm sb sa); try reflexivity.
  rewrite (Pos.mul_comm mb ma), (Z.add_comm eb ea). reflexivity.
Qed.

Lemma correlationPairs_swap (rows : table) (col1 col2 : string) :
  correlationPairs rows col2 col1 = map swap (correlationPairs rows col1 col2).
Proof.
  unfold correlationPairs.
  induction rows as [|row rows IH]; cbn [map filter]; [reflexivity|].
  cbn [x y]. rewrite (andb_comm (negb (Js.isNaN (parseFloat (getProp row col2))))).
  destruct (negb _ && negb _); cbn [map]; rewrite IH; reflexivity.
Qed.

Lemma fold_left_same {A B} (f g : A -> B -> A) (l : list B) (a : A) :
  (forall a b, f a b = g a b) -> fold_left f l a = fold_left g l a.
Proof.
  intros H. revert a. induction l as [|b l IH]; intros a; cbn [fold_left];
    [reflexivity|]. rewrite H. apply IH.
Qed.

Lemma pearsonNumerator_swap (pairs : list point) :
  pearsonNumerator (map swap pairs) = pearsonNumerator pairs.
Proof.
  unfold pearsonNumerator. rewrite length_map.
  rewrite <- !fold_left_map. cbn [swap x y].
  rewrite (mul_comm (fold_left (fun sum pair => sum + y pair) pairs 0)).
  f_equal. f_equal. apply fold_left_same. intros a b. rewrite mul_comm. reflexivity.
Qed.

Lemma pearsonDenominator_swap (pairs : list point) :
  pearsonDenominator (map swap pairs) = pearsonDenominator pairs.
Proof.
  unfold pearsonDenominator. rewrite length_map.
  rewrite <- !fold_left_map. cbn [swap x y].
  rewrite mul_comm. reflexivity.
Qed.

(** The coefficient of two columns does not depend on the order in which
    they are given, in either analyzer. *)
Theorem correlation_symmetric (col1 col2 : string) :
  (forall this : ComprehensiveDataAnalyzer.analyzer,
     ComprehensiveDataAnalyzer.calculateCorrelation this col1 col2
     = ComprehensiveDataAnalyzer.calculateCorrelation this col2 col1)
  /\ (forall this : DataAnalyzer.analyzer,
        DataAnalyzer.pearsonCorrelation this col1 col2
        = DataAnalyzer.pearsonCorrelation this col2 col1).
Proof.
  split; intros this.
  - unfold ComprehensiveDataAnalyzer.calculateCorrelation.
    destruct (ComprehensiveDataAnalyzer.getData this) as [rows|e]; cbn [bind];
      [|reflexivity].
    rewrite (correlationPairs_swap rows col1 col2).
    unfold ComprehensiveDataAnalyzer.correlationOf.
    rewrite length_map, pearsonNumerator_swap, pearsonDenominator_swap. reflexivity.
  - unfold DataAnalyzer.pearsonCorrelation.
    destruct (DataAnalyzer.getData this) as [rows|e]; cbn [bind]; [|reflexivity].
    rewrite (correlationPairs_swap rows col1 col2).
    unfold DataAnalyzer.pearsonOf.
    rewrite length_map, pearsonNumerator_swap, pearsonDenominator_swap. reflexivity.
Qed.

End Symmetry.


(* ================================================================= *)
(** ** Quartiles, extremes and outliers *)

Section Quartiles.
Context {E : Engine}.

Import Position NumberOrder.
Import ComprehensiveDataAnalyzer.

Local Open Scope float_scope.

Lemma ge_not_NaN (a b : float) :
  Js.ge a b = true -> Js.isNaN a = false /\ Js.isNaN b = false.
Proof.
  unfold Js.ge. rewrite FloatAxioms.leb_spec, !FloatFacts.isNaN_false. unfold SFleb.
  intros H. split; intros Hn; rewrite Hn in H; [|discriminate].
  destruct (Prim2SF b); discriminate.
Qed.

Lemma min2_position (a b : float) :
  Js.isNaN a = false -> Js.isNaN b = false ->
  Js.isNaN (Js.min2 a b) = false
  /\ position (Js.min2 a b) = Z.min (position a) (position b).
Proof.
  intros Ha Hb. unfold Js.min2. rewrite Ha, Hb.
  change (a <? b) with (Js.lt a b). change (b <? a) with (Js.lt b a).
  rewrite !lt_position by assumption.
  destruct (Z.ltb_spec (position a) (position b)); [split; [assumption|lia]|].
  destruct (Z.ltb_spec (position b) (position a)); [split; [assumption|lia]|].
  destruct (get_sign a); (split; [assumption|lia]).
Qed.

Lemma max2_position (a b : float) :
  Js.isNaN a = false -> Js.isNaN b = false ->
  Js.isNaN (Js.max2 a b) = false
  /\ position (Js.max2 a b) = Z.max (position a) (position b).
Proof.
  intros Ha Hb. unfold Js.max2. rewrite Ha, Hb.
  change (a <? b) with (Js.lt a b). change (b <? a) with (Js.lt b a).
  rewrite !lt_position by assumption.
  destruct (Z.ltb_spec (position a) (position b)); [split; [assumption|lia]|].
  destruct (Z.ltb_spec (position b) (position a)); [split; [assumption|lia]|].
  destruct (get_sign a); (split; [assumption|lia]).
Qed.

Lemma fold_min2_below (values : list float) : forall init,
  Forall (fun v => Js.isNaN v = false) values -> Js.isNaN init = false ->
  Js.isNaN (fold_left Js.min2 values init) = false
  /\ (position (fold_left Js.min2 values init) <= position init)%Z
  /\ forall v, In v values ->
       (position (fold_left Js.min2 values init) <= position v)%Z.
Proof.
  induction values as [|a values IH]; intros init Hvalues Hinit; cbn [fold_left].
  - split; [assumption|]. split; [lia|]. intros v [].
  - inversion Hvalues as [|? ? Ha Hvalues']; subst.
    destruct (min2_position init a Hinit Ha) as [Hn Hp].
    destruct (IH (Js.min2 init a) Hvalues' Hn) as (Hn' & Hle & Hall).
    split; [assumption|]. split; [lia|].
    intros v [<-|Hv]; [lia|apply Hall, Hv].
Qed.

Lemma fold_max2_above (values : list float) : forall init,
  Forall (fun v => Js.isNaN v = false) values -> Js.isNaN init = false ->
  Js.isNaN (fold_left Js.max2 values init) = false
  /\ (position init <= position (fold_left Js.max2 values init))%Z
  /\ forall v, In v values ->
       (position v <= position (fold_left Js.max2 values init))%Z.
Proof.
  induction values as [|a values IH]; intros init Hvalues Hinit; cbn [fold_left].
  - split; [assumption|]. split; [lia|]. intros v [].
  - inversion Hvalues as [|? ? Ha Hvalues']; subst.
    destruct (max2_position init a Hinit Ha) as [Hn Hp].
    destruct (IH (Js.max2 init a) Hvalues' Hn) as (Hn' & Hle & Hall).
    split; [assumption|]. split; [lia|].
    intros v [<-|Hv]; [lia|apply Hall, Hv].
Qed.

(** The quartiles are values of the column. *)
Lemma quartiles_In (values : list float) (st : distributionStats) :
  calculateDistributionStats values = Some st ->
  In (q1 st) values /\ In (q3 st) values.
Proof.
  intros Hst. destruct (quartiles values st Hst) as (Hn & -> & ->).
  split; apply (sort_In (fun a b => a - b)); apply nth_In; rewrite sort_length.
  - apply Nat.Div0.div_lt_upper_bound. lia.
  - apply Nat.Div0.div_lt_upper_bound. lia.
Qed.

Lemma quartiles_in_order (values : list float) (st : distributionStats) :
  Forall (fun v => Js.isNaN v = false) values ->
  calculateDistributionStats values = Some st ->
  (position (q1 st) <= position (q3 st))%Z.
Proof.
  intros Hvalues Hst. destruct (quartiles values st Hst) as (Hn & -> & ->).
  apply sort_by_difference; [assumption| |].
  - apply Nat.Div0.div_le_mono. lia.
  - apply Nat.Div0.div_lt_upper_bound. lia.
Qed.

Lemma extremes (values : list float) (st : distributionStats) :
  calculateDistributionStats values = Some st ->
  min st = Js.Math_min values /\ max st = Js.Math_max values.
Proof.
  unfold calculateDistributionStats. destruct values; [discriminate|].
  intros [= <-]. split; reflexivity.
Qed.

(** The statistics of a column are in order: the minimum is at or below
    the first quartile, the first quartile at or below the third, the
    third at or below the maximum. *)
Theorem quartiles_between_extremes (rows : table) (column : string)
    (st : distributionStats) :
  calculateDistributionStats (columnValues rows column) = Some st ->
  Js.ge (q1 st) (min st) = true
  /\ Js.ge (q3 st) (q1 st) = true
  /\ Js.ge (max st) (q3 st) = true.
Proof.
  intros Hst.
  pose proof (columnValues_not_NaN rows column) as Hvalues.
  destruct (quartiles_In _ st Hst) as [H1 H3].
  pose proof (quartiles_in_order _ st Hvalues Hst) as Horder.
  destruct (extremes _ st Hst) as [-> ->].
  assert (Hinf : Js.isNaN infinity = false) by reflexivity.
  assert (Hninf : Js.isNaN neg_infinity = false) by reflexivity.
  destruct (fold_min2_below _ infinity Hvalues Hinf) as (Hmin & _ & Hbelow).
  destruct (fold_max2_above _ neg_infinity Hvalues Hninf) as (Hmax & _ & Habove).
  assert (Hq1 : Js.isNaN (q1 st) = false)
    by (rewrite Forall_forall in Hvalues; apply Hvalues, H1).
  assert (Hq3 : Js.isNaN (q3 st) = false)
    by (rewrite Forall_forall in Hvalues; apply Hvalues, H3).
  unfold Js.Math_min, Js.Math_max.
  rewrite !ge_position by assumption.
  repeat split; apply Z.leb_le; [apply Hbelow, H1|exact Horder|apply Habove, H3].
Qed.

(** The fences lie outside the quartiles. *)
Lemma fences_around_quartiles (values : list float) (st : distributionStats) :
  Forall (fun v => Js.isNaN v = false) values ->
  calculateDistributionStats values = Some st ->
  (Js.isNaN (lowerBound st) = false ->
   (position (lowerBound st) <= position (q1 st))%Z)
  /\ (Js.isNaN (upperBound st) = false ->
      (position (q3 st) <= position (upperBound st))%Z).
Proof.
  intros Hvalues Hst.
  pose proof (quartiles_in_order values st Hvalues Hst) as Hq.
  unfold lowerBound, upperBound. split; intros Hfence.
  - destruct (sub_not_NaN _ _ Hfence) as [_ Hwidth].
    destruct (mul_not_NaN _ _ Hwidth) as [_ Hiqr].
    pose proof (sub_nonneg _ _ Hiqr Hq) as Hspread.
    pose proof (mul_nonneg _ _ one_and_a_half Hwidth Hspread) as Hmargin.
    apply (sub_down _ _ Hfence Hmargin).
  - destruct (add_not_NaN _ _ Hfence) as [_ Hwidth].
    destruct (mul_not_NaN _ _ Hwidth) as [_ Hiqr].
    pose proof (sub_nonneg _ _ Hiqr Hq) as Hspread.
    pose proof (mul_nonneg _ _ one_and_a_half Hwidth Hspread) as Hmargin.
    apply (add_up _ _ Hfence Hmargin).
Qed.

(** The test of [detectOutliers] fails on a number from the first quartile
    to the third. *)
Lemma within_quartiles_not_flagged (values : list float) (st : distributionStats)
    (v : Js.number) :
  Forall (fun v => Js.isNaN v = false) values ->
  calculateDistributionStats values = Some st ->
  Js.ge v (q1 st) = true -> Js.ge (q3 st) v = true ->
  Js.lt v (lowerBound st) || Js.gt v (upperBound st) = false.
Proof.
  intros Hvalues Hst Hlow Hhigh.
  destruct (fences_around_quartiles _ st Hvalues Hst) as [Hlower Hupper].
  destruct (ge_not_NaN _ _ Hlow) as [Hv Hq1].
  destruct (ge_not_NaN _ _ Hhigh) as [Hq3 _].
  rewrite ge_position in Hlow, Hhigh by assumption.
  apply Z.leb_le in Hlow, Hhigh.
  apply orb_false_iff. split.
  - destruct (Js.lt v (lowerBound st)) eqn:Hlt; [|reflexivity].
    destruct (lt_not_NaN _ _ Hlt) as [_ Hfence].
    rewrite lt_position in Hlt by assumption. apply Z.ltb_lt in Hlt.
    specialize (Hlower Hfence). lia.
  - destruct (Js.gt v (upperBound st)) eqn:Hgt; [|reflexivity].
    destruct (lt_not_NaN _ _ Hgt) as [Hfence _].
    rewrite gt_position in Hgt by assumption. apply Z.ltb_lt in Hgt.
    specialize (Hupper Hfence). lia.
Qed.

(** No number from the first quartile to the third is reported as an
    outlier: the middle half of a column is never flagged. *)
Theorem middle_half_not_outliers (rows : table) (column : string)
    (st : distributionStats) (v : Js.number) :
  calculateDistributionStats (columnValues rows column) = Some st ->
  Js.ge v (q1 st) = true -> Js.ge (q3 st) v = true ->
  ~ In v (detectOutliers (columnValues rows column)).
Proof.
  intros Hst Hlow Hhigh. unfold detectOutliers. rewrite Hst. cbv zeta.
  fold (lowerBound st) (upperBound st).
  intros [_ Hout]%filter_In.
  rewrite (within_quartiles_not_flagged _ st v (columnValues_not_NaN rows column)
             Hst Hlow Hhigh) in Hout.
  discriminate.
Qed.

(** A column of at most three values has no outliers: its quartiles are
    its least and its greatest value. *)
Theorem few_values_no_outliers (rows : table) (column : string) :
  (List.length (columnValues rows column) <= 3)%nat ->
  detectOutliers (columnValues rows column) = [].
Proof.
  intros Hfew. pose proof (columnValues_not_NaN rows column) as Hvalues.
  set (values := columnValues rows column) in *.
  unfold detectOutliers.
  destruct (calculateDistributionStats values) as [st|] eqn:Hst; [|reflexivity].
  cbv zeta. fold (lowerBound st) (upperBound st).
  apply filter_nothing. intros v Hv.
  destruct (quartiles values st Hst) as (Hn & H1 & H3).
  apply (sort_In (fun a b => a - b)) in Hv.
  apply (In_nth _ _ nan) in Hv as (i & Hi & Hnth).
  rewrite sort_length in Hi.
  assert (Hnan : forall k, (k < List.length values)%nat ->
            Js.isNaN (nth k (Js.sort (fun a b => a - b) values) nan) = false).
  { intros k Hk. rewrite Forall_forall in Hvalues. apply Hvalues.
    apply (sort_In (fun a b => a - b)). apply nth_In. rewrite sort_length. exact Hk. }
  unfold Js.number in *.
  assert (Hfirst : (List.length values / 4 = 0)%nat)
    by (apply Nat.div_small; lia).
  assert (Hlast : (3 * List.length values / 4 = List.length values - 1)%nat).
  { destruct (List.length values) as [|[|[|[|n]]]]; try lia; reflexivity. }
  apply (within_quartiles_not_flagged values st v Hvalues Hst).
  - rewrite H1, <- Hnth, Hfirst. rewrite ge_position by (apply Hnan; lia).
    apply Z.leb_le. apply sort_by_difference; [assumption|lia|lia].
  - rewrite H3, <- Hnth, Hlast. rewrite ge_position by (apply Hnan; lia).
    apply Z.leb_le. apply sort_by_difference; [assumption|lia|lia].
Qed.

End Quartiles.

Section QuartileExamples.
Local Open Scope string_scope.
Local Open Scope list_scope.
Local Open Scope float_scope.

(** The statistics of [dailySpend] are -2, 2, 4 and 8, in order. *)
Lemma quartiles_between_extremes_witness :
  exists st,
    ComprehensiveDataAnalyzer.calculateDistributionStats
      (columnValues Examples.dailySpend "spend") = Some st
    /\ (ComprehensiveDataAnalyzer.min st, ComprehensiveDataAnalyzer.q1 st,
        ComprehensiveDataAnalyzer.q3 st, ComprehensiveDataAnalyzer.max st)
       = (-2, 2, 4, 8)
    /\ Js.ge (ComprehensiveDataAnalyzer.q1 st) (ComprehensiveDataAnalyzer.min st) = true
    /\ Js.ge (ComprehensiveDataAnalyzer.q3 st) (ComprehensiveDataAnalyzer.q1 st) = true
    /\ Js.ge (ComprehensiveDataAnalyzer.max st) (ComprehensiveDataAnalyzer.q3 st) = true.
Proof.
  destruct (ComprehensiveDataAnalyzer.calculateDistributionStats
              (columnValues Examples.dailySpend "spend")) as [st|] eqn:Hst;
    [|vm_compute in Hst; discriminate].
  exists st. split; [reflexivity|]. split.
  { vm_compute in Hst. injection Hst as <-. reflexivity. }
  exact (@quartiles_between_extremes refEngine Examples.dailySpend "spend"%string st Hst).
Defined.

(** In [dailySpend] the value 3 lies between the quartiles and is not
    flagged. *)
Lemma middle_half_not_outliers_witness :
  exists st,
    ComprehensiveDataAnalyzer.calculateDistributionStats
      (columnValues Examples.dailySpend "spend") = Some st
    /\ Js.ge 3 (ComprehensiveDataAnalyzer.q1 st) = true
    /\ Js.ge (ComprehensiveDataAnalyzer.q3 st) 3 = true
    /\ ~ In 3 (ComprehensiveDataAnalyzer.detectOutliers
                 (columnValues Examples.dailySpend "spend")).
Proof.
  destruct (ComprehensiveDataAnalyzer.calculateDistributionStats
              (columnValues Examples.dailySpend "spend")) as [st|] eqn:Hst;
    [|vm_compute in Hst; discriminate].
  assert (H1 : Js.ge 3 (ComprehensiveDataAnalyzer.q1 st) = true).
  { vm_compute in Hst. injection Hst as <-. reflexivity. }
  assert (H3 : Js.ge (ComprehensiveDataAnalyzer.q3 st) 3 = true).
  { vm_compute in Hst. injection Hst as <-. reflexivity. }
  exists st. split; [reflexivity|]. split; [exact H1|]. split; [exact H3|].
  exact (@middle_half_not_outliers refEngine Examples.dailySpend "spend"%string st 3
           Hst H1 H3).
Defined.

(** The column of [yearColumn] is too short to have an outlier. *)
Lemma few_values_no_outliers_witness :
  (List.length (columnValues Examples.yearColumn "date") <= 3)%nat
  /\ ComprehensiveDataAnalyzer.detectOutliers (columnValues Examples.yearColumn "date")
     = [].
Proof.
  assert (H : (List.length (columnValues Examples.yearColumn "date") <= 3)%nat)
    by (vm_compute; lia).
  split; [exact H|].
  exact (@few_values_no_outliers refEngine Examples.yearColumn "date"%string H).
Defined.

End QuartileExamples.


(* ================================================================= *)
(** ** Top performers and time series *)

Section Rankings.
Context {E : Engine}.

Import Position NumberOrder.
Import ComprehensiveDataAnalyzer.

Local Open Scope float_scope.

Lemma byMetric_rank (primaryMetric : string) (a b : row) :
  Js.isNaN (parseFloat (getProp a primaryMetric)) = false ->
  Js.isNaN (parseFloat (getProp b primaryMetric)) = false ->
  Js.gt (parseFloat (getProp b primaryMetric) - parseFloat (getProp a primaryMetric)) 0
  = (- position (parseFloat (getProp b primaryMetric))
     <? - position (parseFloat (getProp a primaryMetric)))%Z.
Proof.
  intros Ha Hb. rewrite (difference_positive _ _ Hb Ha).
  destruct (Z.ltb_spec (position (parseFloat (getProp a primaryMetric)))
                       (position (parseFloat (getProp b primaryMetric))));
    symmetry; [apply Z.ltb_lt|apply Z.ltb_ge]; lia.
Qed.

(** The top performers are the first ten rows of the table sorted by the
    primary metric, largest first: ten rows or the whole table, in
    descending order, and no row left out ranks above one of them.  The
    order is that of the metric where every row has one. *)
Theorem topPerformers_lead (this : analyzer) (rows : table)
    (primaryMetric : string) (others : list string) (performance : Performance.t) :
  data this = Some rows ->
  numericColumns this = primaryMetric :: others ->
  Forall (fun r => Js.isNaN (parseFloat (getProp r primaryMetric)) = false) rows ->
  performanceOf this = Ok performance ->
  let top := Performance.topPerformers performance in
  List.length top = Nat.min 10 (List.length rows)
  /\ (forall i j, (i <= j)%nat -> (j < List.length top)%nat ->
        Js.ge (parseFloat (getProp (nth i top []) primaryMetric))
              (parseFloat (getProp (nth j top []) primaryMetric)) = true)
  /\ exists rest,
       Permutation rows (top ++ rest)
       /\ forall a b, In a top -> In b rest ->
            Js.ge (parseFloat (getProp a primaryMetric))
                  (parseFloat (getProp b primaryMetric)) = true.
Proof.
  intros Hdata Hnum Hrows. unfold performanceOf. rewrite Hnum.
  unfold getData at 1. rewrite Hdata. cbn [bind].
  destruct (if _ : bool then _ else _) as [efficiency|e]; cbn [bind]; [|discriminate].
  set (cmp := fun a b : row => parseFloat (getProp b primaryMetric)
                              - parseFloat (getProp a primaryMetric)).
  set (sorted := Js.sort cmp rows).
  intros Hperformance.
  assert (Htop : Performance.topPerformers performance = firstn 10 sorted)
    by (injection Hperformance as <-; reflexivity).
  cbv zeta. rewrite Htop. clear Hperformance Htop.
  assert (Hlen : List.length sorted = List.length rows) by apply sort_length.
  assert (Hnan : forall r, In r sorted ->
            Js.isNaN (parseFloat (getProp r primaryMetric)) = false).
  { intros r Hr. rewrite Forall_forall in Hrows. apply Hrows.
    apply (sort_In cmp), Hr. }
  assert (Hrank : forall i j, (i <= j)%nat -> (j < List.length rows)%nat ->
            Js.ge (parseFloat (getProp (nth i sorted []) primaryMetric))
                  (parseFloat (getProp (nth j sorted []) primaryMetric)) = true).
  { intros i j Hij Hj.
    pose proof (sort_ascending row cmp
                  (fun r => (- position (parseFloat (getProp r primaryMetric)))%Z)
                  (fun r => Js.isNaN (parseFloat (getProp r primaryMetric)) = false)
                  (byMetric_rank primaryMetric) rows [] i j Hrows Hij Hj) as H.
    cbv beta in H. fold sorted in H.
    rewrite ge_position by (apply Hnan, nth_In; lia).
    apply Z.leb_le. lia. }
  split; [rewrite length_firstn, Hlen; reflexivity|]. split.
  - intros i j Hij Hj. rewrite length_firstn, Hlen in Hj.
    rewrite !nth_firstn.
    destruct (Nat.ltb_spec i 10), (Nat.ltb_spec j 10); try lia.
    apply Hrank; lia.
  - exists (skipn 10 sorted). split.
    + rewrite firstn_skipn. symmetry. apply sort_perm.
    + intros a b Ha Hb.
      apply (In_nth _ _ []) in Ha as (i & Hi & <-).
      apply (In_nth _ _ []) in Hb as (j & Hj & <-).
      rewrite length_firstn, Hlen in Hi. rewrite length_skipn, Hlen in Hj.
      rewrite nth_firstn, nth_skipn.
      destruct (Nat.ltb_spec i 10); [|lia].
      apply Hrank; lia.
Qed.

Lemma orZero_not_NaN (v : Js.number) : Js.isNaN (orZero v) = false.
Proof.
  unfold orZero. destruct (Js.isNaN v) eqn:Hv; cbn [orb]; [reflexivity|].
  destruct (v =? 0); [reflexivity|exact Hv].
Qed.

Lemma byDate_rank (a b : seriesItem) :
  Js.isNaN (date a) = false -> Js.isNaN (date b) = false ->
  Js.gt (date a - date b) 0 = (position (date b) <? position (date a))%Z.
Proof. apply difference_positive. Qed.

(** The time series holds the rows whose date is valid, oldest first, and
    none of its metrics is NaN. *)
Theorem timeSeries_in_order (this : analyzer) (dateColumn : string)
    (items : list seriesItem) :
  createTimeSeriesData this dateColumn = Ok items ->
  Forall (fun item => Js.isNaN (date item) = false
                      /\ forall col v, In (col, v) (metrics item) ->
                           Js.isNaN v = false) items
  /\ forall d i j, (i <= j)%nat -> (j < List.length items)%nat ->
       Js.ge (date (nth j items d)) (date (nth i items d)) = true.
Proof.
  unfold createTimeSeriesData.
  destruct (getData this) as [rows|e]; cbn [bind]; [|discriminate].
  destruct (existsb _ _ && _); [discriminate|].
  set (all := map _ rows).
  set (valid := filter (fun item => negb (Js.isNaN (date item))) all).
  intros [= <-].
  assert (Hvalid : Forall (fun item => Js.isNaN (date item) = false) valid).
  { apply Forall_forall. intros item [_ H]%filter_In. apply negb_true_iff, H. }
  assert (Hmetrics : forall item, In item all ->
            forall col v, In (col, v) (metrics item) -> Js.isNaN v = false).
  { intros item (row & <- & _)%in_map_iff. cbn [metrics].
    generalize (numericColumns this).
    assert (H : forall cols (acc : Obj.t Js.number),
              (forall col v, In (col, v) acc -> Js.isNaN v = false) ->
              forall col v,
                In (col, v) (fold_left (fun acc col =>
                               Obj.set acc col (orZero (parseFloat (getProp row col))))
                             cols acc) -> Js.isNaN v = false).
    { induction cols as [|c cols IH]; intros acc Hacc; cbn [fold_left]; [exact Hacc|].
      apply IH. intros col v [Hin| ->]%set_In; [eapply Hacc, Hin|].
      apply orZero_not_NaN. }
    intros cols. apply H. intros col v []. }
  split.
  - apply Forall_forall. intros item Hitem.
    apply -> (sort_In (fun a b => date a - date b)) in Hitem.
    split; [rewrite Forall_forall in Hvalid; apply Hvalid, Hitem|].
    apply Hmetrics. apply filter_In in Hitem. apply Hitem.
  - intros d i j Hij Hj. rewrite sort_length in Hj.
    pose proof (sort_ascending seriesItem (fun a b => date a - date b)
                  (fun item => position (date item))
                  (fun item => Js.isNaN (date item) = false)
                  byDate_rank valid d i j Hvalid Hij Hj) as H.
    cbv beta in H.
    assert (Hnth : forall k, (k < List.length valid)%nat ->
              Js.isNaN (date (nth k (Js.sort (fun a b => date a - date b) valid) d))
              = false).
    { intros k Hk. rewrite Forall_forall in Hvalid. apply Hvalid.
      apply (sort_In (fun a b => date a - date b)). apply nth_In.
      rewrite sort_length. exact Hk. }
    rewrite ge_position by (apply Hnth; lia).
    apply Z.leb_le. exact H.
Qed.

End Rankings.

Section RankingExamples.
Local Open Scope string_scope.
Local Open Scope list_scope.
Local Open Scope float_scope.

(** The four rows of [threeColumns] come out by [a], largest first, and
    nothing is left out. *)
Lemma topPerformers_lead_witness :
  exists performance,
    ComprehensiveDataAnalyzer.performanceOf Examples.threeColumnsProfiled
    = Ok performance
    /\ map (fun r => parseFloat (getProp r "a"))
           (ComprehensiveDataAnalyzer.Performance.topPerformers performance)
       = [4; 3; 2; 1]
    /\ exists rest,
         Permutation Examples.threeColumns
           (ComprehensiveDataAnalyzer.Performance.topPerformers performance ++ rest)
         /\ forall a b,
              In a (ComprehensiveDataAnalyzer.Performance.topPerformers performance) ->
              In b rest ->
              Js.ge (parseFloat (getProp a "a")) (parseFloat (getProp b "a")) = true.
Proof.
  destruct (ComprehensiveDataAnalyzer.performanceOf Examples.threeColumnsProfiled)
    as [performance|e] eqn:Hperformance; [|vm_compute in Hperformance; discriminate].
  exists performance. split; [reflexivity|]. split.
  { vm_compute in Hperformance. injection Hperformance as <-. reflexivity. }
  refine (proj2 (proj2 (@topPerformers_lead refEngine Examples.threeColumnsProfiled
                          Examples.threeColumns "a"%string ["b"; "c"]%string
                          performance eq_refl eq_refl _ Hperformance))).
  repeat constructor.
Defined.

(** The series of [gappySeries] keeps four dated items, oldest first. *)
Lemma timeSeries_in_order_witness :
  exists items,
    ComprehensiveDataAnalyzer.createTimeSeriesData Examples.gappySeriesProfiled "day"
    = Ok items
    /\ List.length items = 4%nat
    /\ Forall (fun item =>
                 Js.isNaN (ComprehensiveDataAnalyzer.date item) = false
                 /\ forall col v,
                      In (col, v) (ComprehensiveDataAnalyzer.metrics item) ->
                      Js.isNaN v = false) items
    /\ forall d i j, (i <= j)%nat -> (j < List.length items)%nat ->
         Js.ge (ComprehensiveDataAnalyzer.date (nth j items d))
               (ComprehensiveDataAnalyzer.date (nth i items d)) = true.
Proof.
  destruct (ComprehensiveDataAnalyzer.createTimeSeriesData
              Examples.gappySeriesProfiled "day") as [items|e] eqn:Hitems;
    [|vm_compute in Hitems; discriminate].
  exists items. split; [reflexivity|]. split.
  { vm_compute in Hitems. injection Hitems as <-. reflexivity. }
  exact (@timeSeries_in_order refEngine Examples.gappySeriesProfiled "day"%string
           items Hitems).
Defined.

End RankingExamples.


(* ================================================================= *)
(** ** Data quality and segments *)

Section Quality.
Context {E : Engine}.
Import ComprehensiveDataAnalyzer.
Local Open Scope float_scope.

Lemma distinct_bound (values : list cell) : forall seen,
  (List.length seen <= distinct values seen <= List.length seen + List.length values)%nat.
Proof.
  induction values as [|v values IH]; intros seen; cbn [distinct List.length]; [lia|].
  destruct (existsb (sameValueZero v) seen).
  - specialize (IH seen). lia.
  - specialize (IH (seen ++ [v])). rewrite length_app in IH. cbn [List.length] in IH. lia.
Qed.

(** The number of distinct values [assessDataQuality] records for a column
    is at most the number of rows, and every column of [this.columns] but
    [__proto__] has a record. *)
Theorem uniqueness_within_rows (this : analyzer) (rows : table)
    (quality : qualityMetrics) :
  data this = Some rows ->
  qualityMetricsOf this = Ok quality ->
  (forall col n, In (col, n) (uniqueness quality) -> (n <= List.length rows)%nat)
  /\ (forall col, In col (columns this) -> col <> "__proto__"%string ->
        exists n, Obj.get (uniqueness quality) col = Some n).
Proof.
  intros Hdata. unfold qualityMetricsOf, getData. rewrite Hdata. cbn [bind].
  set (step := fun '(completeness, uniqueness) col => _).
  assert (H : forall cols (acc : Obj.t string * Obj.t nat),
            (forall col n, In (col, n) (snd acc) -> (n <= List.length rows)%nat) ->
            (forall col n, In (col, n) (snd (fold_left step cols acc)) ->
                           (n <= List.length rows)%nat)
            /\ (forall col, (In col cols \/ Obj.get (snd acc) col <> None) ->
                  col <> "__proto__"%string ->
                  Obj.get (snd (fold_left step cols acc)) col <> None)).
  { induction cols as [|c cols IH]; intros [completeness uniqueness] Hacc;
      cbn [fold_left snd].
    - split; [exact Hacc|]. intros col [[]|H] _. exact H.
    - cbn [snd] in Hacc.
      destruct (IH (step (completeness, uniqueness) c)) as [IH1 IH2].
      + unfold step. cbn [snd]. intros col n [Hin| ->]%set_In; [eapply Hacc, Hin|].
        pose proof (distinct_bound
                      (filter nonEmpty (map (fun row => getProp row c) rows)) []) as Hd.
        pose proof (filter_length_le nonEmpty (map (fun row => getProp row c) rows)) as Hf.
        rewrite length_map in Hf. cbn [List.length] in Hd. lia.
      + split; [exact IH1|]. intros col Hcol Hproto. apply IH2; [|exact Hproto].
        destruct (String.eqb_spec c col) as [->|Hne].
        * right. unfold step. cbn [snd]. rewrite get_set by exact Hproto.
          rewrite String.eqb_refl. discriminate.
        * destruct Hcol as [[Heq|Hin]|Hget]; [contradiction|left; exact Hin|].
          right. unfold step. cbn [snd].
          destruct (String.eqb_spec c "__proto__") as [->|Hc].
          -- unfold Obj.set. cbn. exact Hget.
          -- rewrite get_set by exact Hc.
             destruct (String.eqb_spec c col); [contradiction|exact Hget]. }
  destruct (H (columns this) ([], [])) as [H1 H2]; [intros col n []|].
  destruct (fold_left step (columns this) ([], [])) as [completeness uniqueness0].
  intros [= <-]. cbn [uniqueness snd] in *. split; [exact H1|].
  intros col Hcol Hproto. specialize (H2 col (or_introl Hcol) Hproto).
  destruct (Obj.get uniqueness0 col); [eauto|contradiction].
Qed.

(** A segment with no value of a numeric column has the average 0 there:
    the quotient is taken only of a segment that has values. *)
Theorem segment_average_guarded (this : analyzer) (column : string)
    (segments : Obj.t (list row)) (segment col : string)
    (metrics : Obj.t segmentMetrics) (m : segmentMetrics) :
  In (segment, metrics) (calculateSegmentPerformance this column segments) ->
  In (col, m) metrics ->
  (count m = 0%nat -> avg m = 0 /\ sum m = 0)
  /\ ((0 < count m)%nat -> avg m = sum m / Js.ofNat (count m)).
Proof.
  unfold calculateSegmentPerformance.
  set (P := fun m : segmentMetrics =>
              (count m = 0%nat -> avg m = 0 /\ sum m = 0)
              /\ ((0 < count m)%nat -> avg m = sum m / Js.ofNat (count m))).
  assert (Hinner : forall segmentData cols (acc : Obj.t segmentMetrics),
            (forall col m, In (col, m) acc -> P m) ->
            forall col m,
              In (col, m)
                 (fold_left (fun metrics numCol =>
                    let values := columnValues segmentData numCol in
                    Obj.set metrics numCol
                      {| sum := Js.sum values;
                         avg := if (0 <? List.length values)%nat
                                then Js.sum values / Js.ofNat (List.length values)
                                else 0;
                         count := List.length values |}) cols acc) -> P m).
  { intros segmentData. induction cols as [|c cols IH]; intros acc Hacc;
      cbn [fold_left]; [exact Hacc|].
    apply IH. cbv zeta. intros col' m' [Hin| ->]%set_In; [eapply Hacc, Hin|].
    unfold P. cbn [count avg sum].
    destruct (columnValues segmentData c) as [|v values].
    - split; [intros _; split; reflexivity|cbn; lia].
    - split; [discriminate|]. intros _. reflexivity. }
  assert (Houter : forall entries (acc : Obj.t (Obj.t segmentMetrics)),
            (forall segment metrics, In (segment, metrics) acc ->
               forall col m, In (col, m) metrics -> P m) ->
            forall segment metrics,
              In (segment, metrics)
                 (fold_left (fun performance '(segment, segmentData) =>
                    let metrics :=
                      fold_left (fun metrics numCol =>
                        let values := columnValues segmentData numCol in
                        Obj.set metrics numCol
                          {| sum := Js.sum values;
                             avg := if (0 <? List.length values)%nat
                                    then Js.sum values / Js.ofNat (List.length values)
                                    else 0;
                             count := List.length values |})
                        (numericColumns this) [] in
                    Obj.set performance segment metrics) entries acc) ->
              forall col m, In (col, m) metrics -> P m).
  { induction entries as [|[s segmentData] entries IH]; intros acc Hacc;
      cbn [fold_left]; [exact Hacc|].
    apply IH. cbv zeta. intros s' metrics' [Hin| ->]%set_In; [eapply Hacc, Hin|].
    apply Hinner. intros col' m' []. }
  intros Hsegment Hm.
  apply (Houter segments [] (fun s ms (H : In (s, ms) []) => match H with end)
           segment metrics Hsegment col m Hm).
Qed.

End Quality.

Section QualityExamples.
Local Open Scope string_scope.
Local Open Scope list_scope.
Local Open Scope float_scope.

(** Each column of [threeColumns] has four distinct values in four rows. *)
Lemma uniqueness_within_rows_witness :
  exists quality,
    ComprehensiveDataAnalyzer.qualityMetricsOf Examples.threeColumnsProfiled
    = Ok quality
    /\ ComprehensiveDataAnalyzer.uniqueness quality
       = [("a", 4%nat); ("b", 4%nat); ("c", 4%nat)]%string
    /\ (forall col n, In (col, n) (ComprehensiveDataAnalyzer.uniqueness quality) ->
          (n <= List.length Examples.threeColumns)%nat)
    /\ (forall col,
          In col (ComprehensiveDataAnalyzer.columns Examples.threeColumnsProfiled) ->
          col <> "__proto__"%string ->
          exists n, Obj.get (ComprehensiveDataAnalyzer.uniqueness quality) col = Some n).
Proof.
  destruct (ComprehensiveDataAnalyzer.qualityMetricsOf Examples.threeColumnsProfiled)
    as [quality|e] eqn:Hquality; [|vm_compute in Hquality; discriminate].
  exists quality. split; [reflexivity|]. split.
  { vm_compute in Hquality. injection Hquality as <-. reflexivity. }
  exact (@uniqueness_within_rows refEngine Examples.threeColumnsProfiled
           Examples.threeColumns quality eq_refl Hquality).
Defined.

(** The rows of [genders] have no column [a]: the segment [F] has no value
    there and the average 0. *)
Lemma segment_average_guarded_witness :
  exists groups metrics m,
    ComprehensiveDataAnalyzer.groupBy
      (ComprehensiveDataAnalyzer.load ComprehensiveDataAnalyzer.constructor
         Examples.genders) "gender" = Ok groups
    /\ In ("F"%string, metrics)
          (ComprehensiveDataAnalyzer.calculateSegmentPerformance
             Examples.threeColumnsProfiled "gender" groups)
    /\ In ("a"%string, m) metrics
    /\ ComprehensiveDataAnalyzer.count m = 0%nat
    /\ ComprehensiveDataAnalyzer.avg m = 0.
Proof.
  destruct (ComprehensiveDataAnalyzer.groupBy
              (ComprehensiveDataAnalyzer.load ComprehensiveDataAnalyzer.constructor
                 Examples.genders) "gender") as [groups|e] eqn:Hgroups;
    [|vm_compute in Hgroups; discriminate].
  assert (Hperf : exists metrics m,
            In ("F"%string, metrics)
               (ComprehensiveDataAnalyzer.calculateSegmentPerformance
                  Examples.threeColumnsProfiled "gender" groups)
            /\ In ("a"%string, m) metrics
            /\ ComprehensiveDataAnalyzer.count m = 0%nat).
  { vm_compute in Hgroups. injection Hgroups as <-.
    eexists. eexists. split; [right; left; reflexivity|].
    split; [left; reflexivity|reflexivity]. }
  destruct Hperf as (metrics & m & Hmetrics & Hm & Hcount).
  exists groups, metrics, m. split; [reflexivity|].
  split; [exact Hmetrics|]. split; [exact Hm|]. split; [exact Hcount|].
  exact (proj1 (proj1 (@segment_average_guarded refEngine Examples.threeColumnsProfiled
                         "gender"%string groups "F"%string "a"%string metrics m
                         Hmetrics Hm) Hcount)).
Defined.

End QualityExamples.


(* ================================================================= *)
(** ** What the classification of the columns reads *)

Section Samples.
Context {E : Engine}.
Local Open Scope float_scope.

Lemma sampleOf_app (rows extra : table) (n : nat) (col : string) :
  (n <= List.length rows)%nat ->
  sampleOf (rows ++ extra) n col = sampleOf rows n col.
Proof.
  intros Hn. unfold sampleOf. rewrite firstn_app.
  replace (n - List.length rows)%nat with 0%nat by lia.
  cbn [firstn]. rewrite app_nil_r. reflexivity.
Qed.

(** [ComprehensiveDataAnalyzer.identifyColumnTypes] reads the first hundred
    rows: the rows after them change no list of columns. *)
Theorem Comprehensive_classification_reads_100_rows
    (this : ComprehensiveDataAnalyzer.analyzer) (rows extra : table) :
  (100 <= List.length rows)%nat ->
  exists a b,
    ComprehensiveDataAnalyzer.identifyColumnTypes
      (ComprehensiveDataAnalyzer.load this rows) = Ok a
    /\ ComprehensiveDataAnalyzer.identifyColumnTypes
         (ComprehensiveDataAnalyzer.load this (rows ++ extra)) = Ok b
    /\ ComprehensiveDataAnalyzer.columns a = ComprehensiveDataAnalyzer.columns b
    /\ ComprehensiveDataAnalyzer.numericColumns a
       = ComprehensiveDataAnalyzer.numericColumns b
    /\ ComprehensiveDataAnalyzer.dateColumns a
       = ComprehensiveDataAnalyzer.dateColumns b
    /\ ComprehensiveDataAnalyzer.categoricalColumns a
       = ComprehensiveDataAnalyzer.categoricalColumns b.
Proof.
  intros Hlen. destruct rows as [|first rows]; [cbn in Hlen; lia|].
  unfold ComprehensiveDataAnalyzer.identifyColumnTypes,
    ComprehensiveDataAnalyzer.getData, ComprehensiveDataAnalyzer.load.
  cbn [ComprehensiveDataAnalyzer.data bind app].
  assert (Hsame : forall lists col,
            ComprehensiveDataAnalyzer.identifyColumn ((first :: rows) ++ extra) lists col
            = ComprehensiveDataAnalyzer.identifyColumn (first :: rows) lists col).
  { intros [[numeric date] categorical] col.
    unfold ComprehensiveDataAnalyzer.identifyColumn.
    rewrite length_app.
    replace (Nat.min 100 (List.length (first :: rows) + List.length extra))
      with 100%nat by lia.
    replace (Nat.min 100 (List.length (first :: rows))) with 100%nat by lia.
    rewrite sampleOf_app by exact Hlen. reflexivity. }
  change (first :: rows ++ extra) with ((first :: rows) ++ extra).
  rewrite (fold_left_same _ _ (Object_keys first) ([], [], []) Hsame).
  destruct (fold_left _ (Object_keys first) ([], [], [])) as [[numeric date] categorical].
  eexists. eexists. split; [reflexivity|]. split; [reflexivity|].
  repeat split; reflexivity.
Qed.

(** [DataAnalyzer.identifyColumnTypes] reads the first ten rows. *)
Theorem DataAnalyzer_classification_reads_10_rows
    (this : DataAnalyzer.analyzer) (rows extra : table) :
  (10 <= List.length rows)%nat ->
  exists a b,
    DataAnalyzer.identifyColumnTypes (DataAnalyzer.load this rows) = Ok a
    /\ DataAnalyzer.identifyColumnTypes (DataAnalyzer.load this (rows ++ extra)) = Ok b
    /\ DataAnalyzer.columns a = DataAnalyzer.columns b
    /\ DataAnalyzer.numericColumns a = DataAnalyzer.numericColumns b
    /\ DataAnalyzer.dateColumns a = DataAnalyzer.dateColumns b.
Proof.
  intros Hlen. destruct rows as [|first rows]; [cbn in Hlen; lia|].
  unfold DataAnalyzer.identifyColumnTypes, DataAnalyzer.getData, DataAnalyzer.load.
  cbn [DataAnalyzer.data bind app].
  assert (Hsame : forall lists col,
            DataAnalyzer.identifyColumn ((first :: rows) ++ extra) lists col
            = DataAnalyzer.identifyColumn (first :: rows) lists col).
  { intros [numeric date] col. unfold DataAnalyzer.identifyColumn.
    rewrite sampleOf_app by exact Hlen. reflexivity. }
  change (first :: rows ++ extra) with ((first :: rows) ++ extra).
  rewrite (fold_left_same _ _ (Object_keys first) ([], []) Hsame).
  destruct (fold_left _ (Object_keys first) ([], [])) as [numeric date].
  eexists. eexists. split; [reflexivity|]. split; [reflexivity|].
  repeat split; reflexivity.
Qed.

(** The exploratory analyzer lists as dates only columns whose name holds
    [time] or [date], in any letter case, and lists only columns of the
    first row. *)
Theorem DataAnalyzer_date_columns_named (this this' : DataAnalyzer.analyzer)
    (first : row) (rows : table) :
  DataAnalyzer.data this = Some (first :: rows) ->
  DataAnalyzer.identifyColumnTypes this = Ok this' ->
  DataAnalyzer.columns this' = Object_keys first
  /\ (forall col, In col (DataAnalyzer.numericColumns this') -> In col (Object_keys first))
  /\ (forall col, In col (DataAnalyzer.dateColumns this') ->
        In col (Object_keys first)
        /\ (Str.includes (Str.toLowerCase col) "time"
            || Str.includes (Str.toLowerCase col) "date") = true).
Proof.
  intros Hdata. unfold DataAnalyzer.identifyColumnTypes, DataAnalyzer.getData.
  rewrite Hdata. cbn [bind].
  set (P := fun (cols : list string) (lists : list string * list string) =>
              (forall col, In col (fst lists) -> In col cols)
              /\ (forall col, In col (snd lists) ->
                    In col cols
                    /\ (Str.includes (Str.toLowerCase col) "time"
                        || Str.includes (Str.toLowerCase col) "date") = true)).
  assert (H : forall todo done lists, P done lists ->
            P (done ++ todo) (fold_left (DataAnalyzer.identifyColumn (first :: rows))
                                todo lists)).
  { induction todo as [|c todo IH]; intros done lists Hlists; cbn [fold_left].
    - rewrite app_nil_r. exact Hlists.
    - replace (done ++ c :: todo) with ((done ++ [c]) ++ todo)
        by (rewrite <- app_assoc; reflexivity).
      apply IH. destruct lists as [numeric date]. destruct Hlists as [Hn Hd].
      cbn [fst snd] in Hn, Hd.
      unfold DataAnalyzer.identifyColumn, P. cbn [fst snd]. split.
      + intros col Hcol. apply in_or_app.
        destruct (Js.gt _ 0.8) in Hcol.
        * apply in_app_or in Hcol as [Hcol|[<-|[]]]; [left; apply Hn, Hcol|].
          right. left. reflexivity.
        * left. apply Hn, Hcol.
      + intros col Hcol.
        destruct (Js.gt _ 0.8 && _) eqn:Htest in Hcol.
        * apply in_app_or in Hcol as [Hcol|[<-|[]]].
          -- destruct (Hd col Hcol) as [H1 H2]. split; [|exact H2].
             apply in_or_app. left. exact H1.
          -- apply andb_true_iff in Htest as [_ Hname].
             split; [|exact Hname]. apply in_or_app. right. left. reflexivity.
        * destruct (Hd col Hcol) as [H1 H2]. split; [|exact H2].
          apply in_or_app. left. exact H1. }
  specialize (H (Object_keys first) [] ([], [])). cbn [app] in H.
  destruct (fold_left _ (Object_keys first) ([], [])) as [numeric date].
  intros [= <-]. cbn [DataAnalyzer.columns DataAnalyzer.numericColumns
                      DataAnalyzer.dateColumns].
  destruct H as [Hn Hd]; [split; intros col []|]. cbn [fst snd] in Hn, Hd.
  split; [reflexivity|]. split; assumption.
Qed.

End Samples.

Section SampleExamples.
Local Open Scope string_scope.
Local Open Scope list_scope.
Local Open Scope float_scope.

(** A row of text after a hundred numeric rows leaves the column numeric. *)
Lemma Comprehensive_classification_reads_100_rows_witness :
  (100 <= List.length Examples.hundredRows)%nat
  /\ exists a b,
    ComprehensiveDataAnalyzer.identifyColumnTypes
      (ComprehensiveDataAnalyzer.load ComprehensiveDataAnalyzer.constructor
         Examples.hundredRows) = Ok a
    /\ ComprehensiveDataAnalyzer.identifyColumnTypes
         (ComprehensiveDataAnalyzer.load ComprehensiveDataAnalyzer.constructor
            (Examples.hundredRows ++ [Examples.oddRow])) = Ok b
    /\ ComprehensiveDataAnalyzer.columns a = ComprehensiveDataAnalyzer.columns b
    /\ ComprehensiveDataAnalyzer.numericColumns a
       = ComprehensiveDataAnalyzer.numericColumns b
    /\ ComprehensiveDataAnalyzer.dateColumns a
       = ComprehensiveDataAnalyzer.dateColumns b
    /\ ComprehensiveDataAnalyzer.categoricalColumns a
       = ComprehensiveDataAnalyzer.categoricalColumns b.
Proof.
  assert (H : (100 <= List.length Examples.hundredRows)%nat)
    by (unfold Examples.hundredRows; rewrite repeat_length; lia).
  split; [exact H|].
  exact (@Comprehensive_classification_reads_100_rows refEngine
           ComprehensiveDataAnalyzer.constructor Examples.hundredRows
           [Examples.oddRow] H).
Defined.

(** A row of text after the rows of [risingClose] changes no list. *)
Lemma DataAnalyzer_classification_reads_10_rows_witness :
  (10 <= List.length Examples.risingClose)%nat
  /\ exists a b,
    DataAnalyzer.identifyColumnTypes
      (DataAnalyzer.load DataAnalyzer.constructor Examples.risingClose) = Ok a
    /\ DataAnalyzer.identifyColumnTypes
         (DataAnalyzer.load DataAnalyzer.constructor
            (Examples.risingClose ++ [Examples.oddRow])) = Ok b
    /\ DataAnalyzer.columns a = DataAnalyzer.columns b
    /\ DataAnalyzer.numericColumns a = DataAnalyzer.numericColumns b
    /\ DataAnalyzer.dateColumns a = DataAnalyzer.dateColumns b.
Proof.
  assert (H : (10 <= List.length Examples.risingClose)%nat)
    by (unfold Examples.risingClose; rewrite length_map, length_seq; lia).
  split; [exact H|].
  exact (@DataAnalyzer_classification_reads_10_rows refEngine
           DataAnalyzer.constructor Examples.risingClose [Examples.oddRow] H).
Defined.

(** The column [date] of [yearColumn] is listed as a date. *)
Lemma DataAnalyzer_date_columns_named_witness :
  exists this',
    DataAnalyzer.identifyColumnTypes
      (DataAnalyzer.load DataAnalyzer.constructor Examples.yearColumn) = Ok this'
    /\ DataAnalyzer.dateColumns this' = ["date"]%string
    /\ forall col, In col (DataAnalyzer.dateColumns this') ->
         In col ["date"]%string
         /\ (Str.includes (Str.toLowerCase col) "time"
             || Str.includes (Str.toLowerCase col) "date") = true.
Proof.
  destruct (DataAnalyzer.identifyColumnTypes
              (DataAnalyzer.load DataAnalyzer.constructor Examples.yearColumn))
    as [this'|e] eqn:Hthis; [|vm_compute in Hthis; discriminate].
  exists this'. split; [reflexivity|]. split.
  { vm_compute in Hthis. injection Hthis as <-. reflexivity. }
  exact (proj2 (proj2 (@DataAnalyzer_date_columns_named refEngine
                         (DataAnalyzer.load DataAnalyzer.constructor Examples.yearColumn)
                         this' [("date", CStr "2020")]%string
                         [[("date", CStr "2021")]]%string eq_refl Hthis))).
Defined.

End SampleExamples.


(* ================================================================= *)
(** ** Names of columns *)

Section Names.
Context {E : Engine}.
Import ComprehensiveDataAnalyzer.
Local Open Scope string_scope.

Lemma sumOf_missing (rows : table) (columnName : string) :
  (forall row, In row rows -> getProp row columnName = CUndefined) ->
  sumOf rows columnName = 0%float.
Proof.
  unfold sumOf. intros H.
  assert (Hfold : forall acc,
            fold_left (fun sum row =>
                         let value := parseFloat (getProp row columnName) in
                         (sum + (if Js.isNaN value then 0 else value))%float) rows acc
            = fold_left (fun sum _ => (sum + 0)%float) rows acc).
  { induction rows as [|row rows IH]; intros acc; cbn [fold_left]; [reflexivity|].
    rewrite (H row (or_introl eq_refl)). cbn [parseFloat].
    change (Js.isNaN nan) with true. cbv iota.
    apply IH. intros r Hr. apply H. right. exact Hr. }
  rewrite Hfold. clear. induction rows as [|row rows IH]; cbn [fold_left]; [reflexivity|].
  exact IH.
Qed.

(** [hasColumns] compares names without regard to letter case, [sumColumn]
    reads the exact name: on a table whose advertising columns are written
    in another case, the key metrics are those of empty columns. *)
Theorem summary_reads_exact_names (this : analyzer) (rows : table)
    (quality : qualityMetrics) :
  data this = Some rows ->
  dataQuality (results this) = Some quality ->
  hasColumns this ["impressions"; "clicks"; "spent"] = true ->
  (forall row, In row rows ->
     getProp row "impressions" = CUndefined /\ getProp row "clicks" = CUndefined
     /\ getProp row "spent" = CUndefined) ->
  exists summary,
    summaryOf this = Ok summary
    /\ Summary.keyMetrics summary
       = [ {| label := "Total Impressions"; value := toLocaleString 0%float;
              type := "count" |};
           {| label := "Total Clicks"; value := toLocaleString 0%float;
              type := "count" |};
           {| label := "Total Spend"; value := "$" ++ toLocaleString 0%float;
              type := "currency" |};
           {| label := "Overall CTR"; value := "0.000%"; type := "percentage" |} ].
Proof.
  intros Hdata Hquality Hhas Hrows. unfold summaryOf, sumColumn, getData.
  rewrite Hdata, Hquality, Hhas. cbn [bind defined].
  rewrite !sumOf_missing by (intros row Hrow; apply (Hrows row Hrow)).
  eexists. split; reflexivity.
Qed.

(** *** [formatColumnName] *)

Lemma upperAscii_idempotent (c : ascii) :
  Str.upperAscii (Str.upperAscii c) = Str.upperAscii c.
Proof. destruct c as [[] [] [] [] [] [] [] []]; reflexivity. Qed.

Lemma isWordChar_upperAscii (c : ascii) :
  Str.isWordChar (Str.upperAscii c) = Str.isWordChar c.
Proof. destruct c as [[] [] [] [] [] [] [] []]; reflexivity. Qed.

Lemma upperAscii_underscore (c : ascii) :
  Ascii.eqb (Str.upperAscii c) "_" = Ascii.eqb c "_".
Proof. destruct c as [[] [] [] [] [] [] [] []]; reflexivity. Qed.

Lemma capitalizeWords_idempotent (s : string) : forall inWord,
  Str.capitalizeWords inWord (Str.capitalizeWords inWord s)
  = Str.capitalizeWords inWord s.
Proof.
  induction s as [|c s IH]; intros inWord; cbn [Str.capitalizeWords]; [reflexivity|].
  destruct (Str.isWordChar c && negb inWord) eqn:Hc.
  - rewrite isWordChar_upperAscii, Hc, upperAscii_idempotent, IH. reflexivity.
  - rewrite Hc, IH. reflexivity.
Qed.

Lemma underscoresToSpaces_clean (s : string) :
  occurs "_" s = false -> Str.underscoresToSpaces s = s.
Proof.
  induction s as [|c s IH]; cbn [occurs Str.underscoresToSpaces]; [reflexivity|].
  intros [Hc Hs]%orb_false_iff. rewrite Hc, IH by assumption. reflexivity.
Qed.

Lemma underscoresToSpaces_none (s : string) :
  occurs "_" (Str.underscoresToSpaces s) = false.
Proof.
  induction s as [|c s IH]; cbn [occurs Str.underscoresToSpaces]; [reflexivity|].
  rewrite IH. destruct (Ascii.eqb c "_") eqn:Hc; [reflexivity|]. rewrite Hc. reflexivity.
Qed.

Lemma capitalizeWords_none (s : string) : forall inWord,
  occurs "_" s = false -> occurs "_" (Str.capitalizeWords inWord s) = false.
Proof.
  induction s as [|c s IH]; intros inWord; cbn [occurs Str.capitalizeWords];
    [reflexivity|].
  intros [Hc Hs]%orb_false_iff. rewrite (IH _ Hs).
  destruct (Str.isWordChar c && negb inWord); [rewrite upperAscii_underscore|];
    rewrite Hc; reflexivity.
Qed.

Lemma capitalizeWords_length (s : string) : forall inWord,
  String.length (Str.capitalizeWords inWord s) = String.length s.
Proof.
  induction s as [|c s IH]; intros inWord; cbn [String.length Str.capitalizeWords];
    [reflexivity|]. rewrite IH. reflexivity.
Qed.

Lemma underscoresToSpaces_length (s : string) :
  String.length (Str.underscoresToSpaces s) = String.length s.
Proof.
  induction s as [|c s IH]; cbn [String.length Str.underscoresToSpaces];
    [reflexivity|]. rewrite IH. reflexivity.
Qed.

(** A formatted name has the length of the name and no underscore, and
    formatting it again changes nothing. *)
Theorem formatColumnName_stable (col : string) :
  String.length (formatColumnName col) = String.length col
  /\ occurs "_" (formatColumnName col) = false
  /\ formatColumnName (formatColumnName col) = formatColumnName col.
Proof.
  unfold formatColumnName. split; [|split].
  - rewrite capitalizeWords_length, underscoresToSpaces_length. reflexivity.
  - apply capitalizeWords_none, underscoresToSpaces_none.
  - rewrite (underscoresToSpaces_clean (Str.capitalizeWords false _))
      by apply capitalizeWords_none, underscoresToSpaces_none.
    apply capitalizeWords_idempotent.
Qed.

End Names.

(* ================================================================= *)
(** ** The strength of a correlation *)

Section Strength.
Context {E : Engine}.
Import Position NumberOrder.
Local Open Scope float_scope.

Lemma above_threshold (a lower upper : float) :
  Js.isNaN lower = false -> Js.isNaN upper = false ->
  (position lower <= position upper)%Z ->
  Js.gt a upper = true -> Js.ge a lower = true.
Proof.
  intros Hl Hu Hle Hgt. destruct (lt_not_NaN _ _ Hgt) as [_ Ha].
  rewrite gt_position in Hgt by assumption. apply Z.ltb_lt in Hgt.
  rewrite ge_position by assumption. apply Z.leb_le. lia.
Qed.

Lemma thresholds : (position 0.2 <= position 0.3)%Z.
Proof. vm_compute. discriminate. Qed.

(** A correlation the comprehensive analyzer keeps as significant is
    above 0.3 in absolute value, carries the label of its coefficient, and
    is never labelled [Very Weak]. *)
Theorem significant_strength (this : ComprehensiveDataAnalyzer.analyzer)
    (found : ComprehensiveDataAnalyzer.Correlations.t)
    (record : ComprehensiveDataAnalyzer.correlationRecord) :
  ComprehensiveDataAnalyzer.correlationsOf this = Ok found ->
  In record (ComprehensiveDataAnalyzer.Correlations.significant found) ->
  Js.gt (Js.Math_abs (ComprehensiveDataAnalyzer.correlation record)) 0.3 = true
  /\ ComprehensiveDataAnalyzer.strength record
     = getCorrelationStrength (ComprehensiveDataAnalyzer.correlation record)
  /\ ComprehensiveDataAnalyzer.strength record <> "Very Weak"%string.
Proof.
  unfold ComprehensiveDataAnalyzer.correlationsOf.
  set (P := fun record : ComprehensiveDataAnalyzer.correlationRecord =>
              Js.gt (Js.Math_abs (ComprehensiveDataAnalyzer.correlation record)) 0.3
              = true
              /\ ComprehensiveDataAnalyzer.strength record
                 = getCorrelationStrength
                     (ComprehensiveDataAnalyzer.correlation record)).
  assert (Hstep : forall significant cols significant',
            Forall P significant ->
            ComprehensiveDataAnalyzer.correlationStep this significant cols
            = Ok significant' -> Forall P significant').
  { intros significant [col1 col2] significant' Hall.
    unfold ComprehensiveDataAnalyzer.correlationStep.
    destruct (ComprehensiveDataAnalyzer.calculateCorrelation this col1 col2)
      as [r|e]; cbn [bind]; [|discriminate].
    destruct (Js.gt (Js.Math_abs r) 0.3) eqn:Hr; intros [= <-]; [|exact Hall].
    apply Forall_app. split; [exact Hall|].
    constructor; [split; [exact Hr|reflexivity]|constructor]. }
  intros Hfound Hin.
  assert (HP : P record).
  { destruct (2 <=? _)%nat.
    - destruct (forEachM _ _ _) as [significant|e] eqn:Hloop; cbn [bind] in Hfound;
        [|discriminate].
      injection Hfound as <-. cbn [ComprehensiveDataAnalyzer.Correlations.significant] in Hin.
      pose proof (forEachM_invariant (Forall P) _ _ Hstep [] significant
                    (Forall_nil _) Hloop) as Hall.
      rewrite Forall_forall in Hall. apply Hall, Hin.
    - cbn [bind] in Hfound. injection Hfound as <-.
      cbn [ComprehensiveDataAnalyzer.Correlations.significant] in Hin. destruct Hin. }
  destruct HP as [Hr Hs]. split; [exact Hr|]. split; [exact Hs|].
  rewrite Hs. unfold getCorrelationStrength.
  assert (Hweak : Js.ge (Js.Math_abs (ComprehensiveDataAnalyzer.correlation record))
                        0.2 = true).
  { apply (above_threshold _ 0.2 0.3); [reflexivity|reflexivity|apply thresholds|].
    exact Hr. }
  destruct (Js.ge _ 0.8); [discriminate|].
  destruct (Js.ge _ 0.6); [discriminate|].
  destruct (Js.ge _ 0.4); [discriminate|].
  rewrite Hweak. discriminate.
Qed.

End Strength.

Section NameExamples.
Local Open Scope string_scope.
Local Open Scope list_scope.
Local Open Scope float_scope.

(** On [capitalAds], whose columns are [Impressions], [Clicks] and [Spent],
    the summary shows totals of zero. *)
Lemma summary_reads_exact_names_witness :
  ComprehensiveDataAnalyzer.hasColumns Examples.capitalAdsAssessed
    ["impressions"; "clicks"; "spent"]%string = true
  /\ exists summary,
       ComprehensiveDataAnalyzer.summaryOf Examples.capitalAdsAssessed = Ok summary
       /\ map ComprehensiveDataAnalyzer.value
              (ComprehensiveDataAnalyzer.Summary.keyMetrics summary)
          = ["0"; "0"; "$0"; "0.000%"]%string.
Proof.
  assert (Hhas : ComprehensiveDataAnalyzer.hasColumns Examples.capitalAdsAssessed
                   ["impressions"; "clicks"; "spent"]%string = true) by reflexivity.
  split; [exact Hhas|].
  destruct (@summary_reads_exact_names refEngine Examples.capitalAdsAssessed
              Examples.capitalAds _ eq_refl eq_refl Hhas) as (summary & Hsummary & Hkey).
  { intros row [<-|[]]. repeat split; reflexivity. }
  exists summary. split; [exact Hsummary|]. rewrite Hkey. reflexivity.
Defined.

(** The first correlation kept for [threeColumns] is labelled [Very Strong]. *)
Lemma significant_strength_witness :
  exists found record,
    ComprehensiveDataAnalyzer.correlationsOf Examples.threeColumnsProfiled = Ok found
    /\ hd_error (ComprehensiveDataAnalyzer.Correlations.significant found) = Some record
    /\ ComprehensiveDataAnalyzer.strength record = "Very Strong"%string
    /\ Js.gt (Js.Math_abs (ComprehensiveDataAnalyzer.correlation record)) 0.3 = true
    /\ ComprehensiveDataAnalyzer.strength record <> "Very Weak"%string.
Proof.
  destruct (ComprehensiveDataAnalyzer.correlationsOf Examples.threeColumnsProfiled)
    as [found|e] eqn:Hfound; [|vm_compute in Hfound; discriminate].
  destruct (ComprehensiveDataAnalyzer.Correlations.significant found)
    as [|record records] eqn:Hrecords;
    [vm_compute in Hfound; injection Hfound as <-; discriminate|].
  exists found, record. split; [reflexivity|]. rewrite Hrecords.
  split; [reflexivity|].
  assert (Hin : In record (ComprehensiveDataAnalyzer.Correlations.significant found))
    by (rewrite Hrecords; left; reflexivity).
  destruct (@significant_strength refEngine Examples.threeColumnsProfiled found record
              Hfound Hin) as (Hr & Hs & Hweak).
  split; [|split; [exact Hr|exact Hweak]].
  vm_compute in Hfound. injection Hfound as <-. injection Hrecords as <- _. reflexivity.
Defined.

End NameExamples.


(* ================================================================= *)
(** ** The pairs of columns that are compared *)

Section Pairs.
Context {E : Engine}.
Import ComprehensiveDataAnalyzer.
Local Open Scope float_scope.

Lemma columnPairs_In (cols : list string) (a b : string) :
  In (a, b) (columnPairs cols) -> In a cols /\ In b cols.
Proof.
  induction cols as [|c cols IH]; cbn [columnPairs]; [intros []|].
  intros [Hin|Hin]%in_app_or.
  - apply in_map_iff in Hin as (b' & [= <- <-] & Hb). split; [left|right]; auto.
  - destruct (IH Hin). split; right; assumption.
Qed.

(** The nested loops visit each pair of distinct columns once, the earlier
    column first. *)
Lemma columnPairs_NoDup (cols : list string) :
  NoDup cols ->
  NoDup (columnPairs cols)
  /\ forall a b, In (a, b) (columnPairs cols) ->
       a <> b /\ ~ In (b, a) (columnPairs cols).
Proof.
  induction 1 as [|c cols Hc Hcols [IH1 IH2]]; cbn [columnPairs].
  - split; [constructor|intros a b []].
  - split.
    + apply NoDup_app; [| exact IH1 |].
      * apply Finite.Injective_map_NoDup_in; [|exact Hcols].
        intros x y _ _ [= ->]. reflexivity.
      * intros [a b] (b' & [= <- <-] & Hb)%in_map_iff Hin.
        apply columnPairs_In in Hin as [Hin _]. contradiction.
    + intros a b [Hin|Hin]%in_app_or.
      * apply in_map_iff in Hin as (b' & [= <- <-] & Hb).
        split; [intros ->; contradiction|].
        intros [Hrev|Hrev]%in_app_or.
        -- apply in_map_iff in Hrev as (x & [= -> _] & _). contradiction.
        -- apply columnPairs_In in Hrev as [_ Hrev]. contradiction.
      * destruct (IH2 a b Hin) as [Hne Hrev]. split; [exact Hne|].
        intros [Hrev'|Hrev']%in_app_or; [|contradiction].
        apply in_map_iff in Hrev' as (x & [= <- <-] & _).
        apply columnPairs_In in Hin as [_ Hin]. contradiction.
Qed.

Lemma columnPairs_length (cols : list string) :
  (2 * List.length (columnPairs cols)
   = List.length cols * (List.length cols - 1))%nat.
Proof.
  induction cols as [|c cols IH]; cbn [columnPairs List.length]; [reflexivity|].
  rewrite length_app, length_map. nia.
Qed.

(** What the loop of [performCorrelationAnalysis] keeps: the records of
    the pairs whose coefficient is above 0.3, in the order of the pairs. *)
Lemma significant_loop (this : analyzer) (rows : table) (pairs : list (string * string)) :
  data this = Some rows ->
  forall significant,
  forEachM (correlationStep this) pairs significant
  = Ok (significant
        ++ map (fun '(col1, col2) =>
                  {| column1 := col1; column2 := col2;
                     correlation := correlationOf (correlationPairs rows col1 col2);
                     strength := getCorrelationStrength
                                   (correlationOf (correlationPairs rows col1 col2)) |})
               (filter (fun '(col1, col2) =>
                          Js.gt (Js.Math_abs
                                   (correlationOf (correlationPairs rows col1 col2)))
                                0.3) pairs)).
Proof.
  intros Hdata. induction pairs as [|[col1 col2] pairs IH]; intros significant;
    cbn [forEachM filter map].
  - rewrite app_nil_r. reflexivity.
  - unfold correlationStep at 1, calculateCorrelation, getData.
    rewrite Hdata. cbn [bind].
    destruct (Js.gt _ 0.3); cbn [bind map]; rewrite IH; [|reflexivity].
    rewrite <- app_assoc. reflexivity.
Qed.

(** Of each pair of numeric columns the comprehensive analyzer keeps at
    most one correlation, never one of a column with itself, and so at
    most n (n - 1) / 2 for n numeric columns. *)
Theorem significant_pairs_once (this : analyzer) (rows : table)
    (found : Correlations.t) :
  data this = Some rows ->
  NoDup (numericColumns this) ->
  correlationsOf this = Ok found ->
  let pairOf := fun record => (column1 record, column2 record) in
  NoDup (map pairOf (Correlations.significant found))
  /\ (forall record, In record (Correlations.significant found) ->
        column1 record <> column2 record
        /\ In (column1 record) (numericColumns this)
        /\ In (column2 record) (numericColumns this)
        /\ ~ In (column2 record, column1 record)
               (map pairOf (Correlations.significant found)))
  /\ (2 * List.length (Correlations.significant found)
      <= List.length (numericColumns this) * (List.length (numericColumns this) - 1))%nat.
Proof.
  intros Hdata Hnodup. unfold correlationsOf.
  destruct (2 <=? List.length (numericColumns this))%nat.
  2:{ cbn [bind]. intros [= <-]. cbn [Correlations.significant map List.length].
      split; [constructor|]. split; [intros record []|lia]. }
  rewrite (significant_loop this rows _ Hdata). cbn [bind app].
  intros [= <-]. cbn [Correlations.significant]. cbv zeta.
  set (keep := filter _ (columnPairs (numericColumns this))).
  destruct (columnPairs_NoDup _ Hnodup) as [Hpairs Hdistinct].
  assert (Hmap : map (fun record => (column1 record, column2 record))
                   (map (fun '(col1, col2) =>
                      {| column1 := col1; column2 := col2;
                         correlation := correlationOf (correlationPairs rows col1 col2);
                         strength := getCorrelationStrength
                                       (correlationOf (correlationPairs rows col1 col2)) |})
                      keep) = keep).
  { rewrite map_map. rewrite <- (map_id keep) at 2. apply map_ext.
    intros [col1 col2]. reflexivity. }
  rewrite Hmap.
  assert (Hkeep : forall p, In p keep -> In p (columnPairs (numericColumns this))).
  { intros p Hp. apply filter_In in Hp. apply Hp. }
  split; [apply NoDup_filter, Hpairs|]. split.
  - intros record Hrecord.
    assert (Hp : In (column1 record, column2 record) keep).
    { rewrite <- Hmap. apply (in_map (fun record => (column1 record, column2 record))).
      exact Hrecord. }
    apply Hkeep in Hp. destruct (Hdistinct _ _ Hp) as [Hne Hrev].
    destruct (columnPairs_In _ _ _ Hp) as [H1 H2].
    repeat split; try assumption. intros Hin. apply Hrev, Hkeep, Hin.
  - rewrite length_map.
    pose proof (filter_length_le
                  (fun '(col1, col2) =>
                     Js.gt (Js.Math_abs (correlationOf (correlationPairs rows col1 col2)))
                           0.3) (columnPairs (numericColumns this))) as Hle.
    fold keep in Hle.
    pose proof (columnPairs_length (numericColumns this)). lia.
Qed.

End Pairs.

Section PairExamples.
Local Open Scope string_scope.
Local Open Scope list_scope.
Local Open Scope float_scope.

(** For the three columns of [threeColumns] the pairs kept are a-b, a-c and
    b-c. *)
Lemma significant_pairs_once_witness :
  exists found,
    ComprehensiveDataAnalyzer.correlationsOf Examples.threeColumnsProfiled = Ok found
    /\ map (fun record => (ComprehensiveDataAnalyzer.column1 record,
                           ComprehensiveDataAnalyzer.column2 record))
           (ComprehensiveDataAnalyzer.Correlations.significant found)
       = [("a", "b"); ("a", "c"); ("b", "c")]%string
    /\ (2 * List.length (ComprehensiveDataAnalyzer.Correlations.significant found)
        <= 3 * (3 - 1))%nat.
Proof.
  destruct (ComprehensiveDataAnalyzer.correlationsOf Examples.threeColumnsProfiled)
    as [found|e] eqn:Hfound; [|vm_compute in Hfound; discriminate].
  exists found. split; [reflexivity|]. split.
  { vm_compute in Hfound. injection Hfound as <-. reflexivity. }
  refine (proj2 (proj2 (@significant_pairs_once refEngine Examples.threeColumnsProfiled
                          Examples.threeColumns found eq_refl _ Hfound))).
  repeat constructor; cbn; intuition discriminate.
Defined.

End PairExamples.


(* ================================================================= *)
(** ** The explanations of the themes *)

Section Explanations.
Context {E : Engine}.
Import DataAnalyzer.
Local Open Scope string_scope.
Local Open Scope list_scope.

Lemma findThemes_made (this this' : analyzer) :
  findThemes this = Ok this' -> Forall made (themes this').
Proof.
  unfold findThemes.
  set (ts1 := if hasColumns this ["open"; "high"; "low"; "close"]
              then [] ++ [financialTheme] else []).
  assert (H1 : Forall made ts1)
    by (unfold ts1; destruct (hasColumns this _); repeat constructor).
  set (ts2 := if hasColumns this ["volume"] then ts1 ++ [volumeTheme] else ts1).
  assert (H2 : Forall made ts2).
  { unfold ts2. destruct (hasColumns this ["volume"]); [|exact H1].
    apply Forall_app. split; [exact H1|]. repeat constructor. }
  set (ts3 := if (0 <? List.length (dateColumns this))%nat
              then ts2 ++ [timeSeriesTheme (dateColumns this)] else ts2).
  assert (H3 : Forall made ts3).
  { unfold ts3. destruct (0 <? _)%nat; [|exact H2].
    apply Forall_app. split; [exact H2|]. repeat constructor. }
  clearbody ts3. clear ts1 ts2 H1 H2.
  destruct (if hasColumns this ["high"; "low"] then _ else _) as [ts4|e] eqn:H4;
    cbn [bind]; [|discriminate].
  assert (Hts4 : Forall made ts4).
  { destruct (hasColumns this ["high"; "low"]); [|injection H4 as <-; exact H3].
    destruct (calculateVolatility this) as [volatilities|e]; cbn [bind] in H4;
      [|discriminate].
    injection H4 as <-. apply Forall_app. split; [exact H3|]. repeat constructor. }
  destruct (if hasColumns this ["close"] then _ else _) as [ts5|e] eqn:H5;
    cbn [bind]; [|discriminate].
  assert (Hts5 : Forall made ts5).
  { destruct (hasColumns this ["close"]); [|injection H5 as <-; exact Hts4].
    destruct (getData this) as [rows|e]; cbn [bind] in H5; [|discriminate].
    destruct (10 <? List.length rows)%nat; [|injection H5 as <-; exact Hts4].
    destruct (calculateTrend this "close") as [t|e]; cbn [bind] in H5; [|discriminate].
    injection H5 as <-. apply Forall_app. split; [exact Hts4|]. repeat constructor. }
  destruct (forEachM _ (numericColumns this) ts5) as [ts6|e] eqn:H6; cbn [bind];
    [|discriminate].
  intros [= <-]. cbn [themes setThemes].
  refine (forEachM_invariant (Forall made) _ (numericColumns this) _ ts5 ts6 Hts5 H6).
  intros ts col ts' Hts.
  destruct (calculateStats this col) as [[st|]|e]; cbn [bind]; try discriminate.
  - intros [= <-]. apply Forall_app. split; [exact Hts|]. repeat constructor.
  - intros [= <-]. exact Hts.
Qed.

Lemma made_explanation (theme : theme) :
  made theme -> getDetailedExplanation theme <> ohlcExplanation.
Proof.
  assert (Hohlc : exists r, ohlcExplanation = String "T" (String "h" (String "i" r)))
    by (eexists; reflexivity).
  destruct Hohlc as [r0 Hohlc]. rewrite Hohlc.
  intros [| |dateCols|avgVolatility|t|col st].
  - change (getDetailedExplanation financialTheme) with (description financialTheme).
    discriminate.
  - change (getDetailedExplanation volumeTheme) with volumeExplanation.
    discriminate.
  - change (getDetailedExplanation (timeSeriesTheme dateCols)) with temporalExplanation.
    discriminate.
  - assert (H : exists r, getDetailedExplanation (volatilityTheme avgVolatility)
                          = String "V" r) by (eexists; reflexivity).
    destruct H as [r ->]. discriminate.
  - assert (H : exists r, getDetailedExplanation (trendTheme t)
                          = String "T" (String "h" (String "e" r)))
      by (eexists; reflexivity).
    destruct H as [r ->]. discriminate.
  - assert (H : exists r, getDetailedExplanation (distributionTheme col st)
                          = String "T" (String "h" (String "e" r)))
      by (eexists; reflexivity).
    destruct H as [r ->]. discriminate.
Qed.

(** The explanation of OHLC data is never shown: the theme of market data
    is named [Financial Market Data], where [getDetailedExplanation] looks
    for [OHLC], so the theme is explained by its own description, and no
    other theme [findThemes] makes comes to that branch. *)
Theorem OHLC_explanation_never_shown (this this' : analyzer) :
  findThemes this = Ok this' ->
  (hasColumns this ["open"; "high"; "low"; "close"] = true ->
   In financialTheme (themes this')
   /\ getDetailedExplanation financialTheme = description financialTheme)
  /\ forall theme, In theme (themes this') ->
       getDetailedExplanation theme <> ohlcExplanation.
Proof.
  intros Hfind. split.
  - intros Hhas. split; [|reflexivity].
    revert Hfind. unfold findThemes. rewrite Hhas. cbn [app].
    set (ts2 := if hasColumns this ["volume"] then _ else _).
    set (ts3 := if (0 <? _)%nat then _ else _).
    assert (H3 : In financialTheme ts3).
    { unfold ts3, ts2. destruct (0 <? _)%nat, (hasColumns this ["volume"]);
        cbn [app In]; auto. }
    clearbody ts3.
    assert (Hkeep : forall (ts ts' : list theme) (x : theme),
              In financialTheme ts -> In financialTheme (ts ++ [x]))
      by (intros; apply in_or_app; left; assumption).
    destruct (if hasColumns this ["high"; "low"] then _ else _) as [ts4|e] eqn:H4;
      cbn [bind]; [|discriminate].
    assert (Hts4 : In financialTheme ts4).
    { destruct (hasColumns this ["high"; "low"]); [|injection H4 as <-; exact H3].
      destruct (calculateVolatility this) as [volatilities|e]; cbn [bind] in H4;
        [|discriminate].
      injection H4 as <-. apply in_or_app. left. exact H3. }
    destruct (if hasColumns this ["close"] then _ else _) as [ts5|e] eqn:H5;
      cbn [bind]; [|discriminate].
    assert (Hts5 : In financialTheme ts5).
    { destruct (hasColumns this ["close"]); [|injection H5 as <-; exact Hts4].
      destruct (getData this) as [rows|e]; cbn [bind] in H5; [|discriminate].
      destruct (10 <? List.length rows)%nat; [|injection H5 as <-; exact Hts4].
      destruct (calculateTrend this "close") as [t|e]; cbn [bind] in H5; [|discriminate].
      injection H5 as <-. apply in_or_app. left. exact Hts4. }
    destruct (forEachM _ (numericColumns this) ts5) as [ts6|e] eqn:H6; cbn [bind];
      [|discriminate].
    intros [= <-]. cbn [themes setThemes].
    refine (forEachM_invariant (In financialTheme) _ (numericColumns this) _
              ts5 ts6 Hts5 H6).
    intros ts col ts' Hts.
    destruct (calculateStats this col) as [[st|]|e]; cbn [bind]; try discriminate.
    + intros [= <-]. apply in_or_app. left. exact Hts.
    + intros [= <-]. exact Hts.
  - intros theme Hin. apply made_explanation.
    pose proof (findThemes_made this this' Hfind) as Hmade.
    rewrite Forall_forall in Hmade. apply Hmade, Hin.
Qed.

End Explanations.

Section ExplanationExamples.
Local Open Scope string_scope.
Local Open Scope list_scope.
Local Open Scope float_scope.

(** A table with the four price columns gets the financial theme, explained
    by its description. *)
Lemma OHLC_explanation_never_shown_witness :
  exists this',
    DataAnalyzer.findThemes
      {| DataAnalyzer.data := Some [];
         DataAnalyzer.columns := ["Open"; "High"; "Low"; "Close"]%string;
         DataAnalyzer.numericColumns := []; DataAnalyzer.dateColumns := [];
         DataAnalyzer.themes := []; DataAnalyzer.correlations := [] |} = Ok this'
    /\ In DataAnalyzer.financialTheme (DataAnalyzer.themes this')
    /\ DataAnalyzer.getDetailedExplanation DataAnalyzer.financialTheme
       = "OHLC (Open, High, Low, Close) price data typical of stock market or trading data"%string.
Proof.
  destruct (DataAnalyzer.findThemes
              {| DataAnalyzer.data := Some [];
                 DataAnalyzer.columns := ["Open"; "High"; "Low"; "Close"]%string;
                 DataAnalyzer.numericColumns := []; DataAnalyzer.dateColumns := [];
                 DataAnalyzer.themes := []; DataAnalyzer.correlations := [] |})
    as [this'|e] eqn:Hthis; [|vm_compute in Hthis; discriminate].
  exists this'. split; [reflexivity|].
  exact (proj1 (@OHLC_explanation_never_shown refEngine _ this' Hthis) eq_refl).
Defined.

End ExplanationExamples.
